(** * BSU-Research dashboard data layer: cache validity, year filter and
      local re-aggregation

    A shallow embedding of the dashboard script of the repository (the
    functions [isCacheValid], [getCachedData], [setCachedData],
    [loadAllData] and [loadDashboardData], with the nested [getPubYear]),
    followed by the properties of the specification that concern them.

    The script is JavaScript, so the first part of the file models the
    fragment of the language run-time that the script relies on: dynamically
    typed values as they come out of [JSON.parse], property reads, truthiness,
    [ToString], [parseInt], [Math.floor], [trim] and [split].

    Conventions of the model.
    - A character of a Rocq [string] stands for one UTF-16 code unit below
      256, so the white space of [trim] and [parseInt] is the set
      9, 10, 11, 12, 13, 32 and 160.
    - A finite number is the decimal [m * 10^e]; integer results ([parseInt],
      [Math.floor], counters, clock readings) are exact integers, which is
      what IEEE doubles give up to 2^53.  The two zeros of JavaScript are
      one value.
    - An exception is a value of [result]; [try]/[catch] is a [match] on it. *)

From Stdlib Require Import ZArith String Ascii List Lia.
From stdpp Require Import gmap strings list fin_maps pretty.

Set Warnings "-register-all".
#[local] Open Scope Z_scope.

(** ** Exceptions *)

Inductive exn : Type :=
| TypeError (msg : string)
| Error (msg : string).

Inductive result (A : Type) : Type :=
| Ok (a : A)
| Throw (e : exn).

Arguments Ok {A} a.
Arguments Throw {A} e.

#[global] Instance result_ret : MRet result := fun A a => Ok a.
#[global] Instance result_bind : MBind result := fun A B f r =>
  match r with
  | Ok a => f a
  | Throw e => Throw e
  end.

Definition is_Ok {A} (r : result A) : Prop := exists a, r = Ok a.

(** ** Numbers *)

Module Number.

(** [Fin m e] is the finite number [m * 10^e]. *)
Inductive number : Type :=
| NaN
| Inf (neg : bool)
| Fin (m e : Z).

Definition ofZ (z : Z) : number := Fin z 0.

Definition isNaN (n : number) : bool :=
  match n with NaN => true | _ => false end.

(** [Math.floor]. *)
Definition floorZ (m e : Z) : Z :=
  if 0 <=? e then m * 10 ^ e else m / 10 ^ (- e).

Definition floor (n : number) : number :=
  match n with
  | Fin m e => ofZ (floorZ m e)
  | _ => n
  end.

(** Strict equality [===] of two numbers: equality of the values, and
    [NaN] differs from everything. *)
Definition eqb (a b : number) : bool :=
  match a, b with
  | Fin m1 e1, Fin m2 e2 =>
      let e := Z.min e1 e2 in
      m1 * 10 ^ (e1 - e) =? m2 * 10 ^ (e2 - e)
  | Inf s1, Inf s2 => Bool.eqb s1 s2
  | _, _ => false
  end.

(** [ToBoolean] of a number. *)
Definition truthy (n : number) : bool :=
  match n with
  | NaN => false
  | Inf _ => true
  | Fin m _ => negb (m =? 0)
  end.

(** The zero of [Number::toString]'s padding. *)
Definition zeros (n : nat) : list ascii := repeat "0"%char n.

Definition isZeroChar (c : ascii) : bool := Ascii.eqb c "0".

Fixpoint dropZeros (l : list ascii) : list ascii :=
  match l with
  | c :: l' => if isZeroChar c then dropZeros l' else l
  | [] => []
  end.

Definition decimal (z : Z) : list ascii :=
  list_ascii_of_string (pretty z).

(** [Number::toString] in radix 10 for a positive [s * 10^e]: with [k]
    significant digits and [n = k + e], the four layouts of ECMAScript. *)
Definition positiveToString (s : Z) (e : Z) : list ascii :=
  let all := decimal s in
  let ds := rev (dropZeros (rev all)) in
  let k := Z.of_nat (length ds) in
  let n := Z.of_nat (length all) + e in
  if (k <=? n) && (n <=? 21) then
    ds ++ zeros (Z.to_nat (n - k))
  else if (0 <? n) && (n <=? 21) then
    take (Z.to_nat n) ds ++ "."%char :: drop (Z.to_nat n) ds
  else if (-6 <? n) && (n <=? 0) then
    "0"%char :: "."%char :: zeros (Z.to_nat (- n)) ++ ds
  else
    let ex := (if 0 <=? n - 1 then "+"%char else "-"%char)
                :: decimal (Z.abs (n - 1)) in
    match ds with
    | [d] => d :: "e"%char :: ex
    | d :: rest => d :: "."%char :: rest ++ "e"%char :: ex
    | [] => []
    end.

(** [Number::toString].  [Fin m e] is printed with the digits of [m]:
    this is what JavaScript prints when [m * 10^e] is a double and [m],
    without its trailing zeros, is the shortest numeral that reads back as
    it, as for every integer up to 2^53.  Beyond that a double prints
    fewer digits than the integer has ([2^64] prints as
    18446744073709552000), and the model does not apply. *)
Definition toString (n : number) : string :=
  match n with
  | NaN => "NaN"
  | Inf false => "Infinity"
  | Inf true => "-Infinity"
  | Fin m e =>
      if m =? 0 then "0"
      else if m <? 0 then
        string_of_list_ascii ("-"%char :: positiveToString (- m) e)
      else string_of_list_ascii (positiveToString m e)
  end.

End Number.

Export Number (number, NaN, Inf, Fin).

(** ** Strings: white space, [trim], [split('/')[0]] and [parseInt] *)

Module Str.

Definition isWhiteSpace (c : ascii) : bool :=
  match N_of_ascii c with
  | 9 | 10 | 11 | 12 | 13 | 32 | 160 => true
  | _ => false
  end%N.

Fixpoint trimStart (l : list ascii) : list ascii :=
  match l with
  | c :: l' => if isWhiteSpace c then trimStart l' else l
  | [] => []
  end.

Definition trimEnd (l : list ascii) : list ascii :=
  rev (trimStart (rev l)).

Definition trim (l : list ascii) : list ascii := trimStart (trimEnd l).

(** [s.split('/')[0]]: the part of [s] before its first slash, all of [s]
    when it has none. *)
Fixpoint beforeSlash (l : list ascii) : list ascii :=
  match l with
  | c :: l' => if Ascii.eqb c "/" then [] else c :: beforeSlash l'
  | [] => []
  end.

(** The value of a character as a digit, in any radix up to 36. *)
Definition digitValue (c : ascii) : option Z :=
  let n := Z.of_N (N_of_ascii c) in
  if (48 <=? n) && (n <=? 57) then Some (n - 48)
  else if (97 <=? n) && (n <=? 122) then Some (n - 87)
  else if (65 <=? n) && (n <=? 90) then Some (n - 55)
  else None.

(** The longest prefix of radix-[R] digits, as a number; [acc] is [None]
    until a first digit is read. *)
Fixpoint digits (R : Z) (acc : option Z) (l : list ascii) : option Z :=
  match l with
  | [] => acc
  | c :: l' =>
      match digitValue c with
      | Some d =>
          if d <? R then digits R (Some (R * default 0 acc + d)) l' else acc
      | None => acc
      end
  end.

Definition stripSign (l : list ascii) : bool * list ascii :=
  match l with
  | c :: l' =>
      if Ascii.eqb c "-" then (true, l')
      else if Ascii.eqb c "+" then (false, l')
      else (false, l)
  | [] => (false, [])
  end.

Definition stripHex (l : list ascii) : option (list ascii) :=
  match l with
  | z :: x :: l' =>
      if Ascii.eqb z "0" && (Ascii.eqb x "x" || Ascii.eqb x "X")
      then Some l' else None
  | _ => None
  end.

(** [parseInt(s, radix)] on a string; radix [0] is the absent radix.
    [None] is [NaN]. *)
Definition parseIntChars (l : list ascii) (radix : Z) : option Z :=
  let '(neg, body) := stripSign (trimStart l) in
  let sign := if neg then (-1) else 1 in
  if negb (radix =? 0) && ((radix <? 2) || (36 <? radix)) then None
  else
    let R := if radix =? 0 then 10 else radix in
    let strip := (radix =? 0) || (radix =? 16) in
    let '(R, body) :=
      match (if strip then stripHex body else None) with
      | Some body' => (16, body')
      | None => (R, body)
      end in
    z ← digits R None body; Some (sign * z).

Definition parseInt (s : string) (radix : Z) : option Z :=
  parseIntChars (list_ascii_of_string s) radix.

(** The lists at which a radix-10 [parseInt] stops reading: the empty
    one, and those whose first character is neither a digit nor a sign. *)
Definition stops (t : list ascii) : Prop :=
  match t with
  | [] => True
  | c :: _ => digitValue c = None /\ Ascii.eqb c "-" = false
              /\ Ascii.eqb c "+" = false
  end.

Definition allWhite (w : list ascii) : Prop :=
  Forall (fun c => isWhiteSpace c = true) w.

(** [parseInt] after the leading white space is gone. *)
Definition parseTrimmed (y : list ascii) : option Z :=
  let '(neg, body) := stripSign y in
  z ← digits 10 None body; Some ((if neg then (-1) else 1) * z).

End Str.

(** ** Values

    The values the script handles come from [JSON.parse] (the cached
    envelope, the response body) or from the DOM (the selected year, a
    string).  [JUndef] is the result of reading a missing property. *)

Inductive JsVal : Type :=
| JUndef
| JNull
| JBool (b : bool)
| JNum (n : number)
| JStr (s : string)
| JArr (l : list JsVal)
| JObj (m : gmap string JsVal).

Definition JInt (z : Z) : JsVal := JNum (Number.ofZ z).

Module Js.

Definition cannotConvert : exn :=
  TypeError "Cannot convert object to primitive value".
Definition cannotRead : exn :=
  TypeError "Cannot read properties of null or undefined".
Definition notAFunction : exn := TypeError "is not a function".

(** [ToBoolean]. *)
Definition truthy (v : JsVal) : bool :=
  match v with
  | JUndef | JNull => false
  | JBool b => b
  | JNum n => Number.truthy n
  | JStr s => negb (String.eqb s EmptyString)
  | JArr _ | JObj _ => true
  end.

(** [v == null]. *)
Definition nullish (v : JsVal) : bool :=
  match v with JUndef | JNull => true | _ => false end.

(** [ToString].  An array joins its elements with commas, [null] and
    [undefined] elements giving the empty string.  An object parsed from
    JSON has no callable property: with an own [toString] the conversion
    finds no method that returns a primitive and throws; without one it
    is printed by [Object.prototype.toString]. *)
Fixpoint ToString (v : JsVal) : result string :=
  match v with
  | JUndef => Ok "undefined"
  | JNull => Ok "null"
  | JBool true => Ok "true"
  | JBool false => Ok "false"
  | JNum n => Ok (Number.toString n)
  | JStr s => Ok s
  | JArr l =>
      let element (x : JsVal) : result string :=
        match x with
        | JUndef | JNull => Ok EmptyString
        | _ => ToString x
        end in
      (fix join (l : list JsVal) : result string :=
         match l with
         | [] => Ok EmptyString
         | x :: l' =>
             s ← element x;
             match l' with
             | [] => Ok s
             | _ => r ← join l'; Ok (s +:+ "," +:+ r)
             end
         end) l
  | JObj m =>
      match m !! "toString" with
      | Some _ => Throw cannotConvert
      | None => Ok "[object Object]"
      end
  end.

(** [v.name], for a name that no built-in prototype defines (all the
    names the script reads are such): the own property of an object,
    [undefined] on any other value, a [TypeError] on [null] and
    [undefined]. *)
Definition getProp (v : JsVal) (name : string) : result JsVal :=
  match v with
  | JUndef | JNull => Throw cannotRead
  | JObj m => Ok (default JUndef (m !! name))
  | _ => Ok JUndef
  end.

(** The same read where the receiver is known not to be nullish. *)
Definition prop (v : JsVal) (name : string) : JsVal :=
  match v with
  | JObj m => default JUndef (m !! name)
  | _ => JUndef
  end.

(** [a || b]. *)
Definition or (a b : JsVal) : JsVal := if truthy a then a else b.

(** The receiver of [.filter(...)] or [.forEach(...)]: only an array has
    the method. *)
Definition asArray (v : JsVal) : result (list JsVal) :=
  match v with
  | JArr l => Ok l
  | JUndef | JNull => Throw cannotRead
  | _ => Throw notAFunction
  end.

(** [parseInt(v, radix)]: the argument is converted with [ToString]. *)
Definition parseInt (v : JsVal) (radix : Z) : result (option Z) :=
  s ← ToString v; Ok (Str.parseInt s radix).

(** The own enumerable properties copied by the spread [{...v}]. *)
Definition indexed (l : list JsVal) : gmap string JsVal :=
  list_to_map (imap (fun i x => (pretty (N.of_nat i), x)) l).

Definition spread (v : JsVal) : gmap string JsVal :=
  match v with
  | JObj m => m
  | JArr l => indexed l
  | JStr s =>
      indexed (map (fun c => JStr (String c EmptyString))
                   (list_ascii_of_string s))
  | _ => ∅
  end.

End Js.

(** ** The dashboard script *)

Definition CACHE_KEY : string := "bsu_research_data".
Definition CACHE_TIMESTAMP_KEY : string := "bsu_research_data_timestamp".
Definition CACHE_VERSION_KEY : string := "bsu_research_cache_version".
Definition CACHE_VERSION : Z := 2.
Definition CACHE_DURATION : Z := 24 * 60 * 60 * 1000.

(** [localStorage]: a map from keys to strings. *)
Abbreviation Storage := (gmap string string).

(** [ToString] of what [localStorage.getItem] returns, a string or [null]. *)
Definition itemToString (item : option string) : string :=
  default "null" item.

(** What the script reads from the clock: [Date.now()] and the fields of
    [new Date()]. *)
Record Clock : Type := {
  Date_now : Z;
  getFullYear : Z;
  getMonth : Z
}.

(** The outcome of [fetch] followed by [response.json()]. *)
Inductive FetchOutcome : Type :=
| Rejected
| Response (ok : bool) (body : result JsVal).

Inductive Level : Type := Log | Warn | Err.

(** What an execution does to the outside.  [EvQuarterly] and [EvColleges]
    are ghost events: control enters the first, respectively the second,
    [forEach] of the year filter.  The [console.warn] calls inside the two
    loops are left out, the conversions of their arguments are not. *)
Inductive Event : Type :=
| EvFetch
| EvRender (stats : JsVal)
| EvConsole (level : Level) (msg : string)
| EvQuarterly
| EvColleges.

Record Quarterly : Type := { q1 : Z; q2 : Z; q3 : Z; q4 : Z }.

(** The variables of the first loop. *)
Record Tally : Type := {
  quarterly_counts : Quarterly;
  publicationsWithoutMonth : Z;
  publicationsCountedInTotal : Z
}.

Definition quarterlyToJs (q : Quarterly) : JsVal :=
  JObj (<["q1" := JInt (q1 q)]> (<["q2" := JInt (q2 q)]>
       (<["q3" := JInt (q3 q)]> (<["q4" := JInt (q4 q)]> ∅)))).

Definition initialColleges : gmap string Z :=
  <["engineering" := 0]> (<["informatics_computing" := 0]>
  (<["engineering_technology" := 0]> (<["architecture_design" := 0]> ∅))).

(** The literal rendered when nothing else is available. *)
Definition zeroStats : JsVal :=
  JObj (<["total_publications" := JInt 0]>
       (<["college_counts" := JObj (JInt <$> initialColleges)]>
       (<["department_counts" := JObj ∅]>
       (<["quarterly_counts" := quarterlyToJs (Build_Quarterly 0 0 0 0)]> ∅)))).

(** [a || b] on two results of [parseInt]: [NaN] and [0] are falsy. *)
Definition orInt (a b : option Z) : option Z :=
  match a with
  | Some z => if z =? 0 then b else a
  | None => b
  end.

(** [isNaN(y) ? null : y]. *)
Definition nullIfNaN (y : option Z) : JsVal :=
  match y with
  | Some z => JInt z
  | None => JNull
  end.

(** The body of [getPubYear] after the read of [pub.year]. *)
Definition normalizeYear (pubYear : JsVal) : result JsVal :=
  match pubYear with
  | JUndef | JNull => Ok JNull
  | JStr s =>
      if String.eqb s EmptyString then Ok JNull
      else
        let l := list_ascii_of_string s in
        let y := orInt (Str.parseIntChars (Str.trim (Str.beforeSlash l)) 10)
                       (Str.parseIntChars (Str.trim l) 10) in
        Ok (nullIfNaN y)
  | JNum n =>
      if negb (Number.isNaN n) then Ok (JNum (Number.floor n))
      else y ← Js.parseInt pubYear 10; Ok (nullIfNaN y)
  | _ => y ← Js.parseInt pubYear 10; Ok (nullIfNaN y)
  end.

Definition getPubYear (pub : JsVal) : result JsVal :=
  pubYear ← Js.getProp pub "year"; normalizeYear pubYear.

(** [yearValue !== null && yearValue === filterYear]. *)
Definition yearMatches (yearValue : JsVal) (filterYear : Z) : bool :=
  match yearValue with
  | JNum n => Number.eqb n (Number.ofZ filterYear)
  | _ => false
  end.

(** [allPublications.filter(pub => ...)]. *)
Fixpoint filterByYear (filterYear : Z) (pubs : list JsVal)
  : result (list JsVal) :=
  match pubs with
  | [] => Ok []
  | pub :: rest =>
      yearValue ← getPubYear pub;
      kept ← filterByYear filterYear rest;
      Ok (if yearMatches yearValue filterYear then pub :: kept else kept)
  end.

Definition currentQuarterOf (currentMonth : Z) : Z :=
  if (1 <=? currentMonth) && (currentMonth <=? 3) then 1
  else if (4 <=? currentMonth) && (currentMonth <=? 6) then 2
  else if (7 <=? currentMonth) && (currentMonth <=? 9) then 3
  else if (10 <=? currentMonth) && (currentMonth <=? 12) then 4
  else 1.

Definition pubQuarterOf (monthInt : Z) : Z :=
  if (1 <=? monthInt) && (monthInt <=? 3) then 1
  else if (4 <=? monthInt) && (monthInt <=? 6) then 2
  else if (7 <=? monthInt) && (monthInt <=? 9) then 3
  else if (10 <=? monthInt) && (monthInt <=? 12) then 4
  else 0.

(** [quarterly_counts.qN++; publicationsCountedInTotal++]. *)
Definition countInQuarter (pubQuarter : Z) (t : Tally) : Tally :=
  let q := quarterly_counts t in
  let q' :=
    if pubQuarter =? 1 then Build_Quarterly (q1 q + 1) (q2 q) (q3 q) (q4 q)
    else if pubQuarter =? 2 then Build_Quarterly (q1 q) (q2 q + 1) (q3 q) (q4 q)
    else if pubQuarter =? 3 then Build_Quarterly (q1 q) (q2 q) (q3 q + 1) (q4 q)
    else if pubQuarter =? 4 then Build_Quarterly (q1 q) (q2 q) (q3 q) (q4 q + 1)
    else q in
  {| quarterly_counts := q';
     publicationsWithoutMonth := publicationsWithoutMonth t;
     publicationsCountedInTotal := publicationsCountedInTotal t + 1 |}.

(** [publicationsWithoutMonth++; if (!isCurrentYear)
    publicationsCountedInTotal++]: the three places that do it. *)
Definition countWithoutMonth (isCurrentYear : bool) (t : Tally) : Tally :=
  {| quarterly_counts := quarterly_counts t;
     publicationsWithoutMonth := publicationsWithoutMonth t + 1;
     publicationsCountedInTotal :=
       if isCurrentYear then publicationsCountedInTotal t
       else publicationsCountedInTotal t + 1 |}.

(** [month !== null && month !== undefined && month !== '']. *)
Definition monthPresent (month : JsVal) : bool :=
  match month with
  | JNull | JUndef => false
  | JStr s => negb (String.eqb s EmptyString)
  | _ => true
  end.

(** The body of the first [forEach].  The inner [try] covers [parseInt]
    and, on the invalid branch, the template literal that prints [month];
    what was counted before an exception stays counted. *)
Definition quarterStep (isCurrentYear : bool) (currentQuarter : Z)
    (t : Tally) (pub : JsVal) : result Tally :=
  month ← Js.getProp pub "month";
  if monthPresent month then
    match Js.ToString month with
    | Throw _ => Ok (countWithoutMonth isCurrentYear t)
    | Ok s =>
        let invalid :=
          let t1 := countWithoutMonth isCurrentYear t in
          match Js.ToString month with
          | Throw _ => Ok (countWithoutMonth isCurrentYear t1)
          | Ok _ => Ok t1
          end in
        match Str.parseInt s 0 with
        | Some monthInt =>
            if (1 <=? monthInt) && (monthInt <=? 12) then
              let pubQuarter := pubQuarterOf monthInt in
              if (0 <? pubQuarter)
                 && (negb isCurrentYear || (pubQuarter <=? currentQuarter))
              then Ok (countInQuarter pubQuarter t)
              else Ok t
            else invalid
        | None => invalid
        end
    end
  else Ok (countWithoutMonth isCurrentYear t).

(** [list.forEach(step)] over a loop state. *)
Fixpoint forEach {S : Type} (step : S -> JsVal -> result S)
    (s : S) (l : list JsVal) : result S :=
  match l with
  | [] => Ok s
  | x :: l' => s' ← step s x; forEach step s' l'
  end.

Definition initialTally : Tally :=
  {| quarterly_counts := Build_Quarterly 0 0 0 0;
     publicationsWithoutMonth := 0;
     publicationsCountedInTotal := 0 |}.

Definition quarterlyPass (isCurrentYear : bool) (currentQuarter : Z)
    (filteredPublications : list JsVal) : result Tally :=
  forEach (quarterStep isCurrentYear currentQuarter) initialTally
          filteredPublications.

(** [if (college_counts.hasOwnProperty(c)) college_counts[c]++]: the
    entry is converted to a property key with [ToString]. *)
Definition countCollege (college_counts : gmap string Z) (c : JsVal)
  : result (gmap string Z) :=
  key ← Js.ToString c;
  match college_counts !! key with
  | Some n => Ok (<[key := n + 1]> college_counts)
  | None => Ok college_counts
  end.

(** The body of the second [forEach]. *)
Definition collegeStep (college_counts : gmap string Z) (pub : JsVal)
  : result (gmap string Z) :=
  field ← Js.getProp pub "colleges";
  colleges ← Js.asArray (Js.or field (JArr []));
  forEach countCollege college_counts colleges.

Definition collegePass (filteredPublications : list JsVal)
  : result (gmap string Z) :=
  forEach collegeStep initialColleges filteredPublications.

Definition sumQuarters (q : Quarterly) : Z := q1 q + q2 q + q3 q + q4 q.

(** [isCurrentYear ? publicationsCountedInTotal
                   : filteredPublications.length]. *)
Definition totalPublications (isCurrentYear : bool) (t : Tally)
    (filteredPublications : list JsVal) : Z :=
  if isCurrentYear then publicationsCountedInTotal t
  else Z.of_nat (length filteredPublications).

(** The condition of the mismatch diagnostic. *)
Definition mismatch (isCurrentYear : bool) (t : Tally) (total : Z) : bool :=
  negb (sumQuarters (quarterly_counts t) + publicationsWithoutMonth t =? total)
  && negb isCurrentYear.

(** [{...dashboardStats, total_publications, quarterly_counts,
    college_counts}]. *)
Definition mergeStats (dashboardStats : JsVal) (total : Z) (q : Quarterly)
    (college_counts : gmap string Z) : JsVal :=
  JObj (<["college_counts" := JObj (JInt <$> college_counts)]>
       (<["quarterly_counts" := quarterlyToJs q]>
       (<["total_publications" := JInt total]> (Js.spread dashboardStats)))).

(** What the year filter computes from the cached envelope. *)
Record Recomputed : Type := {
  total_publications : Z;
  quarters : Tally;
  college_counts : gmap string Z
}.

(** The part of [loadDashboardData] between the test of [filterYear] and
    the assignment to [dashboardStats], with the events it leaves behind
    whether it completes or throws. *)
Definition recompute (clock : Clock) (cachedData : JsVal) (filterYear : Z)
  : list Event * result Recomputed :=
  let allPublications := Js.or (Js.prop cachedData "publications") (JArr []) in
  match (pubs ← Js.asArray allPublications; filterByYear filterYear pubs) with
  | Throw e => ([], Throw e)
  | Ok filteredPublications =>
      let currentYear := getFullYear clock in
      let currentMonth := getMonth clock + 1 in
      let isCurrentYear := filterYear =? currentYear in
      let currentQuarter := currentQuarterOf currentMonth in
      match quarterlyPass isCurrentYear currentQuarter filteredPublications with
      | Throw e => ([EvQuarterly], Throw e)
      | Ok t =>
          let total := totalPublications isCurrentYear t filteredPublications in
          let warned :=
            if mismatch isCurrentYear t total
            then [EvConsole Warn "Quarterly count mismatch"] else [] in
          match collegePass filteredPublications with
          | Throw e => (EvQuarterly :: warned ++ [EvColleges], Throw e)
          | Ok cc =>
              (EvQuarterly :: warned ++ [EvColleges],
               Ok {| total_publications := total;
                     quarters := t;
                     college_counts := cc |})
          end
      end
  end.

Section Loader.

(** The parts of the run-time and of the page that the loader calls and
    that stay abstract: [JSON.parse], which throws on malformed text,
    [JSON.stringify], and whether the render function [updateDashboard]
    throws on a given argument. *)
Variable JSON_parse : string -> result JsVal.
Variable JSON_stringify : JsVal -> string.
Variable updateDashboard_throws : JsVal -> bool.

Definition isCacheValid (clock : Clock) (localStorage : Storage) : bool :=
  match Str.parseInt (itemToString (localStorage !! CACHE_VERSION_KEY)) 10 with
  | None => false
  | Some version =>
      if negb (version =? CACHE_VERSION) then false
      else
        match localStorage !! CACHE_TIMESTAMP_KEY with
        | None => false
        | Some timestamp =>
            if String.eqb timestamp EmptyString then false
            else
              match Str.parseInt timestamp 0 with
              | None => false
              | Some stamp => Date_now clock - stamp <? CACHE_DURATION
              end
        end
  end.

Definition getCachedData (localStorage : Storage) : JsVal :=
  match localStorage !! CACHE_KEY with
  | Some cached =>
      if String.eqb cached EmptyString then JNull
      else
        match JSON_parse cached with
        | Ok v => v
        | Throw _ => JNull
        end
  | None => JNull
  end.

Definition setCachedData (clock : Clock) (data : JsVal)
    (localStorage : Storage) : Storage :=
  <[CACHE_VERSION_KEY := Number.toString (Number.ofZ CACHE_VERSION)]>
  (<[CACHE_TIMESTAMP_KEY := Number.toString (Number.ofZ (Date_now clock))]>
  (<[CACHE_KEY := JSON_stringify data]> localStorage)).

(** The [try] block of [loadAllData]: the storage and the events it
    leaves, and whether it completed. *)
Definition fetchAndStore (clock : Clock) (net : FetchOutcome)
    (localStorage : Storage) : Storage * list Event * result unit :=
  match net with
  | Rejected => (localStorage, [EvFetch], Throw (TypeError "Failed to fetch"))
  | Response ok body =>
      if negb ok then
        (localStorage, [EvFetch], Throw (Error "Failed to fetch data"))
      else
        match (data ← body; err ← Js.getProp data "error"; Ok (data, err)) with
        | Throw e => (localStorage, [EvFetch], Throw e)
        | Ok (data, err) =>
            if Js.truthy err then
              (localStorage, [EvFetch], Throw (Error "data.error"))
            else
              let stats := Js.prop data "dashboard_stats" in
              (setCachedData clock data localStorage,
               [EvFetch; EvRender stats],
               if updateDashboard_throws stats
               then Throw (TypeError "updateDashboard") else Ok tt)
        end
  end.

(** The [catch] block of [loadAllData]. *)
Definition fallback (localStorage : Storage) : list Event :=
  let cachedData := getCachedData localStorage in
  EvConsole Err "Error loading data:"
  :: EvConsole Err "Failed to load dashboard data"
  :: (if Js.truthy cachedData then
        [EvConsole Log "Using expired cached data due to fetch error";
         EvRender (Js.prop cachedData "dashboard_stats")]
      else [EvRender zeroStats]).

Definition loadAllData (clock : Clock) (net : FetchOutcome)
    (localStorage : Storage) : Storage * list Event :=
  let cachedData := getCachedData localStorage in
  if isCacheValid clock localStorage && Js.truthy cachedData then
    (localStorage,
     [EvConsole Log "Using cached data";
      EvRender (Js.prop cachedData "dashboard_stats")])
  else
    let '(stored, events, outcome) := fetchAndStore clock net localStorage in
    match outcome with
    | Ok _ => (stored, events)
    | Throw _ => (stored, events ++ fallback stored)
    end.

Definition loadDashboardData (clock : Clock) (net : FetchOutcome)
    (year : string) (localStorage : Storage) : Storage * list Event :=
  let cachedData := getCachedData localStorage in
  if negb (Js.truthy cachedData) then loadAllData clock net localStorage
  else
    let dashboardStats := Js.prop cachedData "dashboard_stats" in
    let filterFailed := EvConsole Err "Error filtering by year:" in
    if String.eqb year EmptyString then (localStorage, [EvRender dashboardStats])
    else
      match Str.parseInt year 10 with
      | None =>
          if updateDashboard_throws dashboardStats then
            (localStorage,
             [EvRender dashboardStats; filterFailed; EvRender dashboardStats])
          else (localStorage, [EvRender dashboardStats])
      | Some filterYear =>
          match recompute clock cachedData filterYear with
          | (events, Throw _) =>
              (localStorage,
               events ++ [filterFailed; EvRender dashboardStats])
          | (events, Ok r) =>
              (localStorage,
               events ++
               [EvRender (mergeStats dashboardStats (total_publications r)
                            (quarterly_counts (quarters r))
                            (college_counts r))])
          end
      end.

End Loader.

(** ** Vocabulary of the specification

    The definitions below follow the words of the specification; the
    theorems compare the script with them. *)

(** "Valid only if parseable as integer in [1,12]; anything else (missing,
    non-numeric, out of range, or a parse exception) is treated as month
    unknown." *)
Definition normalizeMonth (rawMonth : JsVal) : option Z :=
  match rawMonth with
  | JNull | JUndef => None
  | _ =>
      match Js.parseInt rawMonth 0 with
      | Ok (Some m) => if (1 <=? m) && (m <=? 12) then Some m else None
      | Ok None | Throw _ => None
      end
  end.

Definition monthOf (pub : JsVal) : option Z :=
  normalizeMonth (Js.prop pub "month").

(** The month of the record is known and lies in [lo .. hi]. *)
Definition monthIn (lo hi : Z) (pub : JsVal) : bool :=
  match monthOf pub with
  | Some m => (lo <=? m) && (m <=? hi)
  | None => false
  end.

Definition monthUnknown (pub : JsVal) : bool :=
  match monthOf pub with
  | Some _ => false
  | None => true
  end.

(** The fixed mapping of months to quarters: quarter [q] is the months
    [3q - 2 .. 3q]. *)
Definition inQuarter (q : Z) (pub : JsVal) : bool :=
  monthIn (3 * q - 2) (3 * q) pub.

Definition countIf (P : JsVal -> bool) (l : list JsVal) : Z :=
  Z.of_nat (length (List.filter P l)).

(** The record is selected by the year filter: its normalized year is the
    filter year. *)
Definition yearIs (filterYear : Z) (pub : JsVal) : bool :=
  match getPubYear pub with
  | Ok yearValue => yearMatches yearValue filterYear
  | Throw _ => false
  end.

(** A value that is not an array or an object. *)
Definition scalar (v : JsVal) : bool :=
  match v with
  | JArr _ | JObj _ => false
  | _ => true
  end.

(** The year filter reads the record without a conversion that can
    throw: the record has properties, and its year is a number, a string,
    a boolean, or missing. *)
Definition yearIsScalar (pub : JsVal) : bool :=
  negb (Js.nullish pub) && scalar (Js.prop pub "year").

(** The [colleges] sequence of a record of the data model: a sequence of
    strings, the empty one when the field is missing or falsy. *)
Definition stringsOf (l : list JsVal) : option (list string) :=
  mapM (fun c => match c with JStr s => Some s | _ => None end) l.

Definition collegeNames (pub : JsVal) : option (list string) :=
  if Js.nullish pub then None
  else
    match Js.prop pub "colleges" with
    | JArr l => stringsOf l
    | field => if Js.truthy field then None else Some []
    end.

Definition collegeKeys : list string :=
  ["engineering"; "informatics_computing"; "engineering_technology";
   "architecture_design"].

Definition occurrences (k : string) (names : list string) : Z :=
  Z.of_nat (length (List.filter (String.eqb k) names)).

(** The three fields that the year filter recomputes. *)
Definition recomputedFields : list string :=
  ["total_publications"; "quarterly_counts"; "college_counts"].

(** The fetch failed, as the script tests it: a network error, a status
    that is not a success, a body that is not JSON, or a body whose
    [error] field is truthy ([if (data.error)]). *)
Definition fetchFailed (net : FetchOutcome) : Prop :=
  match net with
  | Rejected => True
  | Response false _ => True
  | Response true (Throw _) => True
  | Response true (Ok data) =>
      exists err, Js.getProp data "error" = Ok err /\ Js.truthy err = true
  end.

(** "An error field present in the response body": the body is an object
    that has an [error] property, whatever its value. *)
Definition errorFieldPresent (net : FetchOutcome) : Prop :=
  match net with
  | Response true (Ok (JObj body)) => is_Some (body !! "error")
  | _ => False
  end.

Definition renders (events : list Event) : list JsVal :=
  omap (fun e => match e with EvRender v => Some v | _ => None end) events.

(** "The all-zero DashboardStats (all counts 0)": the total is 0, the
    count of each college and of each quarter is 0, and no department has
    a count. *)
Definition allZero (stats : JsVal) : Prop :=
  Js.prop stats "total_publications" = JInt 0
  /\ (forall college, List.In college collegeKeys ->
        Js.prop (Js.prop stats "college_counts") college = JInt 0)
  /\ (forall quarter, List.In quarter ["q1"; "q2"; "q3"; "q4"]%string ->
        Js.prop (Js.prop stats "quarterly_counts") quarter = JInt 0)
  /\ Js.prop stats "department_counts" = JObj ∅.

Definition isDecimalDigit (c : ascii) : bool :=
  ((48 <=? N_of_ascii c) && (N_of_ascii c <=? 57))%N.

(** "An integer-as-string": an optional minus sign followed by one or more
    decimal digits, and nothing else. *)
Definition validInteger (year : string) : bool :=
  match list_ascii_of_string year with
  | c :: l =>
      if Ascii.eqb c "-"
      then negb (Nat.eqb (length l) 0) && forallb isDecimalDigit l
      else forallb isDecimalDigit (c :: l)
  | [] => false
  end.

(** ** Auxiliary definitions of the proofs *)

(** A value whose properties can be read. *)
Definition nonNullish (v : JsVal) : Prop := Js.nullish v = false.

(** A publication record of the data model, as far as the recomputation
    reads it: the year is a number, a string or missing, [colleges] is a
    sequence of strings or missing; the month is unconstrained. *)
Definition PublicationRecord (pub : JsVal) : Prop :=
  yearIsScalar pub = true /\ is_Some (collegeNames pub).

(** What one iteration does, by the normalized month of the record. *)
Definition stepEffect (isCurrentYear : bool) (currentQuarter : Z)
    (t : Tally) (pub : JsVal) : Tally :=
  match monthOf pub with
  | Some m =>
      if negb isCurrentYear || (pubQuarterOf m <=? currentQuarter)
      then countInQuarter (pubQuarterOf m) t else t
  | None => countWithoutMonth isCurrentYear t
  end.

Definition ind (b : bool) : Z := if b then 1 else 0.

(** The record is tallied into quarter [q]. *)
Definition tallied (isCurrentYear : bool) (currentQuarter q : Z)
    (pub : JsVal) : bool :=
  inQuarter q pub && (negb isCurrentYear || (q <=? currentQuarter)).

(** The record is counted in [publicationsCountedInTotal]. *)
Definition counted (isCurrentYear : bool) (currentQuarter : Z)
    (pub : JsVal) : bool :=
  match monthOf pub with
  | Some m => negb isCurrentYear || (m <=? 3 * currentQuarter)
  | None => negb isCurrentYear
  end.

(** The change of the six counters between two states of the first loop. *)
Record StepCounts (isCurrentYear : bool) (currentQuarter : Z)
    (t t' : Tally) (d1 d2 d3 d4 dw dc : Z) : Prop := {
  step_q1 : q1 (quarterly_counts t') = q1 (quarterly_counts t) + d1;
  step_q2 : q2 (quarterly_counts t') = q2 (quarterly_counts t) + d2;
  step_q3 : q3 (quarterly_counts t') = q3 (quarterly_counts t) + d3;
  step_q4 : q4 (quarterly_counts t') = q4 (quarterly_counts t) + d4;
  step_without : publicationsWithoutMonth t' = publicationsWithoutMonth t + dw;
  step_counted :
    publicationsCountedInTotal t' = publicationsCountedInTotal t + dc
}.

(** [countCollege] on a string entry. *)
Definition bump (cc : gmap string Z) (name : string) : gmap string Z :=
  match cc !! name with
  | Some n => <[name := n + 1]> cc
  | None => cc
  end.

(** ** Sample data *)

Module Sample.

Definition publication (year month : JsVal) : JsVal :=
  JObj (<["year" := year]> (<["month" := month]> ∅)).

(** [[{year:2023,month:1},{year:2023,month:4},{year:2023,month:null}]] *)
Definition publications : list JsVal :=
  [publication (JInt 2023) (JInt 1);
   publication (JInt 2023) (JInt 4);
   publication (JInt 2023) JNull].

Definition withColleges (names : list string) : JsVal :=
  JObj (<["colleges" := JArr (JStr <$> names)]> ∅).

(** [[{colleges:["engineering"]},
      {colleges:["engineering","informatics_computing"]},
      {colleges:[]}]] *)
Definition collegeRecords : list JsVal :=
  [withColleges ["engineering"];
   withColleges ["engineering"; "informatics_computing"];
   withColleges []].

Definition stats : gmap string JsVal :=
  <["total_publications" := JInt 7]>
  (<["earliest_year" := JInt 2019]>
  (<["department_counts" := JObj (<["cs" := JInt 7]> ∅)]> ∅)).

Definition envelope : JsVal :=
  JObj (<["dashboard_stats" := JObj stats]>
       (<["publications" := JArr publications]> ∅)).

Definition envelopeText : string := "{dashboard_stats:{...},publications:[...]}".

Definition february2023 : Clock :=
  {| Date_now := 1676000000000; getFullYear := 2023; getMonth := 1 |}.

Definition march2024 : Clock :=
  {| Date_now := 1710000000000; getFullYear := 2024; getMonth := 2 |}.

(** [JSON.parse] and [JSON.stringify] on the one text of the samples. *)
Definition parse (text : string) : result JsVal :=
  if String.eqb text envelopeText then Ok envelope
  else Throw (Error "SyntaxError").

Definition stringify (v : JsVal) : string := envelopeText.

Definition neverThrows (v : JsVal) : bool := false.

(** An envelope stored in September 2020 under schema version 1. *)
Definition staleStorage : Storage :=
  <[CACHE_KEY := envelopeText]>
  (<[CACHE_TIMESTAMP_KEY := "1600000000000"]>
  (<[CACHE_VERSION_KEY := "1"]> ∅)).

(** An envelope stored one hour before [march2024]. *)
Definition freshStorage : Storage :=
  <[CACHE_KEY := envelopeText]>
  (<[CACHE_TIMESTAMP_KEY := "1709996400000"]>
  (<[CACHE_VERSION_KEY := "2"]> ∅)).

End Sample.

(** * The rest of the code

    The parts of the repository around the functions above: in the
    dashboard script, [clearCacheOnClose], the listeners of
    [DOMContentLoaded] and [beforeunload], and the text that
    [updateDashboard] writes into a box; in the report page, the pages of
    the preview ([renderPreviewPage], [renderPagination], [goPreviewPrev],
    [goPreviewNext] and the end of [loadPreview]); in the faculty page,
    [normalizeDepartmentName].  What these functions do to the document
    is left out, apart from the texts and rows named here. *)

(** ** Decimal numerals

    The numeral of a natural number, as [pretty] writes it, and the
    characters it is made of: the vocabulary of the round trip between
    [toString] and [parseInt]. *)

Definition decimalDigit (c : ascii) : Prop :=
  exists d, 0 <= d <= 9 /\ Str.digitValue c = Some d
            /\ Ascii.eqb c "-" = false /\ Ascii.eqb c "+" = false
            /\ Ascii.eqb c "x" = false /\ Ascii.eqb c "X" = false
            /\ Str.isWhiteSpace c = false.

Definition numeral (x : N) : list ascii :=
  list_ascii_of_string (pretty_N_go x EmptyString).


(** ** The dashboard script: clearing the cache and the page life cycle *)

(** [clearCacheOnClose]: the three [removeItem] calls, on a storage whose
    operations do not throw. *)
Definition clearCacheOnClose (localStorage : Storage) : Storage :=
  delete CACHE_VERSION_KEY
    (delete CACHE_TIMESTAMP_KEY (delete CACHE_KEY localStorage)).

Definition INTERNAL_NAV : string := "internal_nav".

(** The two stores of the browser that the script uses. *)
Record Browser : Type := {
  local : Storage;
  session : Storage
}.

(** The listener of [DOMContentLoaded]: the page is drawn, [loadAllData]
    runs, and the navigation flag is removed.  [loadAllData] is taken to
    its end: the request it may issue has settled. *)
Definition onDOMContentLoaded (JSON_parse : string -> result JsVal)
    (JSON_stringify : JsVal -> string) (updateDashboard_throws : JsVal -> bool)
    (clock : Clock) (net : FetchOutcome) (b : Browser)
  : Browser * list Event :=
  let '(stored, events) :=
    loadAllData JSON_parse JSON_stringify updateDashboard_throws clock net
                (local b) in
  ({| local := stored; session := delete INTERNAL_NAV (session b) |}, events).

(** The click listener of the links to the other pages of the site. *)
Definition onInternalLinkClick (b : Browser) : Browser :=
  {| local := local b; session := <[INTERNAL_NAV := "1"]> (session b) |}.

(** The listener of [beforeunload]:
    [if (!sessionStorage.getItem('internal_nav')) clearCacheOnClose();
     sessionStorage.removeItem('internal_nav');] *)
Definition onBeforeUnload (b : Browser) : Browser :=
  let flagged :=
    match session b !! INTERNAL_NAV with
    | Some flag => negb (String.eqb flag EmptyString)
    | None => false
    end in
  {| local := if flagged then local b else clearCacheOnClose (local b);
     session := delete INTERNAL_NAV (session b) |}.

(** A visit of the page: it loads, and once the load has settled [clicks]
    internal links are clicked, then it unloads. *)
Definition visit (JSON_parse : string -> result JsVal)
    (JSON_stringify : JsVal -> string) (updateDashboard_throws : JsVal -> bool)
    (clock : Clock) (net : FetchOutcome) (clicks : nat) (b : Browser)
  : Browser :=
  onBeforeUnload
    (Nat.iter clicks onInternalLinkClick
       (fst (onDOMContentLoaded JSON_parse JSON_stringify
               updateDashboard_throws clock net b))).

(** ** The dashboard script: the text of a box *)

(** [s.padStart(targetLength, pad)] for a one-character [pad]. *)
Definition padStart (targetLength : nat) (pad : ascii) (s : string) : string :=
  string_of_list_ascii
    (repeat pad (targetLength - String.length s) ++ list_ascii_of_string s).

(** [String(value || 0).padStart(2, '0')], the text [updateDashboard]
    writes for the total, for each college and for each quarter. *)
Definition boxText (value : JsVal) : result string :=
  s ← Js.ToString (Js.or value (JInt 0)); Ok (padStart 2 "0" s).

(** All the college entries of the records that have a [colleges]
    sequence of strings, in order. *)
Definition collegeEntries (records : list JsVal) : list string :=
  concat (map (fun pub => default [] (collegeNames pub)) records).

(** ** The report page: the pages of the preview

    The preview of the report page keeps the publications of the last
    preview and the number of the page on show.  A row of the table is
    modelled by its number and the texts of its cells; the markup around
    them, and the entities [escapeHtml] writes for markup characters, are
    left out.  The publications of a preview are an array, and the
    elements of the pagination are in the document. *)

Module Reports.

Definition PREVIEW_PAGE_SIZE : Z := 20.

(** The module variables [lastPreviewPublications] ([None] is [null]) and
    [currentPreviewPage]. *)
Record PreviewState : Type := {
  lastPreviewPublications : option (list JsVal);
  currentPreviewPage : Z
}.

(** An index of [Array.prototype.slice], relative to the length. *)
Definition relativeIndex (len i : Z) : Z :=
  if i <? 0 then Z.max (len + i) 0 else Z.min i len.

(** [l.slice(start, end)] for integers [start] and [end]. *)
Definition slice {A : Type} (l : list A) (start end_ : Z) : list A :=
  let len := Z.of_nat (length l) in
  let k := relativeIndex len start in
  let final := relativeIndex len end_ in
  take (Z.to_nat (Z.max (final - k) 0)) (drop (Z.to_nat k) l).

(** [Math.ceil(total / PREVIEW_PAGE_SIZE)] for a length [total]. *)
Definition totalPagesOf (total : Z) : Z :=
  (total + PREVIEW_PAGE_SIZE - 1) / PREVIEW_PAGE_SIZE.

Definition totalPages (s : PreviewState) : Z :=
  match lastPreviewPublications s with
  | Some pubs => totalPagesOf (Z.of_nat (length pubs))
  | None => 0
  end.

(** A row of the preview: its number and the texts of its five cells. *)
Record Row : Type := {
  no : Z;
  title : string;
  authors : string;
  college_campus : string;
  venue : string;
  pub_type : string
}.

(** [escapeHtml(v || '')]: the text given to [textContent], which converts
    it to a string.  [v || ''] is never [null] or [undefined], so the
    first line of [escapeHtml] is not taken. *)
Definition cellText (v : JsVal) : result string :=
  Js.ToString (Js.or v (JStr EmptyString)).

(** [s.replace(/\n/g, ', ')]. *)
Definition replaceNewlines (s : string) : string :=
  string_of_list_ascii
    (flat_map (fun c => if Ascii.eqb c "010" then [","; " "]%char else [c])
              (list_ascii_of_string s)).

(** [escapeHtml((v || '').replace(/\n/g, ', '))]: only a string has the
    method [replace]; a value parsed from JSON holds no function. *)
Definition authorsText (v : JsVal) : result string :=
  match Js.or v (JStr EmptyString) with
  | JStr s => Ok (replaceNewlines s)
  | _ => Throw Js.notAFunction
  end.

(** The callback of [pagePubs.map] on the publication [p] of number
    [no]: the five fields are read and converted in the order of the
    concatenation. *)
Definition previewRow (no : Z) (p : JsVal) : result Row :=
  title ← Js.getProp p "title";
  title ← cellText title;
  authors ← Js.getProp p "authors";
  authors ← authorsText authors;
  college_campus ← Js.getProp p "college_campus";
  college_campus ← cellText college_campus;
  venue ← Js.getProp p "venue";
  venue ← cellText venue;
  pub_type ← Js.getProp p "pub_type";
  pub_type ← cellText pub_type;
  Ok {| no := no; title := title; authors := authors;
        college_campus := college_campus; venue := venue;
        pub_type := pub_type |}.

(** [pagePubs.map(function (p, i) { const no = start + i + 1; ... })]:
    the rows in order, up to the first publication whose row throws. *)
Fixpoint previewRows (start : Z) (pagePubs : list JsVal)
  : result (list Row) :=
  match pagePubs with
  | [] => Ok []
  | p :: rest =>
      row ← previewRow (start + 1) p;
      rows ← previewRows (start + 1) rest;
      Ok (row :: rows)
  end.

(** [pagePubs] of [renderPreviewPage(page)]. *)
Definition pagePublications (pubs : list JsVal) (page : Z) : list JsVal :=
  let total := Z.of_nat (length pubs) in
  let start := (page - 1) * PREVIEW_PAGE_SIZE in
  let end_ := Z.min (start + PREVIEW_PAGE_SIZE) total in
  slice pubs start end_.

(** The rows [renderPreviewPage(page)] builds. *)
Definition pageRows (pubs : list JsVal) (page : Z) : result (list Row) :=
  previewRows ((page - 1) * PREVIEW_PAGE_SIZE) (pagePublications pubs page).

(** [renderPreviewPage(page)]; [tbody] tells whether the table body is in
    the document.  The result is the state it leaves and what it does to
    the table: [Ok None] when it returns at once, [Ok (Some rows)] when it
    writes [rows], and the exception when a row throws; the page number
    is assigned before the rows are built. *)
Definition renderPreviewPage (tbody : bool) (page : Z) (s : PreviewState)
  : PreviewState * result (option (list Row)) :=
  match lastPreviewPublications s with
  | Some pubs =>
      if tbody then
        ({| lastPreviewPublications := Some pubs;
            currentPreviewPage := page |},
         rows ← pageRows pubs page; Ok (Some rows))
      else (s, Ok None)
  | None => (s, Ok None)
  end.

(** What [renderPagination] shows when it shows the pagination: the range
    of the info line, the two buttons, and the page numbers. *)
Record Pagination : Type := {
  showingFrom : Z;
  showingTo : Z;
  showingOf : Z;
  prevDisabled : bool;
  nextDisabled : bool;
  pageNumbers : list Z
}.

(** [renderPagination()]; [None] when it hides the pagination or returns
    at once. *)
Definition renderPagination (s : PreviewState) : option Pagination :=
  match lastPreviewPublications s with
  | None => None
  | Some pubs =>
      let total := Z.of_nat (length pubs) in
      if total <=? PREVIEW_PAGE_SIZE then None
      else
        let pages := totalPagesOf total in
        let current := currentPreviewPage s in
        let endPage := Z.min (current + 2) pages in
        Some {| showingFrom := (current - 1) * PREVIEW_PAGE_SIZE + 1;
                showingTo := Z.min (current * PREVIEW_PAGE_SIZE) total;
                showingOf := total;
                prevDisabled := current <=? 1;
                nextDisabled := pages <=? current;
                pageNumbers := seqZ current (endPage - current + 1) |}
  end.

(** What a click listener does to the page. *)
Inductive Outcome : Type :=
| Idle
| Drawn (rows : option (list Row)) (view : option Pagination)
| Threw (e : exn).

(** [renderPreviewPage(page); renderPagination();] *)
Definition draw (tbody : bool) (page : Z) (s : PreviewState)
  : PreviewState * Outcome :=
  let '(s', drawn) := renderPreviewPage tbody page s in
  match drawn with
  | Ok rows => (s', Drawn rows (renderPagination s'))
  | Throw e => (s', Threw e)
  end.

Definition goPreviewPrev (tbody : bool) (s : PreviewState)
  : PreviewState * Outcome :=
  match lastPreviewPublications s with
  | None => (s, Idle)
  | Some _ =>
      if 1 <? currentPreviewPage s
      then draw tbody (currentPreviewPage s - 1) s
      else (s, Idle)
  end.

Definition goPreviewNext (tbody : bool) (s : PreviewState)
  : PreviewState * Outcome :=
  match lastPreviewPublications s with
  | None => (s, Idle)
  | Some _ =>
      if currentPreviewPage s <? totalPages s
      then draw tbody (currentPreviewPage s + 1) s
      else (s, Idle)
  end.

(** The click listener of a page number; [pages] is the number of pages
    at the time the button was drawn. *)
Definition clickPageNumber (tbody : bool) (pages page : Z) (s : PreviewState)
  : PreviewState * Outcome :=
  if (1 <=? page) && (page <=? pages) then draw tbody page s else (s, Idle).

(** What a user can do to the preview once it is drawn. *)
Inductive Action : Type :=
| Prev
| Next
| PageNumber (page : Z).

(** One action on a preview whose page numbers were drawn for the current
    publications. *)
Definition act (tbody : bool) (s : PreviewState) (a : Action)
  : PreviewState * Outcome :=
  match a with
  | Prev => goPreviewPrev tbody s
  | Next => goPreviewNext tbody s
  | PageNumber page => clickPageNumber tbody (totalPages s) page s
  end.

(** A sequence of actions, each a listener run of its own: an exception
    ends the listener that raised it and no other. *)
Fixpoint run (tbody : bool) (actions : list Action) (s : PreviewState)
  : PreviewState * list Outcome :=
  match actions with
  | [] => (s, [])
  | a :: rest =>
      let '(s', outcome) := act tbody s a in
      let '(s'', outcomes) := run tbody rest s' in
      (s'', outcome :: outcomes)
  end.

(** The second [then] of [loadPreview] on a response whose publications
    are the array [pubs], from the assignment of [lastPreviewPublications]
    on.  [summary_throws] tells whether the summary line is in the
    document and a conversion in it throws; the table body is in the
    document, or [loadPreview] would have returned.  An exception goes to
    the [catch], which changes neither variable. *)
Definition previewLoaded (summary_throws : bool) (pubs : list JsVal)
    (s : PreviewState) : PreviewState * Outcome :=
  let loaded := {| lastPreviewPublications := Some pubs;
                   currentPreviewPage := currentPreviewPage s |} in
  if summary_throws then (loaded, Threw Js.cannotConvert)
  else if (length pubs =? 0)%nat then (loaded, Idle)
  else draw true 1 {| lastPreviewPublications := Some pubs;
                      currentPreviewPage := 1 |}.

(** A publication whose row is built without an exception: it is not
    [null], its [authors] is a string or falsy, and its other four fields
    are not objects or arrays. *)
Definition PreviewRecord (p : JsVal) : Prop :=
  Js.nullish p = false
  /\ scalar (Js.prop p "title") = true
  /\ (Js.truthy (Js.prop p "authors") = true ->
      exists s, Js.prop p "authors" = JStr s)
  /\ scalar (Js.prop p "college_campus") = true
  /\ scalar (Js.prop p "venue") = true
  /\ scalar (Js.prop p "pub_type") = true.

End Reports.

(** ** The faculty page: the names of departments *)

Module Faculty.

Definition PLACEHOLDER : string := "Select department...".

Definition trim (s : string) : string :=
  string_of_list_ascii (Str.trim (list_ascii_of_string s)).

(** [normalizeDepartmentName(name)]. *)
Definition normalizeDepartmentName (name : JsVal) : string :=
  match name with
  | JStr name' =>
      if negb (Js.truthy name) then EmptyString
      else
        let s := trim name' in
        if String.eqb s EmptyString || String.eqb s PLACEHOLDER
        then EmptyString
        else if String.eqb s "College of Architecture, Fine Arts and Design"
        then "College of Architecture Fine Arts and Design"
        else s
  | _ => EmptyString
  end.

End Faculty.

(** ** More sample data *)

Module Examples.

(** Publications of two years. *)
Definition mixed : list JsVal :=
  [Sample.publication (JInt 2023) (JInt 1);
   Sample.publication (JInt 2024) (JInt 2);
   Sample.publication (JStr "2023/05") JNull].

Definition selected : list JsVal :=
  [Sample.publication (JInt 2023) (JInt 1);
   Sample.publication (JStr "2023/05") JNull].

(** A browser that holds a fresh cache and no navigation flag. *)
Definition browser : Browser :=
  {| local := Sample.freshStorage; session := ∅ |}.

(** A publication of the report preview, with two authors on two
    lines. *)
Definition paper : JsVal :=
  JObj (<["title" := JStr "Soil maps"]>
       (<["authors" := JStr (String "A" (String "010" "B"))]>
       (<["venue" := JStr "Journal"]> ∅))).

(** A preview of 45 publications: three pages. *)
Definition preview : list JsVal := repeat paper 45.

(** The response body [{error: '', dashboard_stats: {total_publications: 9}}]. *)
Definition emptyError : JsVal :=
  JObj (<["error" := JStr EmptyString]>
       (<["dashboard_stats" := JObj (<["total_publications" := JInt 9]> ∅)]>
        ∅)).

Definition secondPage : Reports.PreviewState :=
  {| Reports.lastPreviewPublications := Some preview;
     Reports.currentPreviewPage := 2 |}.

Definition clicks : list Reports.Action :=
  [Reports.Next; Reports.Next; Reports.Next; Reports.Prev;
   Reports.PageNumber 9; Reports.PageNumber 3].

End Examples.

(** * Properties *)

(** ** Reading integers from strings *)

Module StrFacts.
Import Str.

Lemma parseIntChars_10 l : parseIntChars l 10 = parseTrimmed (trimStart l).
Proof.
  unfold parseIntChars, parseTrimmed.
  destruct (stripSign (trimStart l)) as [neg body]. reflexivity.
Qed.

Lemma white_stops c : isWhiteSpace c = true ->
  digitValue c = None /\ Ascii.eqb c "-" = false /\ Ascii.eqb c "+" = false.
Proof.
  destruct c as [[] [] [] [] [] [] [] []]; vm_compute; intuition congruence.
Qed.

Lemma allWhite_stops w : allWhite w -> stops w.
Proof.
  destruct 1 as [|c w Hc _]; simpl; [exact I | now apply white_stops].
Qed.

Lemma digits_app_stop R x : forall acc t,
  stops t -> digits R acc (x ++ t) = digits R acc x.
Proof.
  induction x as [|c x IH]; intros acc t Ht; simpl.
  - destruct t as [|c t]; [reflexivity|]. simpl.
    destruct Ht as [-> _]. reflexivity.
  - destruct (digitValue c) as [d|]; [|reflexivity].
    destruct (d <? R); [now apply IH | reflexivity].
Qed.

Lemma parseTrimmed_app_stop y t :
  stops t -> parseTrimmed (y ++ t) = parseTrimmed y.
Proof.
  intros Ht. unfold parseTrimmed.
  destruct y as [|c y].
  - destruct t as [|c t]; [reflexivity|].
    destruct Ht as (Hd & Hm & Hp). cbn [app stripSign digits].
    rewrite Hm, Hp. cbn [digits]. rewrite Hd. reflexivity.
  - cbn [app stripSign].
    destruct (Ascii.eqb c "-"); [|destruct (Ascii.eqb c "+")];
      try (rewrite digits_app_stop by assumption; reflexivity).
    change (c :: y ++ t) with ((c :: y) ++ t).
    rewrite digits_app_stop by assumption. reflexivity.
Qed.

Lemma trimStart_white w : allWhite w -> trimStart w = [].
Proof.
  induction 1 as [|c w Hc _ IH]; simpl; [reflexivity|]. now rewrite Hc.
Qed.

Lemma trimStart_idem l : trimStart (trimStart l) = trimStart l.
Proof.
  induction l as [|c l IH]; simpl; [reflexivity|].
  destruct (isWhiteSpace c) eqn:Hc; [exact IH|]. simpl. now rewrite Hc.
Qed.

(** What [trimStart] removes is white space. *)
Lemma trimStart_split l :
  exists w, allWhite w /\ l = w ++ trimStart l.
Proof.
  induction l as [|c l (w & Hw & IH)]; simpl.
  - exists []. split; [constructor | reflexivity].
  - destruct (isWhiteSpace c) eqn:Hc.
    + exists (c :: w). split; [now constructor|]. simpl. now f_equal.
    + exists []. split; [constructor | reflexivity].
Qed.

Lemma trimEnd_split l :
  exists w, allWhite w /\ l = trimEnd l ++ w.
Proof.
  destruct (trimStart_split (rev l)) as (w & Hw & E).
  exists (rev w). split.
  - now apply List.Forall_rev.
  - unfold trimEnd. rewrite <- rev_app_distr, <- E. now rewrite rev_involutive.
Qed.

(** Appending a stop to a list changes its trimmed form only by that
    stop, or not at all. *)
Lemma parseIntChars_app_white x w :
  allWhite w -> parseIntChars (x ++ w) 10 = parseIntChars x 10.
Proof.
  intros Hw. rewrite !parseIntChars_10.
  induction x as [|c x IH]; simpl.
  - now rewrite trimStart_white.
  - destruct (isWhiteSpace c); [exact IH|].
    change (c :: x ++ w) with ((c :: x) ++ w).
    apply parseTrimmed_app_stop. now apply allWhite_stops.
Qed.

Lemma parseIntChars_app_slash x t :
  parseIntChars (x ++ "/"%char :: t) 10 = parseIntChars x 10.
Proof.
  rewrite !parseIntChars_10.
  assert (Hs : stops ("/"%char :: t)) by (vm_compute; auto).
  induction x as [|c x IH]; cbn [app trimStart].
  - change (isWhiteSpace "/") with false. cbv iota.
    apply (parseTrimmed_app_stop [] _ Hs).
  - destruct (isWhiteSpace c); [exact IH|].
    change (c :: x ++ "/"%char :: t) with ((c :: x) ++ "/"%char :: t).
    now apply parseTrimmed_app_stop.
Qed.

Lemma beforeSlash_split l :
  l = beforeSlash l \/ exists t, l = beforeSlash l ++ "/"%char :: t.
Proof.
  induction l as [|c l IH]; cbn [beforeSlash]; [now left|].
  destruct (Ascii.eqb_spec c "/") as [->|_].
  - right. exists l. reflexivity.
  - destruct IH as [IH|[t IH]].
    + left. now f_equal.
    + right. exists t. cbn [app]. now f_equal.
Qed.

Lemma parseIntChars_trimStart l :
  parseIntChars (trimStart l) 10 = parseIntChars l 10.
Proof. rewrite !parseIntChars_10. now rewrite trimStart_idem. Qed.

Lemma parseIntChars_trimEnd l :
  parseIntChars (trimEnd l) 10 = parseIntChars l 10.
Proof.
  destruct (trimEnd_split l) as (w & Hw & E).
  rewrite E at 2. symmetry. now apply parseIntChars_app_white.
Qed.

Lemma parseIntChars_trim l : parseIntChars (trim l) 10 = parseIntChars l 10.
Proof.
  unfold trim. now rewrite parseIntChars_trimStart, parseIntChars_trimEnd.
Qed.

Lemma parseIntChars_beforeSlash l :
  parseIntChars (beforeSlash l) 10 = parseIntChars l 10.
Proof.
  destruct (beforeSlash_split l) as [E|[t E]].
  - now rewrite <- E.
  - rewrite E at 2. symmetry. apply parseIntChars_app_slash.
Qed.

End StrFacts.

(** ** The year normalizer *)

Lemma orInt_diag a : orInt a a = a.
Proof. destruct a as [z|]; simpl; [now destruct (z =? 0) | reflexivity]. Qed.

Lemma normalizeYear_string s :
  normalizeYear (JStr s) = Ok (nullIfNaN (Str.parseInt s 10)).
Proof.
  unfold normalizeYear, Str.parseInt.
  destruct (String.eqb_spec s EmptyString) as [->|_]; [reflexivity|].
  rewrite !StrFacts.parseIntChars_trim, StrFacts.parseIntChars_beforeSlash.
  now rewrite orInt_diag.
Qed.

Lemma normalizeYear_Ok_iff v : is_Ok (normalizeYear v) <-> is_Ok (Js.ToString v).
Proof.
  unfold is_Ok.
  destruct v as [| |b|n|s|l|m]; try (split; intros _; eexists; reflexivity).
  - destruct b; split; intros _; eexists; reflexivity.
  - split; intros _; [eexists; reflexivity|].
    destruct n; eexists; reflexivity.
  - split; intros _; [eexists; reflexivity|].
    rewrite normalizeYear_string. eexists; reflexivity.
  - unfold normalizeYear, Js.parseInt.
    destruct (Js.ToString (JArr l)); simpl; split; intros [r E];
      try discriminate; eexists; reflexivity.
  - unfold normalizeYear, Js.parseInt.
    destruct (Js.ToString (JObj m)); simpl; split; intros [r E];
      try discriminate; eexists; reflexivity.
Qed.

Lemma ToString_scalar v : scalar v = true -> is_Ok (Js.ToString v).
Proof.
  destruct v as [| |[]|n|s|l|m]; intros H; try discriminate;
    eexists; reflexivity.
Qed.

Lemma getPubYear_scalar pub : yearIsScalar pub = true -> is_Ok (getPubYear pub).
Proof.
  unfold yearIsScalar, getPubYear. intros H.
  apply andb_true_iff in H as [Hn Hs].
  assert (E : Js.getProp pub "year" = Ok (Js.prop pub "year"))
    by (destruct pub; try discriminate; reflexivity).
  rewrite E. simpl. apply normalizeYear_Ok_iff. now apply ToString_scalar.
Qed.

Lemma getPubYear_nonNullish pub : is_Ok (getPubYear pub) -> nonNullish pub.
Proof.
  intros [y E]. destruct pub; try reflexivity; discriminate.
Qed.

(** ** The year filter *)

Lemma filterByYear_cons filterYear pub pubs :
  filterByYear filterYear (pub :: pubs) =
  match getPubYear pub with
  | Ok yearValue =>
      match filterByYear filterYear pubs with
      | Ok kept =>
          Ok (if yearMatches yearValue filterYear then pub :: kept else kept)
      | Throw e => Throw e
      end
  | Throw e => Throw e
  end.
Proof. reflexivity. Qed.

Lemma filter_yearIs_cons filterYear pub pubs y :
  getPubYear pub = Ok y ->
  List.filter (yearIs filterYear) (pub :: pubs) =
  if yearMatches y filterYear
  then pub :: List.filter (yearIs filterYear) pubs
  else List.filter (yearIs filterYear) pubs.
Proof. intros E. cbn [List.filter]. unfold yearIs at 1. now rewrite E. Qed.

Lemma filterByYear_inv filterYear pubs : forall filtered,
  filterByYear filterYear pubs = Ok filtered ->
  filtered = List.filter (yearIs filterYear) pubs
  /\ Forall (fun pub => is_Ok (getPubYear pub)) pubs.
Proof.
  induction pubs as [|pub pubs IH]; intros filtered H.
  - injection H as <-. split; [reflexivity | constructor].
  - rewrite filterByYear_cons in H.
    destruct (getPubYear pub) as [y|] eqn:Ey; [|discriminate].
    destruct (filterByYear filterYear pubs) as [kept|]; [|discriminate].
    injection H as <-.
    destruct (IH kept eq_refl) as [-> Hall]. split.
    + now rewrite (filter_yearIs_cons _ _ _ y).
    + constructor; [now exists y | exact Hall].
Qed.

Lemma filterByYear_total filterYear pubs :
  Forall (fun pub => is_Ok (getPubYear pub)) pubs ->
  filterByYear filterYear pubs = Ok (List.filter (yearIs filterYear) pubs).
Proof.
  induction 1 as [|pub pubs [y Ey] _ IH]; [reflexivity|].
  rewrite filterByYear_cons, Ey, IH.
  now rewrite (filter_yearIs_cons _ _ _ y).
Qed.

Lemma filtered_nonNullish filterYear pubs filtered :
  filterByYear filterYear pubs = Ok filtered -> Forall nonNullish filtered.
Proof.
  intros H. apply filterByYear_inv in H as [-> Hall].
  apply List.Forall_forall. intros pub Hin.
  apply List.filter_In in Hin as [Hin _].
  rewrite List.Forall_forall in Hall.
  now apply getPubYear_nonNullish, Hall.
Qed.

(** ** The quarterly loop *)

Lemma getProp_nonNullish pub name :
  nonNullish pub -> Js.getProp pub name = Ok (Js.prop pub name).
Proof. destruct pub; intros H; try discriminate; reflexivity. Qed.

Lemma pubQuarterOf_pos m : 1 <= m <= 12 -> (0 <? pubQuarterOf m) = true.
Proof.
  intros H. unfold pubQuarterOf.
  repeat match goal with
         | |- context [?a <=? ?b] => destruct (Z.leb_spec a b); simpl
         end; try reflexivity; lia.
Qed.

Lemma quarterStep_spec isCurrentYear currentQuarter t pub :
  nonNullish pub ->
  quarterStep isCurrentYear currentQuarter t pub
  = Ok (stepEffect isCurrentYear currentQuarter t pub).
Proof.
  intros Hpub. unfold quarterStep, stepEffect, monthOf.
  rewrite (getProp_nonNullish _ _ Hpub). cbn [mbind result_bind].
  set (month := Js.prop pub "month").
  unfold normalizeMonth, Js.parseInt.
  destruct month as [| |b|n|s|l|m] eqn:Em; try reflexivity;
    cbn [monthPresent]; rewrite <- ?Em.
  all: try (destruct (String.eqb_spec s EmptyString) as [Hs|Hs];
            [subst s; rewrite Em; reflexivity|]; cbn [negb]).
  all: destruct (Js.ToString month) as [str|e] eqn:Es;
    cbn [mbind result_bind]; [|reflexivity].
  all: destruct (Str.parseInt str 0) as [monthInt|]; [|reflexivity].
  all: destruct ((1 <=? monthInt) && (monthInt <=? 12)) eqn:Hr;
    [|reflexivity].
  all: rewrite pubQuarterOf_pos by lia; cbn [andb];
    now destruct (negb isCurrentYear || (pubQuarterOf monthInt <=? currentQuarter)).
Qed.

Lemma forEach_cons {S} (step : S -> JsVal -> result S) s x l :
  forEach step s (x :: l)
  = match step s x with Ok s' => forEach step s' l | Throw e => Throw e end.
Proof. reflexivity. Qed.

(** The loop never throws on records that can be read, and is the fold of
    [stepEffect]. *)
Lemma quarterlyLoop_fold isCurrentYear currentQuarter l :
  Forall nonNullish l -> forall t,
  forEach (quarterStep isCurrentYear currentQuarter) t l
  = Ok (fold_left (stepEffect isCurrentYear currentQuarter) l t).
Proof.
  induction 1 as [|pub l Hpub _ IH]; intros t; [reflexivity|].
  rewrite forEach_cons, quarterStep_spec by assumption. apply IH.
Qed.

(** ** Counting *)

Lemma countIf_cons P x l : countIf P (x :: l) = ind (P x) + countIf P l.
Proof.
  unfold countIf, ind. cbn [List.filter]. destruct (P x); cbn [length]; lia.
Qed.

Lemma countIf_nil P : countIf P [] = 0.
Proof. reflexivity. Qed.

Lemma countIf_ext P Q l :
  (forall x, P x = Q x) -> countIf P l = countIf Q l.
Proof.
  intros H. induction l as [|x l IH]; [reflexivity|].
  now rewrite !countIf_cons, H, IH.
Qed.

Lemma countIf_false P l : (forall x, P x = false) -> countIf P l = 0.
Proof.
  intros H. induction l as [|x l IH]; [reflexivity|].
  rewrite countIf_cons, H, IH. reflexivity.
Qed.

Lemma countIf_nonneg P l : 0 <= countIf P l.
Proof. unfold countIf. lia. Qed.

Lemma normalizeMonth_range v m : normalizeMonth v = Some m -> 1 <= m <= 12.
Proof.
  unfold normalizeMonth. intros H.
  assert (G : match Js.parseInt v 0 with
              | Ok (Some m0) =>
                  if (1 <=? m0) && (m0 <=? 12) then Some m0 else None
              | _ => None
              end = Some m) by (destruct v; try discriminate; exact H).
  destruct (Js.parseInt v 0) as [[m0|]|]; try discriminate.
  destruct ((1 <=? m0) && (m0 <=? 12)) eqn:E; [|discriminate].
  injection G as <-. lia.
Qed.

Lemma pubQuarterOf_eq m q :
  1 <= q <= 4 -> 3 * q - 2 <= m <= 3 * q -> pubQuarterOf m = q.
Proof.
  intros Hq Hm. unfold pubQuarterOf.
  repeat match goal with
         | |- context [?a <=? ?b] => destruct (Z.leb_spec a b); simpl
         end; lia.
Qed.

Ltac split_leb :=
  repeat match goal with
         | |- context [?a <=? ?b] =>
             destruct (Z.leb_spec a b); try (exfalso; lia)
         | |- context [?a =? ?b] =>
             destruct (Z.eqb_spec a b); try (exfalso; lia)
         end.

Lemma stepEffect_counts isCurrentYear currentQuarter t pub :
  StepCounts isCurrentYear currentQuarter t
    (stepEffect isCurrentYear currentQuarter t pub)
    (ind (tallied isCurrentYear currentQuarter 1 pub))
    (ind (tallied isCurrentYear currentQuarter 2 pub))
    (ind (tallied isCurrentYear currentQuarter 3 pub))
    (ind (tallied isCurrentYear currentQuarter 4 pub))
    (ind (monthUnknown pub))
    (ind (counted isCurrentYear currentQuarter pub)).
Proof.
  unfold stepEffect, tallied, counted, monthUnknown, inQuarter, monthIn.
  destruct (monthOf pub) as [m|] eqn:Em.
  - apply normalizeMonth_range in Em.
    assert (Hq : exists q, 1 <= q <= 4 /\ 3 * q - 2 <= m <= 3 * q).
    { assert (C : m <= 3 \/ 4 <= m <= 6 \/ 7 <= m <= 9 \/ 10 <= m) by lia.
      destruct C as [C|[C|[C|C]]];
        [exists 1 | exists 2 | exists 3 | exists 4]; lia. }
    destruct Hq as (q & Hq & Hm). rewrite (pubQuarterOf_eq m q Hq Hm).
    assert (C : q = 1 \/ q = 2 \/ q = 3 \/ q = 4) by lia.
    destruct isCurrentYear; cbn [negb orb];
      destruct C as [-> | [-> | [-> | ->]]]; unfold countInQuarter;
      split_leb; split; cbn; lia.
  - destruct isCurrentYear; split; cbn; lia.
Qed.

Lemma fold_counts isCurrentYear currentQuarter l : forall t,
  StepCounts isCurrentYear currentQuarter t
    (fold_left (stepEffect isCurrentYear currentQuarter) l t)
    (countIf (tallied isCurrentYear currentQuarter 1) l)
    (countIf (tallied isCurrentYear currentQuarter 2) l)
    (countIf (tallied isCurrentYear currentQuarter 3) l)
    (countIf (tallied isCurrentYear currentQuarter 4) l)
    (countIf monthUnknown l)
    (countIf (counted isCurrentYear currentQuarter) l).
Proof.
  induction l as [|pub l IH]; intros t.
  - split; rewrite countIf_nil; cbn [fold_left]; lia.
  - cbn [fold_left]. rewrite !countIf_cons.
    destruct (IH (stepEffect isCurrentYear currentQuarter t pub)) as [A1 A2 A3 A4 A5 A6].
    destruct (stepEffect_counts isCurrentYear currentQuarter t pub) as [B1 B2 B3 B4 B5 B6].
    split; lia.
Qed.

(** ** The college loop *)

Lemma countCollege_string cc s : countCollege cc (JStr s) = Ok (bump cc s).
Proof. unfold countCollege, bump. cbn. now destruct (cc !! s). Qed.

Lemma countColleges_strings names : forall cc,
  forEach countCollege cc (JStr <$> names) = Ok (fold_left bump names cc).
Proof.
  induction names as [|s names IH]; intros cc; [reflexivity|].
  cbn [fmap list_fmap]. rewrite forEach_cons, countCollege_string.
  apply IH.
Qed.

Lemma occurrences_cons k s names :
  occurrences k (s :: names) = ind (String.eqb k s) + occurrences k names.
Proof.
  unfold occurrences, ind. cbn [List.filter].
  destruct (String.eqb k s); cbn [length]; lia.
Qed.

Lemma occurrences_app k a b :
  occurrences k (a ++ b) = occurrences k a + occurrences k b.
Proof.
  unfold occurrences. rewrite List.filter_app, length_app. lia.
Qed.

Lemma bump_lookup cc s k :
  bump cc s !! k = (fun n => n + ind (String.eqb k s)) <$> cc !! k.
Proof.
  unfold bump, ind. destruct (String.eqb_spec k s) as [->|Hne].
  - destruct (cc !! s) as [n|] eqn:E.
    + now rewrite lookup_insert_eq.
    + now rewrite E.
  - destruct (cc !! s) as [n|] eqn:E.
    + rewrite lookup_insert_ne by congruence.
      destruct (cc !! k); cbn; [f_equal; lia | reflexivity].
    + destruct (cc !! k); cbn; [f_equal; lia | reflexivity].
Qed.

Lemma fold_bump_lookup names k : forall cc,
  fold_left bump names cc !! k
  = (fun n => n + occurrences k names) <$> cc !! k.
Proof.
  induction names as [|s names IH]; intros cc; cbn [fold_left].
  - destruct (cc !! k); cbn; [f_equal; unfold occurrences; cbn; lia | reflexivity].
  - rewrite IH, bump_lookup, occurrences_cons.
    destruct (cc !! k); cbn; [f_equal; lia | reflexivity].
Qed.

Lemma stringsOf_Some l names : stringsOf l = Some names -> l = JStr <$> names.
Proof.
  unfold stringsOf. intros H. apply mapM_Some in H.
  induction H as [|c s l names Hc _ IH]; [reflexivity|].
  cbn [fmap list_fmap]. rewrite <- IH.
  destruct c; try discriminate. now injection Hc as ->.
Qed.

Lemma collegeStep_names cc pub names :
  collegeNames pub = Some names ->
  collegeStep cc pub = Ok (fold_left bump names cc).
Proof.
  unfold collegeNames, collegeStep. intros H.
  destruct (Js.nullish pub) eqn:Hn; [discriminate|].
  rewrite (getProp_nonNullish _ _ Hn). cbn [mbind result_bind].
  assert (Hfalsy : forall field,
    (if Js.truthy field then None else Some []) = Some names ->
    Js.asArray (Js.or field (JArr [])) ≫= forEach countCollege cc
    = Ok (fold_left bump names cc)).
  { intros field Hf. unfold Js.or.
    destruct (Js.truthy field); [discriminate|]. now injection Hf as <-. }
  destruct (Js.prop pub "colleges") as [| |b|n|s|l|m]; try now apply Hfalsy.
  apply stringsOf_Some in H as ->. apply countColleges_strings.
Qed.

Lemma collegeLoop_names records namess :
  Forall2 (fun pub names => collegeNames pub = Some names) records namess ->
  forall cc,
  forEach collegeStep cc records = Ok (fold_left bump (concat namess) cc).
Proof.
  induction 1 as [|pub names records namess Hpub _ IH]; intros cc;
    [reflexivity|].
  rewrite forEach_cons, (collegeStep_names _ _ _ Hpub), IH.
  cbn [concat]. now rewrite fold_left_app.
Qed.

Lemma initialColleges_lookup k :
  initialColleges !! k = if bool_decide (k ∈ collegeKeys) then Some 0 else None.
Proof.
  unfold initialColleges, collegeKeys.
  destruct (bool_decide_reflect
    (k ∈ ["engineering"; "informatics_computing";
          "engineering_technology"; "architecture_design"])) as [Hin|Hout].
  - rewrite !elem_of_cons, elem_of_nil in Hin.
    destruct Hin as [-> | [-> | [-> | [-> | []]]]]; reflexivity.
  - rewrite !elem_of_cons, elem_of_nil in Hout.
    rewrite !lookup_insert_ne by intuition congruence. apply lookup_empty.
Qed.

(** ** The recomputation as a whole *)

Lemma indicators_balance isCurrentYear currentQuarter pub :
  ind (tallied isCurrentYear currentQuarter 1 pub)
  + ind (tallied isCurrentYear currentQuarter 2 pub)
  + ind (tallied isCurrentYear currentQuarter 3 pub)
  + ind (tallied isCurrentYear currentQuarter 4 pub)
  + (if isCurrentYear then 0 else ind (monthUnknown pub))
  = ind (counted isCurrentYear currentQuarter pub)
  /\ (isCurrentYear = false -> counted isCurrentYear currentQuarter pub = true).
Proof.
  unfold tallied, counted, monthUnknown, inQuarter, monthIn.
  destruct (monthOf pub) as [m|] eqn:Em.
  - apply normalizeMonth_range in Em.
    destruct isCurrentYear; cbn [negb orb]; (split; [|easy]);
      unfold ind; split_leb; cbn; lia.
  - destruct isCurrentYear; cbn; split; reflexivity || discriminate.
Qed.

Lemma counts_balance isCurrentYear currentQuarter l :
  countIf (tallied isCurrentYear currentQuarter 1) l
  + countIf (tallied isCurrentYear currentQuarter 2) l
  + countIf (tallied isCurrentYear currentQuarter 3) l
  + countIf (tallied isCurrentYear currentQuarter 4) l
  + (if isCurrentYear then 0 else countIf monthUnknown l)
  = countIf (counted isCurrentYear currentQuarter) l
  /\ (isCurrentYear = false ->
      countIf (counted isCurrentYear currentQuarter) l = Z.of_nat (length l)).
Proof.
  induction l as [|pub l [IH1 IH2]].
  - rewrite !countIf_nil. destruct isCurrentYear; split; reflexivity.
  - rewrite !countIf_cons.
    destruct (indicators_balance isCurrentYear currentQuarter pub) as [B1 B2].
    split.
    + destruct isCurrentYear; lia.
    + intros E. rewrite (B2 E), (IH2 E). cbn [ind length]. lia.
Qed.

(** The invariant of the first loop, whatever the list it runs on. *)
Lemma quarterlyPass_balance isCurrentYear currentQuarter l :
  Forall nonNullish l ->
  exists t,
    quarterlyPass isCurrentYear currentQuarter l = Ok t
    /\ t = fold_left (stepEffect isCurrentYear currentQuarter) l initialTally
    /\ sumQuarters (quarterly_counts t)
       + (if isCurrentYear then 0 else publicationsWithoutMonth t)
       = totalPublications isCurrentYear t l.
Proof.
  intros Hl. eexists. split; [now apply quarterlyLoop_fold|].
  split; [reflexivity|].
  destruct (fold_counts isCurrentYear currentQuarter l initialTally)
    as [A1 A2 A3 A4 A5 A6].
  destruct (counts_balance isCurrentYear currentQuarter l) as [B1 B2].
  unfold sumQuarters, totalPublications. cbn in A1, A2, A3, A4, A5, A6.
  destruct isCurrentYear; [lia|]. specialize (B2 eq_refl). lia.
Qed.

Lemma names_exist l :
  Forall (fun pub => is_Some (collegeNames pub)) l ->
  exists namess,
    Forall2 (fun pub names => collegeNames pub = Some names) l namess.
Proof.
  induction 1 as [|pub l [names E] _ [namess IH]].
  - exists []. constructor.
  - exists (names :: namess). now constructor.
Qed.

Lemma filter_Forall {A} (P : A -> Prop) f (l : list A) :
  Forall P l -> Forall P (List.filter f l).
Proof.
  induction 1 as [|x l Hx _ IH]; cbn [List.filter]; [constructor|].
  destruct (f x); [now constructor | exact IH].
Qed.

Lemma truthy_array_or l d : Js.or (JArr l) d = JArr l.
Proof. reflexivity. Qed.

(** On records of the data model the recomputation completes, and is the
    two folds over the selected records. *)
Lemma recompute_records clock cachedData pubs filterYear :
  Js.prop cachedData "publications" = JArr pubs ->
  Forall PublicationRecord pubs ->
  let filtered := List.filter (yearIs filterYear) pubs in
  let isCurrentYear := filterYear =? getFullYear clock in
  let currentQuarter := currentQuarterOf (getMonth clock + 1) in
  let t := fold_left (stepEffect isCurrentYear currentQuarter) filtered
                     initialTally in
  exists events cc,
    collegePass filtered = Ok cc
    /\ recompute clock cachedData filterYear
       = (events,
          Ok {| total_publications := totalPublications isCurrentYear t filtered;
                quarters := t;
                college_counts := cc |}).
Proof.
  intros Hp Hrec filtered isCurrentYear currentQuarter t.
  assert (Hy : Forall (fun pub => is_Ok (getPubYear pub)) pubs).
  { eapply Forall_impl; [exact Hrec|]. intros pub [H _].
    now apply getPubYear_scalar. }
  assert (Hf : filterByYear filterYear pubs = Ok filtered)
    by now apply filterByYear_total.
  assert (Hn : Forall nonNullish filtered)
    by now apply (filtered_nonNullish filterYear pubs).
  destruct (names_exist filtered) as [namess Hnames].
  { apply filter_Forall. eapply Forall_impl; [exact Hrec|].
    now intros pub [_ H]. }
  unfold recompute. rewrite Hp, truthy_array_or.
  cbn [Js.asArray mbind result_bind]. rewrite Hf.
  fold isCurrentYear. fold currentQuarter.
  unfold quarterlyPass. rewrite (quarterlyLoop_fold _ _ _ Hn). fold t.
  unfold collegePass. rewrite (collegeLoop_names _ _ Hnames).
  eexists. eexists. split; reflexivity.
Qed.

Lemma currentQuarterOf_range currentMonth :
  1 <= currentQuarterOf currentMonth <= 4.
Proof. unfold currentQuarterOf. split_leb; cbn; lia. Qed.

Lemma counted_current_year currentQuarter l :
  countIf (counted true currentQuarter) l
  = countIf (monthIn 1 (3 * currentQuarter)) l.
Proof.
  apply countIf_ext. intros pub. unfold counted, monthIn.
  destruct (monthOf pub) as [m|] eqn:Em; [|reflexivity].
  apply normalizeMonth_range in Em. cbn [negb orb].
  split_leb; reflexivity.
Qed.

Lemma tallied_up_to isCurrentYear currentQuarter q l :
  countIf (tallied isCurrentYear currentQuarter q) l
  = if negb isCurrentYear || (q <=? currentQuarter)
    then countIf (inQuarter q) l else 0.
Proof.
  unfold tallied.
  destruct (negb isCurrentYear || (q <=? currentQuarter)).
  - apply countIf_ext. intros pub. apply andb_true_r.
  - apply countIf_false. intros pub. apply andb_false_r.
Qed.

(** C1: current-year truncation.  When the filter year is the current
    calendar year, on records of the data model the recomputation completes
    and: a quarter after the current one counts nothing, a quarter up to the
    current one counts the selected records whose month falls in it, and
    [total_publications] is the number of selected records whose month is
    known and falls in the quarters up to the current one, which is the sum
    of the four quarterly counts; so records of later quarters and records
    without a usable month are in neither.  For the three sample records,
    filtered for 2023 in February 2023, the counts are 1, 0, 0, 0 and the
    total is 1. *)
Theorem current_year_truncation :
  (forall clock cachedData pubs filterYear,
     Js.prop cachedData "publications" = JArr pubs ->
     Forall PublicationRecord pubs ->
     filterYear = getFullYear clock ->
     let filtered := List.filter (yearIs filterYear) pubs in
     let currentQuarter := currentQuarterOf (getMonth clock + 1) in
     let upTo q n := if q <=? currentQuarter then n else 0 in
     exists events r,
       recompute clock cachedData filterYear = (events, Ok r)
       /\ q1 (quarterly_counts (quarters r))
          = upTo 1 (countIf (inQuarter 1) filtered)
       /\ q2 (quarterly_counts (quarters r))
          = upTo 2 (countIf (inQuarter 2) filtered)
       /\ q3 (quarterly_counts (quarters r))
          = upTo 3 (countIf (inQuarter 3) filtered)
       /\ q4 (quarterly_counts (quarters r))
          = upTo 4 (countIf (inQuarter 4) filtered)
       /\ total_publications r
          = countIf (monthIn 1 (3 * currentQuarter)) filtered
       /\ total_publications r = sumQuarters (quarterly_counts (quarters r)))
  /\ (exists events r,
        recompute Sample.february2023 Sample.envelope 2023 = (events, Ok r)
        /\ quarterly_counts (quarters r) = Build_Quarterly 1 0 0 0
        /\ total_publications r = 1).
Proof.
  split.
  - intros clock cachedData pubs filterYear Hp Hrec Hy filtered currentQuarter upTo.
    destruct (recompute_records clock cachedData pubs filterYear Hp Hrec)
      as (events & cc & _ & E).
    rewrite E. eexists. eexists. split; [reflexivity|]. cbn [quarters total_publications].
    replace (filterYear =? getFullYear clock) with true
      by (symmetry; now apply Z.eqb_eq).
    fold filtered. fold currentQuarter.
    destruct (fold_counts true currentQuarter filtered initialTally)
      as [A1 A2 A3 A4 A5 A6].
    destruct (counts_balance true currentQuarter filtered) as [B _].
    rewrite !tallied_up_to in A1, A2, A3, A4. cbn [negb orb] in A1, A2, A3, A4.
    rewrite counted_current_year in A6.
    cbn in A1, A2, A3, A4, A6. unfold upTo, totalPublications.
    repeat split; try assumption.
    rewrite A6. rewrite <- counted_current_year, <- B.
    rewrite !tallied_up_to. cbn [negb orb]. unfold sumQuarters. lia.
  - eexists. eexists. vm_compute. repeat split.
Qed.



(** C9: the balance of the first loop.  Whenever the year filter has
    produced its list, the loop completes; if the filter year is not the
    current year, the four quarterly counts plus the count of records
    without month equal [total_publications], so the condition of the
    mismatch diagnostic is false; if it is the current year, the four
    quarterly counts alone equal [total_publications].  Hence no execution
    of the recomputation logs the mismatch diagnostic, and whatever the
    recomputation returns satisfies the two equations. *)
Theorem quarterly_sum_invariant :
  (forall clock pubs filterYear filtered,
     filterByYear filterYear pubs = Ok filtered ->
     let isCurrentYear := filterYear =? getFullYear clock in
     let currentQuarter := currentQuarterOf (getMonth clock + 1) in
     exists t,
       quarterlyPass isCurrentYear currentQuarter filtered = Ok t
       /\ let total := totalPublications isCurrentYear t filtered in
          (filterYear <> getFullYear clock ->
           sumQuarters (quarterly_counts t) + publicationsWithoutMonth t = total
           /\ mismatch isCurrentYear t total = false)
          /\ (filterYear = getFullYear clock ->
              sumQuarters (quarterly_counts t) = total))
  /\ (forall (clock : Clock) (cachedData : JsVal) (filterYear : Z),
        ~ List.In (EvConsole Warn "Quarterly count mismatch")
                  (fst (recompute clock cachedData filterYear)))
  /\ (forall clock cachedData filterYear events r,
        recompute clock cachedData filterYear = (events, Ok r) ->
        let q := quarterly_counts (quarters r) in
        (filterYear <> getFullYear clock ->
         sumQuarters q + publicationsWithoutMonth (quarters r)
         = total_publications r)
        /\ (filterYear = getFullYear clock ->
            sumQuarters q = total_publications r)).
Proof.
  assert (Hmis : forall (isCurrentYear : bool) t l,
    sumQuarters (quarterly_counts t)
    + (if isCurrentYear then 0 else publicationsWithoutMonth t)
    = totalPublications isCurrentYear t l ->
    mismatch isCurrentYear t (totalPublications isCurrentYear t l) = false).
  { intros icy t l H. unfold mismatch. destruct icy; [apply andb_false_r|].
    rewrite H, Z.eqb_refl. reflexivity. }
  split; [|split].
  - intros clock pubs filterYear filtered Hf isCurrentYear currentQuarter.
    apply filtered_nonNullish in Hf.
    destruct (quarterlyPass_balance isCurrentYear currentQuarter filtered Hf)
      as (t & Et & _ & Hb).
    exists t. split; [exact Et|]. cbn zeta. split.
    + intros Hne. split; [|now apply Hmis].
      assert (E : isCurrentYear = false) by now apply Z.eqb_neq.
      rewrite E in Hb. rewrite E. exact Hb.
    + intros Heq.
      assert (E : isCurrentYear = true) by now apply Z.eqb_eq.
      rewrite E in Hb. rewrite E, <- Hb. lia.
  - intros clock cachedData filterYear. unfold recompute.
    destruct (Js.asArray _ ≫= filterByYear filterYear) as [filtered|e] eqn:Ef;
      [|cbn; tauto].
    assert (Hf : exists pubs, filterByYear filterYear pubs = Ok filtered).
    { destruct (Js.asArray _) as [pubs|]; [|discriminate]. now exists pubs. }
    destruct Hf as [pubs Hf]. apply filtered_nonNullish in Hf.
    set (icy := filterYear =? getFullYear clock).
    set (cq := currentQuarterOf (getMonth clock + 1)).
    destruct (quarterlyPass_balance icy cq filtered Hf) as (t & Et & _ & Hb).
    rewrite Et, (Hmis _ _ _ Hb).
    destruct (collegePass filtered); cbn; intuition discriminate.
  - intros clock cachedData filterYear events r. unfold recompute.
    destruct (Js.asArray _ ≫= filterByYear filterYear) as [filtered|e] eqn:Ef;
      [|discriminate].
    assert (Hf : exists pubs, filterByYear filterYear pubs = Ok filtered).
    { destruct (Js.asArray _) as [pubs|]; [|discriminate]. now exists pubs. }
    destruct Hf as [pubs Hf]. apply filtered_nonNullish in Hf.
    set (icy := filterYear =? getFullYear clock).
    set (cq := currentQuarterOf (getMonth clock + 1)).
    destruct (quarterlyPass_balance icy cq filtered Hf) as (t & Et & _ & Hb).
    rewrite Et. destruct (collegePass filtered); [|discriminate].
    intros [= _ <-]. cbn [quarters total_publications]. split.
    + intros Hne. assert (E : icy = false) by now apply Z.eqb_neq.
      rewrite E in Hb. rewrite E. exact Hb.
    + intros Heq. assert (E : icy = true) by now apply Z.eqb_eq.
      rewrite E in Hb. rewrite E, <- Hb. lia.
Qed.

(** C6: college aggregation.  On records whose [colleges] is a sequence
    of strings (or missing), the loop completes with a map whose keys are
    the four fixed keys, each bound to the number of entries, over all the
    records, that are exactly that key; entries outside the four keys count
    nowhere.  The three sample records give 2, 1, 0 and 0. *)
Theorem college_aggregation :
  (forall k, initialColleges !! k
             = if bool_decide (k ∈ collegeKeys) then Some 0 else None)
  /\ (forall records namess,
        Forall2 (fun pub names => collegeNames pub = Some names)
                records namess ->
        exists cc,
          collegePass records = Ok cc
          /\ forall k,
               cc !! k = if bool_decide (k ∈ collegeKeys)
                         then Some (occurrences k (concat namess))
                         else None)
  /\ collegePass Sample.collegeRecords
     = Ok (<["engineering" := 2]> (<["informatics_computing" := 1]>
          (<["engineering_technology" := 0]>
          (<["architecture_design" := 0]> ∅)))).
Proof.
  split; [exact initialColleges_lookup|]. split.
  - intros records namess H. eexists. split.
    + unfold collegePass. apply (collegeLoop_names _ _ H).
    + intros k. rewrite fold_bump_lookup, initialColleges_lookup.
      destruct (bool_decide (k ∈ collegeKeys)); reflexivity.
  - vm_compute. reflexivity.
Qed.

Lemma floorZ_spec m e :
  (0 <= e -> Number.floorZ m e = m * 10 ^ e)
  /\ (e < 0 ->
      Number.floorZ m e * 10 ^ (- e) <= m
      < (Number.floorZ m e + 1) * 10 ^ (- e)).
Proof.
  unfold Number.floorZ. destruct (Z.leb_spec 0 e); split; intros; try lia.
  assert (Hd : 0 < 10 ^ (- e)) by (apply Z.pow_pos_nonneg; lia).
  pose proof (Z.mul_div_le m _ Hd). pose proof (Z.mul_succ_div_gt m _ Hd).
  lia.
Qed.

(** C5: year normalization, as the script does it.  [null], [undefined]
    and the empty string give [null]; a finite number gives its integer
    floor; a non-empty string gives the integer read from the trimmed part
    before its first slash and, when none can be read there, the integer
    read from the trimmed whole string, else [null], which is the same as
    reading the integer at the start of the string; a boolean, an array or
    an object is first converted to a string and then read the same way;
    whatever is returned is [null] or a number that is not [NaN].  The
    normalizer throws exactly when that conversion to a string throws, so
    never on [null], booleans, numbers and strings.  ["2023/05"] gives 2023
    and an integer gives itself. *)
Theorem year_normalization :
  normalizeYear JNull = Ok JNull
  /\ normalizeYear JUndef = Ok JNull
  /\ normalizeYear (JStr EmptyString) = Ok JNull
  /\ (forall m e, exists z,
        normalizeYear (JNum (Fin m e)) = Ok (JInt z)
        /\ (0 <= e -> z = m * 10 ^ e)
        /\ (e < 0 -> z * 10 ^ (- e) <= m < (z + 1) * 10 ^ (- e)))
  /\ (forall s, s <> EmptyString ->
        let l := list_ascii_of_string s in
        normalizeYear (JStr s)
        = Ok match Str.parseIntChars (Str.trim (Str.beforeSlash l)) 10 with
             | Some z => JInt z
             | None =>
                 match Str.parseIntChars (Str.trim l) 10 with
                 | Some z => JInt z
                 | None => JNull
                 end
             end)
  /\ (forall s, normalizeYear (JStr s) = Ok (nullIfNaN (Str.parseInt s 10)))
  /\ (forall v, scalar v = false \/ (exists b, v = JBool b) ->
        normalizeYear v
        = (str ← Js.ToString v; Ok (nullIfNaN (Str.parseInt str 10))))
  /\ (forall v r, normalizeYear v = Ok r ->
        r = JNull \/ exists n, r = JNum n /\ Number.isNaN n = false)
  /\ (forall v, is_Ok (normalizeYear v) <-> is_Ok (Js.ToString v))
  /\ (forall v, scalar v = true -> is_Ok (normalizeYear v))
  /\ normalizeYear (JStr "2023/05") = Ok (JInt 2023)
  /\ (forall z, normalizeYear (JInt z) = Ok (JInt z)).
Proof.
  repeat match goal with |- _ /\ _ => split end; try reflexivity.
  - intros m e. exists (Number.floorZ m e). split; [reflexivity|].
    apply floorZ_spec.
  - intros s Hs l. rewrite normalizeYear_string. unfold Str.parseInt. fold l.
    rewrite !StrFacts.parseIntChars_trim, StrFacts.parseIntChars_beforeSlash.
    now destruct (Str.parseIntChars l 10).
  - apply normalizeYear_string.
  - intros v [Hv|[b ->]]; [|now destruct b].
    destruct v; try discriminate; unfold normalizeYear, Js.parseInt;
      now destruct (Js.ToString _).
  - intros v r H.
    assert (Hnull : forall y, nullIfNaN y = JNull
                      \/ exists n, nullIfNaN y = JNum n /\ Number.isNaN n = false).
    { intros [z|]; [right; now eexists | now left]. }
    assert (Hparse : forall w,
      (y ← Js.parseInt w 10; Ok (nullIfNaN y)) = Ok r ->
      r = JNull \/ exists n, r = JNum n /\ Number.isNaN n = false).
    { intros w Hw. unfold Js.parseInt in Hw.
      destruct (Js.ToString w); [|discriminate]. cbn in Hw.
      injection Hw as <-. apply Hnull. }
    destruct v as [| |b|n|s|l|m]; try (now apply (Hparse _ H));
      try (injection H as <-; now left).
    + destruct n; try (now apply (Hparse _ H));
        injection H as <-; right; now eexists.
    + rewrite normalizeYear_string in H. injection H as <-. apply Hnull.
  - apply normalizeYear_Ok_iff.
  - intros v Hv. now apply normalizeYear_Ok_iff, ToString_scalar.
  - intros z. unfold JInt, Number.ofZ. cbn. now rewrite Z.mul_1_r.
Qed.

(** The conversion of an object that carries its own [toString] throws, and
    the normalizer with it. *)
Lemma normalizeYear_throws :
  normalizeYear (JObj (<["toString" := JInt 1]> ∅)) = Throw Js.cannotConvert
  /\ getPubYear
       (JObj (<["year" := JObj (<["toString" := JInt 1]> ∅)]> ∅))
     = Throw Js.cannotConvert.
Proof. split; reflexivity. Qed.

Lemma collegeStep_falsy cc pub :
  nonNullish pub -> Js.truthy (Js.prop pub "colleges") = false ->
  collegeStep cc pub = Ok cc.
Proof.
  intros Hn Hf. unfold collegeStep.
  rewrite (getProp_nonNullish _ _ Hn). cbn [mbind result_bind].
  unfold Js.or. rewrite Hf. reflexivity.
Qed.

(** C10: totality at the record interface, as far as it goes.  A record
    whose [colleges] is missing, [null], [undefined] or otherwise falsy
    counts for no college and raises nothing.  The first loop completes on
    any list of records, whatever their [month] fields hold, and a record
    whose month does not read as an integer from 1 to 12 (an object, a
    number out of range, a string without digits, a value whose conversion
    throws) only increments the count of records without month.  The
    second loop completes when every [colleges] is falsy or a sequence of
    strings. *)
Theorem record_interface_totality :
  (forall cc pub,
     nonNullish pub -> Js.truthy (Js.prop pub "colleges") = false ->
     collegeStep cc pub = Ok cc)
  /\ (forall records,
        Forall (fun pub => nonNullish pub
                           /\ Js.truthy (Js.prop pub "colleges") = false)
               records ->
        collegePass records = Ok initialColleges)
  /\ (forall records,
        Forall (fun pub => is_Some (collegeNames pub)) records ->
        is_Ok (collegePass records))
  /\ (forall isCurrentYear currentQuarter t pub,
        nonNullish pub -> monthOf pub = None ->
        quarterStep isCurrentYear currentQuarter t pub
        = Ok (countWithoutMonth isCurrentYear t))
  /\ (forall isCurrentYear currentQuarter records,
        Forall nonNullish records ->
        is_Ok (quarterlyPass isCurrentYear currentQuarter records))
  /\ normalizeMonth (JObj ∅) = None
  /\ normalizeMonth (JObj (<["toString" := JInt 1]> ∅)) = None
  /\ normalizeMonth (JInt 13) = None
  /\ normalizeMonth (JInt 0) = None
  /\ normalizeMonth (JStr "March") = None
  /\ normalizeMonth (JBool true) = None.
Proof.
  repeat match goal with |- _ /\ _ => split end; try reflexivity.
  - exact collegeStep_falsy.
  - unfold collegePass. generalize initialColleges.
    induction 1 as [|pub records [Hn Hf] _ IH]; [reflexivity|].
    now rewrite forEach_cons, collegeStep_falsy.
  - intros records H. destruct (names_exist records H) as [namess Hn].
    unfold collegePass. rewrite (collegeLoop_names _ _ Hn). now eexists.
  - intros icy cq t pub Hn Hm. rewrite quarterStep_spec by assumption.
    unfold stepEffect. now rewrite Hm.
  - intros icy cq records H. unfold quarterlyPass.
    rewrite quarterlyLoop_fold by assumption. now eexists.
Qed.

(** A [colleges] field that is a string has no [forEach]: the second loop
    throws on such a record, while the first loop accepts it. *)
Lemma collegePass_throws :
  collegePass [JObj (<["colleges" := JStr "engineering"]> ∅)]
  = Throw Js.notAFunction
  /\ is_Ok (quarterlyPass false 1
              [JObj (<["colleges" := JStr "engineering"]> ∅)]).
Proof. split; [reflexivity | now eexists]. Qed.

(** The decimal form of a number is what [parseInt] reads: a month of
    [1e21] prints as ["1e+21"] and counts as January, and [12.9] counts as
    December. *)
Lemma month_of_decimal_form :
  normalizeMonth (JNum (Fin 1 21)) = Some 1
  /\ normalizeMonth (JNum (Fin 129 (-1))) = Some 12
  /\ normalizeMonth (JStr "0xA") = Some 10.
Proof. repeat split. Qed.

(** ** The loader *)

Section LoaderFacts.

Variable JSON_parse : string -> result JsVal.
Variable JSON_stringify : JsVal -> string.
Variable updateDashboard_throws : JsVal -> bool.

Lemma fetchAndStore_failed clock net (localStorage : Storage) :
  fetchFailed net ->
  exists e,
    fetchAndStore JSON_stringify updateDashboard_throws clock net
                  localStorage
    = (localStorage, [EvFetch], Throw e).
Proof.
  unfold fetchAndStore. destruct net as [|[] [data|e]]; cbn;
    try (intros _; eexists; reflexivity).
  intros (err & E & Ht). rewrite E. cbn. rewrite Ht. now eexists.
Qed.

Lemma renders_fallback (localStorage : Storage) :
  let cachedData := getCachedData JSON_parse localStorage in
  renders (fallback JSON_parse localStorage)
  = [if Js.truthy cachedData then Js.prop cachedData "dashboard_stats"
     else zeroStats].
Proof.
  unfold fallback. cbn zeta.
  now destruct (Js.truthy (getCachedData JSON_parse localStorage)).
Qed.

End LoaderFacts.

Lemma isCacheValid_iff clock (localStorage : Storage) :
  isCacheValid clock localStorage = true <->
  exists version timestamp stamp,
    localStorage !! CACHE_VERSION_KEY = Some version
    /\ Str.parseInt version 10 = Some CACHE_VERSION
    /\ localStorage !! CACHE_TIMESTAMP_KEY = Some timestamp
    /\ Str.parseInt timestamp 0 = Some stamp
    /\ Date_now clock - stamp < CACHE_DURATION.
Proof.
  unfold isCacheValid. split.
  - destruct (localStorage !! CACHE_VERSION_KEY) as [version|] eqn:Ev;
      [|discriminate].
    change (itemToString (Some version)) with version.
    destruct (Str.parseInt version 10) as [v|] eqn:Ep; [|discriminate].
    destruct (Z.eqb_spec v CACHE_VERSION) as [->|]; cbn [negb];
      [|discriminate].
    destruct (localStorage !! CACHE_TIMESTAMP_KEY) as [timestamp|] eqn:Et;
      [|discriminate].
    destruct (String.eqb timestamp EmptyString); [discriminate|].
    destruct (Str.parseInt timestamp 0) as [stamp|] eqn:Es; [|discriminate].
    intros H. apply Z.ltb_lt in H.
    exists version, timestamp, stamp. auto.
  - intros (version & timestamp & stamp & Ev & Ep & Et & Es & H).
    rewrite Ev. change (itemToString (Some version)) with version.
    rewrite Ep, Z.eqb_refl, Et.
    cbn [negb].
    destruct (String.eqb_spec timestamp EmptyString) as [->|_];
      [discriminate|].
    rewrite Es. now apply Z.ltb_lt.
Qed.

(** C4: cache validity.  [isCacheValid] answers true exactly when a
    version marker is stored and [parseInt] reads the schema version 2 from
    it, a timestamp is stored and [parseInt] reads an integer from it, and
    the clock minus that integer is strictly below 24 hours in
    milliseconds.  So it answers false when either key is missing, when
    either text does not parse, when the version read is not 2, and when
    the age is 24 hours or more. *)
Theorem cache_validity :
  CACHE_VERSION = 2
  /\ CACHE_DURATION = 86400000
  /\ (forall clock (localStorage : Storage),
        isCacheValid clock localStorage = true <->
        exists version timestamp stamp,
          localStorage !! CACHE_VERSION_KEY = Some version
          /\ Str.parseInt version 10 = Some CACHE_VERSION
          /\ localStorage !! CACHE_TIMESTAMP_KEY = Some timestamp
          /\ Str.parseInt timestamp 0 = Some stamp
          /\ Date_now clock - stamp < CACHE_DURATION)
  /\ (forall clock (localStorage : Storage),
        localStorage !! CACHE_VERSION_KEY = None
        \/ localStorage !! CACHE_TIMESTAMP_KEY = None ->
        isCacheValid clock localStorage = false)
  /\ (forall clock (localStorage : Storage) version,
        localStorage !! CACHE_VERSION_KEY = Some version ->
        Str.parseInt version 10 <> Some CACHE_VERSION ->
        isCacheValid clock localStorage = false)
  /\ (forall clock (localStorage : Storage) timestamp,
        localStorage !! CACHE_TIMESTAMP_KEY = Some timestamp ->
        Str.parseInt timestamp 0 = None ->
        isCacheValid clock localStorage = false)
  /\ (forall clock (localStorage : Storage) timestamp stamp,
        localStorage !! CACHE_TIMESTAMP_KEY = Some timestamp ->
        Str.parseInt timestamp 0 = Some stamp ->
        CACHE_DURATION <= Date_now clock - stamp ->
        isCacheValid clock localStorage = false).
Proof.
  split; [reflexivity|]. split; [reflexivity|].
  split; [exact isCacheValid_iff|].
  repeat split; intros clock localStorage.
  - intros H. apply not_true_iff_false. intros V.
    apply isCacheValid_iff in V as (v & t & n & Ev & _ & Et & _).
    destruct H; congruence.
  - intros version Hv Hp. apply not_true_iff_false. intros V.
    apply isCacheValid_iff in V as (v & t & n & Ev & Ep & _). congruence.
  - intros timestamp Ht Hp. apply not_true_iff_false. intros V.
    apply isCacheValid_iff in V as (v & t & n & _ & _ & Et & Es & _).
    congruence.
  - intros timestamp stamp Ht Hp Hage. apply not_true_iff_false. intros V.
    apply isCacheValid_iff in V as (v & t & n & _ & _ & Et & Es & Hlt).
    assert (n = stamp) by congruence. lia.
Qed.

Lemma renders_app a b : renders (a ++ b) = renders a ++ renders b.
Proof. unfold renders. apply omap_app. Qed.

(** The request is issued exactly when no valid cache can be served. *)
Lemma fetch_attempted JSON_parse JSON_stringify updateDashboard_throws
    clock net (localStorage : Storage) :
  List.In EvFetch
    (snd (loadAllData JSON_parse JSON_stringify updateDashboard_throws
                      clock net localStorage))
  <-> isCacheValid clock localStorage
      && Js.truthy (getCachedData JSON_parse localStorage) = false.
Proof.
  unfold loadAllData.
  destruct (isCacheValid clock localStorage && Js.truthy _).
  - cbn. split; [intros [H|[H|[]]]; discriminate H | discriminate].
  - split; [reflexivity|]. intros _.
    assert (H : exists st evs r,
      fetchAndStore JSON_stringify updateDashboard_throws clock net localStorage
      = (st, EvFetch :: evs, r)).
    { unfold fetchAndStore. destruct net as [|[] [data|e]];
        try (do 3 eexists; reflexivity).
      cbn. destruct (Js.getProp data "error") as [err|]; cbn;
        [destruct (Js.truthy err)|]; do 3 eexists; reflexivity. }
    destruct H as (st & evs & r & ->). destruct r; cbn; now left.
Qed.

Lemma zeroStats_allZero : allZero zeroStats.
Proof.
  split; [reflexivity |]. split; [| split; [| reflexivity]].
  - intros college H. cbn in H.
    destruct H as [<- | [<- | [<- | [<- | []]]]]; reflexivity.
  - intros quarter H. cbn in H.
    destruct H as [<- | [<- | [<- | [<- | []]]]]; reflexivity.
Qed.

(** C3: stale-cache fallback, for a failure as the script tests it (a
    network error, a status that is not a success, a body that is not
    JSON, or a body whose [error] field is truthy).  In every execution of
    [loadAllData] that issues the request and whose request fails, the
    storage is left as it was and exactly one value is rendered: the
    [dashboard_stats] of the cached envelope when [getCachedData] finds
    one, whatever the stored timestamp and version, and the all-zero
    literal when it finds none.  In particular a failed request with an
    invalid (expired or differently versioned) cache renders the cached
    statistics, and a failed request with no cache renders the all-zero
    literal, all of whose counts are 0. *)
Theorem stale_cache_fallback :
  forall (JSON_parse : string -> result JsVal)
         (JSON_stringify : JsVal -> string)
         (updateDashboard_throws : JsVal -> bool)
         (clock : Clock) (net : FetchOutcome) (localStorage : Storage),
    fetchFailed net ->
    let run := loadAllData JSON_parse JSON_stringify updateDashboard_throws
                           clock net localStorage in
    let cachedData := getCachedData JSON_parse localStorage in
    (List.In EvFetch (snd run) ->
     fst run = localStorage
     /\ renders (snd run)
        = [if Js.truthy cachedData then Js.prop cachedData "dashboard_stats"
           else zeroStats])
    /\ (isCacheValid clock localStorage = false ->
        Js.truthy cachedData = true ->
        renders (snd run) = [Js.prop cachedData "dashboard_stats"])
    /\ (Js.truthy cachedData = false -> renders (snd run) = [zeroStats])
    /\ allZero zeroStats.
Proof.
  intros parse stringify throws clock net localStorage Hfail run cachedData.
  assert (Main : List.In EvFetch (snd run) ->
    fst run = localStorage
    /\ renders (snd run)
       = [if Js.truthy cachedData then Js.prop cachedData "dashboard_stats"
          else zeroStats]).
  { subst run. unfold loadAllData. fold cachedData.
    destruct (isCacheValid clock localStorage && Js.truthy cachedData).
    - cbn. intros [H|[H|[]]]; discriminate H.
    - destruct (fetchAndStore_failed stringify throws clock net localStorage
                  Hfail) as [e ->].
      intros _. split; [reflexivity|]. cbn [snd].
      rewrite renders_app. apply renders_fallback. }
  split; [exact Main|]. split; [| split].
  - intros Hv Ht. destruct Main as [_ ->].
    + apply fetch_attempted. fold cachedData. now rewrite Hv.
    + now rewrite Ht.
  - intros Ht. destruct Main as [_ ->].
    + apply fetch_attempted. fold cachedData. rewrite Ht. apply andb_false_r.
    + now rewrite Ht.
  - apply zeroStats_allZero.
Qed.

(** An [error] field that is present does not make a failure: the script
    tests it for truthiness.  The body
    [{error: '', dashboard_stats: {total_publications: 9}}], received
    while an expired envelope is cached, is stored and its statistics are
    rendered, not the cached ones. *)
Lemma falsy_error_is_no_failure :
  errorFieldPresent (Response true (Ok Examples.emptyError))
  /\ isCacheValid Sample.march2024 Sample.staleStorage = false
  /\ getCachedData Sample.parse Sample.staleStorage = Sample.envelope
  /\ renders (snd (loadAllData Sample.parse Sample.stringify
                     Sample.neverThrows Sample.march2024
                     (Response true (Ok Examples.emptyError))
                     Sample.staleStorage))
     = [JObj (<["total_publications" := JInt 9]> ∅)]
  /\ renders (snd (loadAllData Sample.parse Sample.stringify
                     Sample.neverThrows Sample.march2024
                     (Response true (Ok Examples.emptyError))
                     Sample.staleStorage))
     <> [Js.prop Sample.envelope "dashboard_stats"]
  /\ fst (loadAllData Sample.parse Sample.stringify
             Sample.neverThrows Sample.march2024
             (Response true (Ok Examples.emptyError))
             Sample.staleStorage)
     <> Sample.staleStorage.
Proof.
  split; [now eexists |].
  split; [reflexivity |]. split; [reflexivity |]. split; [reflexivity |].
  split.
  - intros H. apply (f_equal (fun l => match l with
                                     | [JObj m] => m !! "earliest_year"
                                     | _ => None
                                     end)) in H.
    vm_compute in H. discriminate H.
  - intros H.
    apply (f_equal (fun m : Storage => m !! CACHE_TIMESTAMP_KEY)) in H.
    vm_compute in H. discriminate H.
Qed.

(** The recomputation issues no request and renders nothing itself. *)
Lemma recompute_quiet clock cachedData filterYear :
  ~ List.In EvFetch (fst (recompute clock cachedData filterYear))
  /\ renders (fst (recompute clock cachedData filterYear)) = [].
Proof.
  unfold recompute.
  destruct (_ ≫= filterByYear filterYear); [|cbn; tauto].
  destruct (quarterlyPass _ _ _); [|cbn; intuition discriminate].
  destruct (mismatch _ _ _), (collegePass _); cbn; intuition discriminate.
Qed.

(** C7: the frame of the year filter.  With a cached envelope whose
    [dashboard_stats] is an object, and a year that [parseInt] reads, the
    storage is left as it was, no request is issued, and exactly one object
    is rendered; outside [total_publications], [quarterly_counts] and
    [college_counts] every field of it is the field of the cached
    [dashboard_stats]. *)
Theorem year_filter_frame :
  forall (JSON_parse : string -> result JsVal)
         (JSON_stringify : JsVal -> string)
         (updateDashboard_throws : JsVal -> bool)
         (clock : Clock) (net : FetchOutcome) (year : string)
         (localStorage : Storage) (stats : gmap string JsVal)
         (filterYear : Z),
    let cachedData := getCachedData JSON_parse localStorage in
    Js.truthy cachedData = true ->
    Js.prop cachedData "dashboard_stats" = JObj stats ->
    Str.parseInt year 10 = Some filterYear ->
    let run := loadDashboardData JSON_parse JSON_stringify
                 updateDashboard_throws clock net year localStorage in
    fst run = localStorage
    /\ ~ List.In EvFetch (snd run)
    /\ exists rendered,
         renders (snd run) = [JObj rendered]
         /\ forall field, ~ List.In field recomputedFields ->
              rendered !! field = stats !! field.
Proof.
  intros parse stringify throws clock net year localStorage stats filterYear
         cachedData Ht Hs Hy run.
  subst run. unfold loadDashboardData. fold cachedData.
  rewrite Ht, Hs, Hy. cbn [negb].
  destruct (String.eqb_spec year EmptyString) as [->|_]; [discriminate Hy|].
  destruct (recompute_quiet clock cachedData filterYear) as [Hnf Hnr].
  destruct (recompute clock cachedData filterYear) as [events [r|e]];
    cbn [fst snd] in *; (split; [reflexivity|]); rewrite renders_app, Hnr;
    (split; [rewrite in_app_iff; cbn; intuition discriminate|]).
  - eexists. split; [reflexivity|]. intros field Hf. cbn in Hf.
    rewrite !lookup_insert_ne by intuition congruence. reflexivity.
  - exists stats. split; [reflexivity|]. reflexivity.
Qed.

Lemma isDecimalDigit_spec (c : ascii) :
  isDecimalDigit c = true ->
  exists d, Str.digitValue c = Some d /\ (d <? 10) = true
            /\ Str.isWhiteSpace c = false
            /\ Ascii.eqb c "-" = false /\ Ascii.eqb c "+" = false.
Proof.
  destruct c as [[] [] [] [] [] [] [] []]; intros H; cbv in H;
    try discriminate H;
    eexists; (split; [vm_compute; reflexivity |]); repeat split.
Qed.

Lemma digits_started (R : Z) (l : list ascii) :
  forall a, exists z, Str.digits R (Some a) l = Some z.
Proof.
  induction l as [| c l IH]; intros a; cbn [Str.digits]; [now eexists |].
  destruct (Str.digitValue c) as [d |]; [| now eexists].
  destruct (d <? R); [apply IH | now eexists].
Qed.

Lemma decimal_numeral_parses (l : list ascii) :
  l <> [] -> forallb isDecimalDigit l = true ->
  exists z, Str.parseTrimmed l = Some z /\ Str.trimStart l = l.
Proof.
  destruct l as [| c l]; [congruence |]. intros _ H.
  cbn [forallb] in H. apply andb_prop in H. destruct H as [Hc _].
  destruct (isDecimalDigit_spec c Hc) as (d & Hd & Hlt & Hw & Hm & Hp).
  unfold Str.parseTrimmed, Str.stripSign. rewrite Hm, Hp.
  cbn [Str.digits Str.trimStart]. rewrite Hd, Hlt, Hw.
  destruct (digits_started 10 l (10 * default 0 None + d)) as [z ->].
  now eexists.
Qed.

(** An integer-as-string is read by [parseInt]. *)
Lemma validInteger_parses (year : string) :
  validInteger year = true -> exists z, Str.parseInt year 10 = Some z.
Proof.
  unfold validInteger, Str.parseInt. rewrite StrFacts.parseIntChars_10.
  destruct (list_ascii_of_string year) as [| c l]; [discriminate |].
  destruct (Ascii.eqb_spec c "-") as [-> | Hc].
  - intros H. apply andb_prop in H. destruct H as [Hl Hd].
    assert (Hne : l <> []) by (destruct l; [discriminate Hl | congruence]).
    destruct (decimal_numeral_parses l Hne Hd) as (z & Hz & _).
    cbn [Str.trimStart]. change (Str.isWhiteSpace "-") with false.
    cbv iota. revert Hz. unfold Str.parseTrimmed at 1 2.
    cbn [Str.stripSign]. change (Ascii.eqb "-" "-") with true. cbv iota.
    destruct l as [| d l]; [congruence |].
    cbn [forallb] in Hd. apply andb_prop in Hd. destruct Hd as [Hd _].
    destruct (isDecimalDigit_spec d Hd) as (v & _ & _ & _ & Hm & Hp).
    cbn [Str.stripSign]. rewrite Hm, Hp.
    destruct (Str.digits 10 None (d :: l)) as [w |]; [| discriminate].
    intros _. now eexists.
  - intros H.
    destruct (decimal_numeral_parses (c :: l) ltac:(congruence) H)
      as (z & Hz & ->).
    now exists z.
Qed.

(** C8: a filter year that [parseInt] cannot read passes the cached
    statistics through.  With a cached envelope and a non-empty year from
    which [parseInt(year, 10)] reads no integer, neither loop is entered,
    no request is issued, the storage is left as it was, and what is
    rendered is the cached [dashboard_stats] (twice if the render function
    throws the first time, because the handler of the filter then runs
    into the final render).  Such a year is never an integer-as-string. *)
Theorem invalid_year_passthrough :
  forall (JSON_parse : string -> result JsVal)
         (JSON_stringify : JsVal -> string)
         (updateDashboard_throws : JsVal -> bool)
         (clock : Clock) (net : FetchOutcome) (year : string)
         (localStorage : Storage),
    let cachedData := getCachedData JSON_parse localStorage in
    let dashboardStats := Js.prop cachedData "dashboard_stats" in
    Js.truthy cachedData = true ->
    year <> EmptyString ->
    Str.parseInt year 10 = None ->
    let run := loadDashboardData JSON_parse JSON_stringify
                 updateDashboard_throws clock net year localStorage in
    fst run = localStorage
    /\ ~ List.In EvQuarterly (snd run)
    /\ ~ List.In EvColleges (snd run)
    /\ ~ List.In EvFetch (snd run)
    /\ renders (snd run)
       = (if updateDashboard_throws dashboardStats
          then [dashboardStats; dashboardStats] else [dashboardStats])
    /\ validInteger year = false.
Proof.
  intros parse stringify throws clock net year localStorage cachedData
         dashboardStats Ht Hne Hy run.
  assert (Hv : validInteger year = false).
  { destruct (validInteger year) eqn:V; [| reflexivity].
    destruct (validInteger_parses year V) as [z Hz]. congruence. }
  subst run. unfold loadDashboardData. fold cachedData. fold dashboardStats.
  rewrite Ht, Hy. cbn [negb].
  destruct (String.eqb_spec year EmptyString) as [E|_]; [contradiction|].
  destruct (throws dashboardStats); cbn; intuition discriminate.
Qed.

(** A year that is not an integer-as-string is not always passed
    through: [parseInt] reads the integer a string starts with.  The year
    ["2023abc"] is filtered as 2023, both loops are entered, and what is
    rendered is recomputed, with the total 3 of the sample in place of
    the cached 7. *)
Lemma year_with_trailing_text_is_filtered :
  validInteger "2023abc" = false
  /\ Js.truthy (getCachedData Sample.parse Sample.freshStorage) = true
  /\ List.In EvQuarterly
       (snd (loadDashboardData Sample.parse Sample.stringify
               Sample.neverThrows Sample.march2024 Rejected "2023abc"
               Sample.freshStorage))
  /\ List.In EvColleges
       (snd (loadDashboardData Sample.parse Sample.stringify
               Sample.neverThrows Sample.march2024 Rejected "2023abc"
               Sample.freshStorage))
  /\ (exists rendered,
        renders (snd (loadDashboardData Sample.parse Sample.stringify
                        Sample.neverThrows Sample.march2024 Rejected
                        "2023abc" Sample.freshStorage))
        = [JObj rendered]
        /\ rendered !! "total_publications" = Some (JInt 3)
        /\ Sample.stats !! "total_publications" = Some (JInt 7))
  /\ renders (snd (loadDashboardData Sample.parse Sample.stringify
                     Sample.neverThrows Sample.march2024 Rejected "2023abc"
                     Sample.freshStorage))
     <> [Js.prop (getCachedData Sample.parse Sample.freshStorage)
           "dashboard_stats"].
Proof.
  split; [reflexivity |]. split; [reflexivity |].
  split; [vm_compute; tauto |]. split; [vm_compute; tauto |].
  split.
  - eexists. split; [reflexivity |]. split; reflexivity.
  - intros H. apply (f_equal (fun l => match l with
                                     | [JObj m] => m !! "total_publications"
                                     | _ => None
                                     end)) in H.
    vm_compute in H. discriminate H.
Qed.

(** ** The theorems at the sample data *)

Lemma sample_records : Forall PublicationRecord Sample.publications.
Proof.
  repeat constructor; exists []; reflexivity.
Defined.

Lemma current_year_truncation_witness :
  Forall PublicationRecord Sample.publications
  /\ exists events r,
       recompute Sample.february2023 Sample.envelope 2023 = (events, Ok r)
       /\ q2 (quarterly_counts (quarters r)) = 0
       /\ total_publications r
          = countIf (monthIn 1 3)
                    (List.filter (yearIs 2023) Sample.publications).
Proof.
  split; [exact sample_records|].
  destruct (proj1 current_year_truncation Sample.february2023 Sample.envelope
              Sample.publications 2023 eq_refl sample_records eq_refl)
    as (events & r & E & _ & Q2 & _ & _ & T & _).
  exists events, r. split; [exact E|]. split; [exact Q2 | exact T].
Defined.


Lemma stale_cache_fallback_witness :
  isCacheValid Sample.march2024 Sample.staleStorage = false
  /\ renders (snd (loadAllData Sample.parse Sample.stringify
                     Sample.neverThrows Sample.march2024 Rejected
                     Sample.staleStorage))
     = [JObj Sample.stats].
Proof.
  split; [reflexivity|].
  refine (proj2 (proj1 (stale_cache_fallback Sample.parse Sample.stringify
                          Sample.neverThrows Sample.march2024 Rejected
                          Sample.staleStorage I) _)).
  left. reflexivity.
Defined.

Lemma cache_validity_witness :
  isCacheValid Sample.march2024 Sample.freshStorage = true.
Proof.
  apply (proj1 (proj2 (proj2 cache_validity))).
  exists "2"%string, "1709996400000"%string, 1709996400000.
  repeat split.
Defined.

Lemma year_normalization_witness :
  normalizeYear (JStr "2023/05") = Ok (JInt 2023).
Proof.
  destruct year_normalization as (_ & _ & _ & _ & H & _).
  refine (H "2023/05"%string _). discriminate.
Defined.

Lemma college_aggregation_witness :
  exists cc,
    collegePass Sample.collegeRecords = Ok cc
    /\ cc !! "engineering" = Some 2
    /\ cc !! "library" = None.
Proof.
  destruct (proj1 (proj2 college_aggregation) Sample.collegeRecords
              [["engineering"]; ["engineering"; "informatics_computing"]; []]%string)
    as (cc & E & H).
  - repeat constructor.
  - exists cc. split; [exact E|]. split.
    + exact (H "engineering"%string).
    + exact (H "library"%string).
Defined.

Lemma year_filter_frame_witness :
  exists rendered,
    renders (snd (loadDashboardData Sample.parse Sample.stringify
                    Sample.neverThrows Sample.march2024 Rejected "2023"
                    Sample.freshStorage))
    = [JObj rendered]
    /\ rendered !! "earliest_year" = Some (JInt 2019)
    /\ rendered !! "department_counts"
       = Some (JObj (<["cs" := JInt 7]> ∅)).
Proof.
  destruct (year_filter_frame Sample.parse Sample.stringify
              Sample.neverThrows Sample.march2024 Rejected "2023"
              Sample.freshStorage Sample.stats 2023
              eq_refl eq_refl eq_refl)
    as (_ & _ & rendered & E & H).
  exists rendered. split; [exact E|]. split.
  - rewrite (H "earliest_year"%string); [reflexivity|].
    cbn. intuition discriminate.
  - rewrite (H "department_counts"%string); [reflexivity|].
    cbn. intuition discriminate.
Defined.

Lemma invalid_year_passthrough_witness :
  Str.parseInt "all" 10 = None
  /\ renders (snd (loadDashboardData Sample.parse Sample.stringify
                     Sample.neverThrows Sample.march2024 Rejected "all"
                     Sample.freshStorage))
     = [JObj Sample.stats].
Proof.
  split; [reflexivity|].
  refine (proj1 (proj2 (proj2 (proj2 (proj2
            (invalid_year_passthrough Sample.parse Sample.stringify
               Sample.neverThrows Sample.march2024 Rejected "all"
               Sample.freshStorage eq_refl _ eq_refl)))))).
  discriminate.
Defined.

Lemma quarterly_sum_invariant_witness :
  exists t,
    quarterlyPass false 1 Sample.publications = Ok t
    /\ sumQuarters (quarterly_counts t) + publicationsWithoutMonth t = 3.
Proof.
  destruct (proj1 quarterly_sum_invariant Sample.march2024
              Sample.publications 2023 Sample.publications eq_refl)
    as (t & E & H & _).
  exists t. split; [exact E|].
  refine (proj1 (H _)). discriminate.
Defined.

Lemma record_interface_totality_witness :
  collegeStep initialColleges (JObj (<["colleges" := JNull]> ∅))
  = Ok initialColleges
  /\ is_Ok (quarterlyPass true 1
              [JObj (<["month" := JObj (<["toString" := JInt 1]> ∅)]> ∅)]).
Proof.
  destruct record_interface_totality as (C & _ & _ & _ & Q & _).
  split.
  - exact (C initialColleges (JObj (<["colleges" := JNull]> ∅))
             eq_refl eq_refl).
  - apply Q. repeat constructor.
Defined.

(** * Further properties *)

(** ** Decimal numerals *)

Lemma numeral_0 : numeral 0 = [].
Proof. reflexivity. Qed.

Lemma pretty_N_go_chars x : forall s,
  list_ascii_of_string (pretty_N_go x s)
  = numeral x ++ list_ascii_of_string s.
Proof.
  induction (N.lt_wf_0 x) as [x _ IH]. intros s.
  destruct (N.eq_0_gt_0_cases x) as [->|Hx]; [reflexivity|].
  unfold numeral. rewrite !(pretty_N_go_step x) by assumption.
  rewrite !(IH (x `div` 10)%N) by now apply N.div_lt.
  cbn [list_ascii_of_string]. rewrite <- app_assoc. reflexivity.
Qed.

Lemma numeral_step x :
  (0 < x)%N ->
  numeral x = numeral (x `div` 10) ++ [pretty_N_char (x `mod` 10)].
Proof.
  intros Hx. unfold numeral at 1. rewrite pretty_N_go_step by assumption.
  apply pretty_N_go_chars.
Qed.

Lemma pretty_N_char_digit d :
  (d < 10)%N ->
  Str.digitValue (pretty_N_char d) = Some (Z.of_N d)
  /\ decimalDigit (pretty_N_char d).
Proof.
  intros H.
  assert (C : (d = 0 \/ d = 1 \/ d = 2 \/ d = 3 \/ d = 4 \/ d = 5 \/ d = 6
               \/ d = 7 \/ d = 8 \/ d = 9)%N) by lia.
  repeat destruct C as [->|C]; try subst d;
    (split; [reflexivity|]); eexists; repeat split; cbn; lia.
Qed.

Lemma numeral_digits x : Forall decimalDigit (numeral x).
Proof.
  induction (N.lt_wf_0 x) as [x _ IH].
  destruct (N.eq_0_gt_0_cases x) as [->|Hx]; [constructor|].
  rewrite numeral_step by assumption. apply Forall_app. split.
  - apply IH. now apply N.div_lt.
  - constructor; [|constructor].
    apply pretty_N_char_digit. now apply N.mod_lt.
Qed.

Lemma numeral_nonempty x : (0 < x)%N -> numeral x <> [].
Proof.
  intros Hx. rewrite numeral_step by assumption.
  intros E. now apply app_eq_nil in E as [_ E].
Qed.

(** Reading a numeral gives the number back. *)
Lemma digits_numeral x : forall acc rest,
  (0 < x)%N -> default 0 acc = 0 ->
  Str.digits 10 acc (numeral x ++ rest)
  = Str.digits 10 (Some (Z.of_N x)) rest.
Proof.
  induction (N.lt_wf_0 x) as [x _ IH]. intros acc rest Hx Hacc.
  rewrite numeral_step by assumption. rewrite <- app_assoc. cbn [app].
  assert (Hm : (x `mod` 10 < 10)%N) by now apply N.mod_lt.
  destruct (pretty_N_char_digit _ Hm) as [Hd _].
  assert (Hx10 : Z.of_N x = 10 * Z.of_N (x `div` 10) + Z.of_N (x `mod` 10)).
  { pose proof (N.div_mod x 10 ltac:(lia)) as E. lia. }
  destruct (N.eq_0_gt_0_cases (x `div` 10)) as [E|Hq].
  - rewrite E in *. rewrite numeral_0. cbn [app Str.digits]. rewrite Hd.
    replace (Z.of_N (x `mod` 10) <? 10) with true by (symmetry; apply Z.ltb_lt; lia).
    f_equal. f_equal. cbn. lia.
  - rewrite IH by (assumption || now apply N.div_lt).
    cbn [Str.digits]. rewrite Hd.
    replace (Z.of_N (x `mod` 10) <? 10) with true by (symmetry; apply Z.ltb_lt; lia).
    f_equal. f_equal. cbn. lia.
Qed.

Lemma numeral_length x :
  (0 < x)%N ->
  10 ^ (Z.of_nat (length (numeral x)) - 1) <= Z.of_N x
  < 10 ^ Z.of_nat (length (numeral x)).
Proof.
  induction (N.lt_wf_0 x) as [x _ IH]. intros Hx.
  rewrite numeral_step by assumption. rewrite length_app. cbn [length].
  pose proof (N.div_mod x 10 ltac:(lia)) as Hx10.
  pose proof (N.mod_lt x 10 ltac:(lia)) as Hm.
  assert (Hlt : (0 < x `div` 10)%N -> (x `div` 10 < x)%N)
    by (intros _; apply N.div_lt; lia).
  revert Hx10 Hm Hlt IH.
  generalize (x `mod` 10)%N. generalize (x `div` 10)%N. intros q r Hx10 Hm Hlt IH.
  destruct (N.eq_0_gt_0_cases q) as [E|Hq].
  - rewrite E in *. rewrite numeral_0. cbn. lia.
  - specialize (IH _ (Hlt Hq) Hq).
    pose proof (numeral_nonempty _ Hq) as Hne.
    destruct (numeral q) as [|c l]; [congruence|].
    cbn [length] in *.
    replace (Z.of_nat (S (length l) + 1) - 1) with (Z.succ (Z.of_nat (length l)))
      by lia.
    replace (Z.of_nat (S (length l) + 1))
      with (Z.succ (Z.succ (Z.of_nat (length l)))) by lia.
    replace (Z.of_nat (S (length l)) - 1) with (Z.of_nat (length l)) in IH by lia.
    replace (Z.of_nat (S (length l))) with (Z.succ (Z.of_nat (length l))) in IH
      by lia.
    rewrite !Z.pow_succ_r in * by lia.
    revert IH. generalize (10 ^ Z.of_nat (length l)). intros p IH. lia.
Qed.

Lemma dropZeros_split l :
  exists k, l = Number.zeros k ++ Number.dropZeros l.
Proof.
  induction l as [|c l [k IH]]; cbn [Number.dropZeros].
  - now exists 0%nat.
  - unfold Number.isZeroChar. destruct (Ascii.eqb_spec c "0") as [->|_].
    + exists (S k). cbn. now f_equal.
    + now exists 0%nat.
Qed.

Lemma rev_zeros k : rev (Number.zeros k) = Number.zeros k.
Proof.
  unfold Number.zeros. induction k as [|k IH]; [reflexivity|].
  cbn [repeat rev]. rewrite IH. clear IH.
  induction k as [|k IH]; [reflexivity|]. cbn. now f_equal.
Qed.

(** Stripping the trailing zeros of a numeral and padding them back. *)
Lemma restore_zeros all :
  let ds := rev (Number.dropZeros (rev all)) in
  ds ++ Number.zeros (length all - length ds) = all.
Proof.
  cbn zeta. destruct (dropZeros_split (rev all)) as [k E].
  assert (A : all = rev (Number.dropZeros (rev all)) ++ Number.zeros k).
  { rewrite <- (rev_involutive all) at 1. rewrite E at 1.
    now rewrite rev_app_distr, rev_zeros. }
  revert A. generalize (rev (Number.dropZeros (rev all))). intros ds ->.
  assert (L : length (Number.zeros k) = k) by apply repeat_length.
  rewrite length_app, L.
  now replace (length ds + k - length ds)%nat with k by lia.
Qed.

Lemma decimal_pos p : Number.decimal (Z.pos p) = numeral (N.pos p).
Proof. reflexivity. Qed.

Lemma positiveToString_integer p :
  Z.pos p < 10 ^ 21 ->
  Number.positiveToString (Z.pos p) 0 = numeral (N.pos p).
Proof.
  intros Hb. unfold Number.positiveToString. rewrite decimal_pos.
  set (all := numeral (N.pos p)).
  set (ds := rev (Number.dropZeros (rev all))).
  pose proof (restore_zeros all) as R. cbn zeta in R. fold ds in R.
  assert (Hk : (length ds <= length all)%nat).
  { pose proof (f_equal (@length ascii) R) as L.
    rewrite length_app in L. lia. }
  assert (Hn : Z.of_nat (length all) <= 21).
  { destruct (numeral_length (N.pos p)) as [Hlo _]; [lia|]. fold all in Hlo.
    destruct (Z.le_gt_cases (Z.of_nat (length all)) 21) as [?|Hgt];
      [assumption|].
    assert (10 ^ 21 <= 10 ^ (Z.of_nat (length all) - 1))
      by (apply Z.pow_le_mono_r; lia).
    change (Z.of_N (N.pos p)) with (Z.pos p) in Hlo. lia. }
  rewrite Z.add_0_r.
  replace (Z.of_nat (length ds) <=? Z.of_nat (length all)) with true
    by (symmetry; apply Z.leb_le; lia).
  replace (Z.of_nat (length all) <=? 21) with true
    by (symmetry; now apply Z.leb_le).
  cbn [andb].
  replace (Z.to_nat (Z.of_nat (length all) - Z.of_nat (length ds)))
    with (length all - length ds)%nat by lia.
  exact R.
Qed.

(** The string of an integer below [10^21] in magnitude is its decimal
    numeral. *)
Lemma toString_integer z :
  - 10 ^ 21 < z < 10 ^ 21 ->
  Number.toString (Number.ofZ z) = pretty z.
Proof.
  intros Hb. unfold Number.toString, Number.ofZ.
  destruct z as [|p|p]; [reflexivity| |].
  - change (Z.pos p =? 0) with false. change (Z.pos p <? 0) with false.
    cbv iota. rewrite positiveToString_integer by lia.
    apply string_of_list_ascii_of_string.
  - change (Z.neg p =? 0) with false. change (Z.neg p <? 0) with true.
    cbv iota. change (- Z.neg p) with (Z.pos p).
    rewrite positiveToString_integer by lia.
    cbn [string_of_list_ascii]. unfold numeral.
    rewrite string_of_list_ascii_of_string. reflexivity.
Qed.

Lemma stripHex_numeral x : Str.stripHex (numeral x) = None.
Proof.
  pose proof (numeral_digits x) as H.
  destruct H as [|c l _ [|c2 l2 Hc2 _]]; try reflexivity.
  cbn [Str.stripHex]. destruct Hc2 as (d & _ & _ & _ & _ & -> & -> & _).
  now rewrite andb_false_r.
Qed.

Lemma parseTail_numeral x radix :
  (0 < x)%N -> radix = 0 \/ radix = 10 ->
  Str.parseIntChars (numeral x) radix = Some (Z.of_N x)
  /\ Str.parseIntChars ("-"%char :: numeral x) radix = Some (- Z.of_N x).
Proof.
  intros Hx Hr.
  pose proof (numeral_nonempty x Hx) as Hne.
  pose proof (numeral_digits x) as Hd.
  pose proof (digits_numeral x None [] Hx eq_refl) as Hv.
  rewrite app_nil_r in Hv.
  pose proof (stripHex_numeral x) as Hh.
  destruct (numeral x) as [|c l] eqn:E; [congruence|].
  apply Forall_cons in Hd as [(d & _ & _ & Hm & Hp & _ & _ & Hw) _].
  unfold Str.parseIntChars. split.
  - cbn [Str.trimStart]. rewrite Hw. cbn [Str.stripSign]. rewrite Hm, Hp.
    destruct Hr as [-> | ->]; cbn -[Str.digits Str.stripHex].
    + rewrite Hh, Hv. cbn. first [reflexivity | f_equal; lia].
    + rewrite Hv. cbn. first [reflexivity | f_equal; lia].
  - cbn [Str.trimStart]. change (Str.isWhiteSpace "-") with false.
    cbv iota. cbn [Str.stripSign]. change (Ascii.eqb "-" "-") with true.
    cbv iota.
    destruct Hr as [-> | ->]; cbn -[Str.digits Str.stripHex].
    + rewrite Hh, Hv. cbn. first [reflexivity | f_equal; lia].
    + rewrite Hv. cbn. first [reflexivity | f_equal; lia].
Qed.

(** [parseInt], with radix 10 or without radix, reads a decimal numeral
    back. *)
Lemma parseInt_pretty z radix :
  radix = 0 \/ radix = 10 -> Str.parseInt (pretty z) radix = Some z.
Proof.
  intros Hr. unfold Str.parseInt. destruct z as [|p|p].
  - destruct Hr as [-> | ->]; reflexivity.
  - apply (parseTail_numeral (N.pos p) radix); [lia | assumption].
  - apply (parseTail_numeral (N.pos p) radix); [lia | assumption].
Qed.

(** ** The cache keys *)

Lemma cache_keys_distinct :
  CACHE_KEY <> CACHE_TIMESTAMP_KEY /\ CACHE_KEY <> CACHE_VERSION_KEY
  /\ CACHE_TIMESTAMP_KEY <> CACHE_VERSION_KEY.
Proof. repeat split; discriminate. Qed.

Lemma setCachedData_lookups JSON_stringify clock data (localStorage : Storage) :
  let stored := setCachedData JSON_stringify clock data localStorage in
  stored !! CACHE_KEY = Some (JSON_stringify data)
  /\ stored !! CACHE_TIMESTAMP_KEY
     = Some (Number.toString (Number.ofZ (Date_now clock)))
  /\ stored !! CACHE_VERSION_KEY = Some "2"%string.
Proof.
  destruct cache_keys_distinct as (A & B & C). unfold setCachedData.
  repeat split.
  - rewrite !lookup_insert_ne by congruence. apply lookup_insert_eq.
  - rewrite lookup_insert_ne by congruence. apply lookup_insert_eq.
  - apply lookup_insert_eq.
Qed.

(** The two marks written beside the data read back as they were
    written. *)
Lemma stored_marks JSON_stringify clock data (localStorage : Storage) :
  - 10 ^ 21 < Date_now clock < 10 ^ 21 ->
  let stored := setCachedData JSON_stringify clock data localStorage in
  exists version timestamp,
    stored !! CACHE_VERSION_KEY = Some version
    /\ Str.parseInt version 10 = Some CACHE_VERSION
    /\ stored !! CACHE_TIMESTAMP_KEY = Some timestamp
    /\ Str.parseInt timestamp 0 = Some (Date_now clock).
Proof.
  intros Hb stored.
  destruct (setCachedData_lookups JSON_stringify clock data localStorage)
    as (_ & Ht & Hv).
  rewrite (toString_integer _ Hb) in Ht.
  exists "2"%string, (pretty (Date_now clock)).
  repeat split; try assumption. apply parseInt_pretty. now left.
Qed.

(** X1: a cache written at one reading of the clock is valid at another
    reading exactly while less than 24 hours lie between the two (the
    timestamp is written with [toString] and read back with [parseInt],
    which agree on integers below [10^21] in magnitude). *)
Theorem cache_valid_for_a_day :
  forall (JSON_stringify : JsVal -> string) (clock clock' : Clock)
         (data : JsVal) (localStorage : Storage),
    - 10 ^ 21 < Date_now clock < 10 ^ 21 ->
    isCacheValid clock'
      (setCachedData JSON_stringify clock data localStorage) = true
    <-> Date_now clock' - Date_now clock < CACHE_DURATION.
Proof.
  intros stringify clock clock' data localStorage Hb.
  destruct (stored_marks stringify clock data localStorage Hb)
    as (version & timestamp & Ev & Ep & Et & Es).
  rewrite isCacheValid_iff. split.
  - intros (version' & timestamp' & stamp & _ & _ & Et' & Es' & H).
    rewrite Et in Et'. injection Et' as <-.
    rewrite Es in Es'. now injection Es' as <-.
  - intros H. exists version, timestamp, (Date_now clock). auto.
Qed.

Lemma getCachedData_stored JSON_parse JSON_stringify clock data
    (localStorage : Storage) :
  JSON_parse (JSON_stringify data) = Ok data ->
  JSON_stringify data <> EmptyString ->
  getCachedData JSON_parse
    (setCachedData JSON_stringify clock data localStorage) = data.
Proof.
  intros Hp Hne. unfold getCachedData.
  destruct (setCachedData_lookups JSON_stringify clock data localStorage)
    as (-> & _ & _).
  destruct (String.eqb_spec (JSON_stringify data) EmptyString);
    [contradiction|]. now rewrite Hp.
Qed.

(** What [loadAllData] does to the storage, in all cases. *)
Lemma loadAllData_storage JSON_parse JSON_stringify updateDashboard_throws
    clock net (localStorage : Storage) :
  let run := loadAllData JSON_parse JSON_stringify updateDashboard_throws
                         clock net localStorage in
  fst run = localStorage
  \/ exists data,
       net = Response true (Ok data)
       /\ Js.nullish data = false
       /\ Js.truthy (Js.prop data "error") = false
       /\ List.In EvFetch (snd run)
       /\ fst run = setCachedData JSON_stringify clock data localStorage.
Proof.
  cbn zeta. unfold loadAllData.
  destruct (isCacheValid clock localStorage && Js.truthy _); [now left|].
  unfold fetchAndStore.
  destruct net as [|[] [data|e]]; try (now left).
  cbn [mbind result_bind].
  destruct (Js.getProp data "error") as [err|] eqn:Ee; [|now left].
  cbn [mbind result_bind].
  destruct (Js.truthy err) eqn:Et; [now left|].
  assert (Hn : Js.nullish data = false) by (destruct data; easy).
  rewrite (getProp_nonNullish _ _ Hn) in Ee. injection Ee as <-.
  right. exists data.
  destruct (updateDashboard_throws _); cbn; auto 10.
Qed.

(** X2: [loadAllData] writes the cache only after a response that is a
    success and carries no error: in every other execution the storage is
    left exactly as it was, and when it writes, it writes the response body
    under the current time and version. *)
Theorem storage_written_only_on_success :
  forall (JSON_parse : string -> result JsVal)
         (JSON_stringify : JsVal -> string)
         (updateDashboard_throws : JsVal -> bool)
         (clock : Clock) (net : FetchOutcome) (localStorage : Storage),
    let run := loadAllData JSON_parse JSON_stringify updateDashboard_throws
                           clock net localStorage in
    (fst run <> localStorage ->
     exists data,
       net = Response true (Ok data)
       /\ Js.truthy (Js.prop data "error") = false
       /\ fst run = setCachedData JSON_stringify clock data localStorage)
    /\ (fetchFailed net -> fst run = localStorage)
    /\ (~ List.In EvFetch (snd run) -> fst run = localStorage).
Proof.
  intros parse stringify throws clock net localStorage run.
  destruct (loadAllData_storage parse stringify throws clock net localStorage)
    as [E|(data & -> & Hn & He & Hf & E)]; fold run in E.
  - repeat split; intros; try assumption. contradiction.
  - fold run in Hf. repeat split.
    + intros _. now exists data.
    + cbn. rewrite (getProp_nonNullish _ _ Hn).
      intros (err & [= <-] & Ht). congruence.
    + intros H. contradiction.
Qed.

(** X3: after a load that fetched a response successfully, a second load
    less than 24 hours later issues no request, whatever the network would
    answer, leaves the storage as the first load left it, and renders the
    [dashboard_stats] of that response. *)
Theorem second_load_served_from_cache :
  forall (JSON_parse : string -> result JsVal)
         (JSON_stringify : JsVal -> string)
         (updateDashboard_throws : JsVal -> bool)
         (clock clock' : Clock) (net' : FetchOutcome) (data : JsVal)
         (localStorage : Storage),
    JSON_parse (JSON_stringify data) = Ok data ->
    JSON_stringify data <> EmptyString ->
    Js.truthy data = true ->
    Js.truthy (Js.prop data "error") = false ->
    isCacheValid clock localStorage
    && Js.truthy (getCachedData JSON_parse localStorage) = false ->
    - 10 ^ 21 < Date_now clock < 10 ^ 21 ->
    Date_now clock' - Date_now clock < CACHE_DURATION ->
    let stored :=
      fst (loadAllData JSON_parse JSON_stringify updateDashboard_throws
                       clock (Response true (Ok data)) localStorage) in
    stored = setCachedData JSON_stringify clock data localStorage
    /\ loadAllData JSON_parse JSON_stringify updateDashboard_throws
                   clock' net' stored
       = (stored, [EvConsole Log "Using cached data";
                   EvRender (Js.prop data "dashboard_stats")]).
Proof.
  intros parse stringify throws clock clock' net' data localStorage
         Hp Hne Ht He Hmiss Hb Hage stored.
  assert (Hn : Js.nullish data = false) by (destruct data; easy).
  assert (Es : stored = setCachedData stringify clock data localStorage).
  { subst stored. unfold loadAllData. rewrite Hmiss. unfold fetchAndStore.
    cbn [negb mbind result_bind]. rewrite (getProp_nonNullish _ _ Hn).
    cbn [mbind result_bind]. rewrite He.
    now destruct (throws _). }
  split; [exact Es|]. rewrite Es. unfold loadAllData.
  destruct (stored_marks stringify clock data localStorage Hb)
    as (version & timestamp & Ev & Ep & Et & Es').
  assert (Hvalid : isCacheValid clock'
                     (setCachedData stringify clock data localStorage) = true).
  { apply isCacheValid_iff.
    exists version, timestamp, (Date_now clock). auto. }
  rewrite Hvalid.
  rewrite (getCachedData_stored parse stringify clock data localStorage Hp Hne).
  now rewrite Ht.
Qed.

(** ** Clearing the cache and the page life cycle *)

Lemma clearCacheOnClose_lookups (localStorage : Storage) :
  clearCacheOnClose localStorage !! CACHE_KEY = None
  /\ clearCacheOnClose localStorage !! CACHE_TIMESTAMP_KEY = None
  /\ clearCacheOnClose localStorage !! CACHE_VERSION_KEY = None.
Proof.
  destruct cache_keys_distinct as (A & B & C). unfold clearCacheOnClose.
  repeat split.
  - rewrite !lookup_delete_ne by congruence. apply lookup_delete_eq.
  - rewrite lookup_delete_ne by congruence. apply lookup_delete_eq.
  - apply lookup_delete_eq.
Qed.

Lemma cleared_is_cold JSON_parse clock (localStorage : Storage) :
  isCacheValid clock (clearCacheOnClose localStorage) = false
  /\ getCachedData JSON_parse (clearCacheOnClose localStorage) = JNull.
Proof.
  destruct (clearCacheOnClose_lookups localStorage) as (Ek & Et & Ev).
  split.
  - unfold isCacheValid. now rewrite Ev.
  - unfold getCachedData. now rewrite Ek.
Qed.

(** X4: [clearCacheOnClose] forgets the cache and nothing else.  After it,
    for every clock and parser, the cache is not valid and no envelope is
    found, so the next load issues a request; the keys of [localStorage]
    other than the three cache keys keep their values; and clearing after
    a write leaves what clearing alone leaves. *)
Theorem clearCacheOnClose_forgets :
  forall (JSON_parse : string -> result JsVal)
         (JSON_stringify : JsVal -> string)
         (updateDashboard_throws : JsVal -> bool)
         (clock clock' : Clock) (net : FetchOutcome) (data : JsVal)
         (localStorage : Storage),
    isCacheValid clock (clearCacheOnClose localStorage) = false
    /\ getCachedData JSON_parse (clearCacheOnClose localStorage) = JNull
    /\ List.In EvFetch
         (snd (loadAllData JSON_parse JSON_stringify updateDashboard_throws
                           clock net (clearCacheOnClose localStorage)))
    /\ (forall key,
          key <> CACHE_KEY -> key <> CACHE_TIMESTAMP_KEY ->
          key <> CACHE_VERSION_KEY ->
          clearCacheOnClose localStorage !! key = localStorage !! key)
    /\ clearCacheOnClose
         (setCachedData JSON_stringify clock' data localStorage)
       = clearCacheOnClose localStorage.
Proof.
  intros parse stringify throws clock clock' net data localStorage.
  destruct (cleared_is_cold parse clock localStorage) as [Hv Hc].
  repeat split; try assumption.
  - apply fetch_attempted. now rewrite Hv.
  - intros key A B C. unfold clearCacheOnClose.
    now rewrite !lookup_delete_ne by congruence.
  - destruct cache_keys_distinct as (A & B & C).
    apply map_eq. intros key. unfold clearCacheOnClose, setCachedData.
    destruct (decide (key = CACHE_VERSION_KEY)) as [->|Nv];
      [now rewrite !lookup_delete_eq|].
    rewrite !(lookup_delete_ne _ CACHE_VERSION_KEY) by congruence.
    destruct (decide (key = CACHE_TIMESTAMP_KEY)) as [->|Nt];
      [now rewrite !lookup_delete_eq|].
    rewrite !(lookup_delete_ne _ CACHE_TIMESTAMP_KEY) by congruence.
    destruct (decide (key = CACHE_KEY)) as [->|Nk];
      [now rewrite !lookup_delete_eq|].
    rewrite !(lookup_delete_ne _ CACHE_KEY) by congruence.
    now rewrite !lookup_insert_ne by congruence.
Qed.

Lemma clicks_session n (b : Browser) :
  local (Nat.iter n onInternalLinkClick b) = local b
  /\ session (Nat.iter n onInternalLinkClick b) !! INTERNAL_NAV
     = match n with
       | O => session b !! INTERNAL_NAV
       | S _ => Some "1"%string
       end.
Proof.
  induction n as [|n [IHl IHs]]; [split; reflexivity|].
  rewrite Nat.iter_succ. revert IHl IHs.
  generalize (Nat.iter n onInternalLinkClick b). intros b' IHl IHs.
  unfold onInternalLinkClick. cbn [local session].
  split; [exact IHl | apply lookup_insert_eq].
Qed.

(** X5: a visit of the page keeps the cache exactly when an internal link
    was clicked before the page unloads.  Whatever flag an earlier page
    left, after the visit the navigation flag is gone, and the local
    storage is what the load left, cleared of the three cache keys if no
    internal link was clicked. *)
Theorem visit_keeps_cache_on_internal_navigation :
  forall (JSON_parse : string -> result JsVal)
         (JSON_stringify : JsVal -> string)
         (updateDashboard_throws : JsVal -> bool)
         (clock : Clock) (net : FetchOutcome) (clicks : nat) (b : Browser),
    let loaded :=
      fst (loadAllData JSON_parse JSON_stringify updateDashboard_throws
                       clock net (local b)) in
    let after := visit JSON_parse JSON_stringify updateDashboard_throws
                       clock net clicks b in
    session after !! INTERNAL_NAV = None
    /\ local after
       = match clicks with
         | O => clearCacheOnClose loaded
         | S _ => loaded
         end.
Proof.
  intros parse stringify throws clock net clicks b loaded after.
  subst after. unfold visit, onDOMContentLoaded.
  destruct (loadAllData parse stringify throws clock net (local b))
    as [stored events] eqn:E.
  subst loaded. cbn [fst].
  set (b1 := {| local := stored; session := delete INTERNAL_NAV (session b) |}).
  destruct (clicks_session clicks b1) as [Hl Hs].
  unfold onBeforeUnload. cbn [local session]. split.
  - apply lookup_delete_eq.
  - rewrite Hs, Hl. destruct clicks; [|reflexivity].
    subst b1. cbn [session local]. now rewrite lookup_delete_eq.
Qed.

(** X6: with a cached envelope, [loadDashboardData] works from the cache
    alone, whatever the year it is given: it issues no request, leaves the
    storage as it was, and renders at least once; with the empty year it
    renders exactly the cached [dashboard_stats]. *)
Theorem year_filter_is_local :
  forall (JSON_parse : string -> result JsVal)
         (JSON_stringify : JsVal -> string)
         (updateDashboard_throws : JsVal -> bool)
         (clock : Clock) (net : FetchOutcome) (year : string)
         (localStorage : Storage),
    let cachedData := getCachedData JSON_parse localStorage in
    Js.truthy cachedData = true ->
    let run := loadDashboardData JSON_parse JSON_stringify
                 updateDashboard_throws clock net year localStorage in
    fst run = localStorage
    /\ ~ List.In EvFetch (snd run)
    /\ renders (snd run) <> []
    /\ (year = EmptyString ->
        snd run = [EvRender (Js.prop cachedData "dashboard_stats")]).
Proof.
  intros parse stringify throws clock net year localStorage cachedData Ht run.
  subst run. unfold loadDashboardData. fold cachedData. rewrite Ht.
  cbn [negb].
  destruct (String.eqb_spec year EmptyString) as [->|Hne].
  - cbn. intuition discriminate.
  - destruct (Str.parseInt year 10) as [filterYear|].
    + destruct (recompute_quiet clock cachedData filterYear) as [Hnf Hnr].
      destruct (recompute clock cachedData filterYear) as [events [r|e]];
        cbn [fst snd] in *; rewrite renders_app, Hnr, in_app_iff; cbn;
        intuition (discriminate || congruence).
    + destruct (throws _); cbn; intuition (discriminate || congruence).
Qed.

(** ** The year filter *)

Lemma filter_idempotent {A} (f : A -> bool) l :
  List.filter f (List.filter f l) = List.filter f l.
Proof.
  induction l as [|x l IH]; [reflexivity|]. cbn [List.filter].
  destruct (f x) eqn:E; [|exact IH]. cbn [List.filter]. rewrite E.
  now f_equal.
Qed.

Lemma filter_sublist {A} (f : A -> bool) l : sublist (List.filter f l) l.
Proof.
  induction l as [|x l IH]; [constructor|]. cbn [List.filter].
  destruct (f x); now constructor.
Qed.

(** X8: what the year filter returns is a subsequence of the publications,
    in their order, made of exactly the publications whose normalized year
    is the filter year, and filtering it again for the same year changes
    nothing. *)
Theorem year_filter_selects :
  forall (filterYear : Z) (pubs filtered : list JsVal),
    filterByYear filterYear pubs = Ok filtered ->
    sublist filtered pubs
    /\ (forall pub, List.In pub filtered
                    <-> List.In pub pubs /\ yearIs filterYear pub = true)
    /\ filterByYear filterYear filtered = Ok filtered.
Proof.
  intros filterYear pubs filtered H.
  apply filterByYear_inv in H as [-> Hall].
  assert (Hsub : Forall (fun pub => is_Ok (getPubYear pub))
                        (List.filter (yearIs filterYear) pubs))
    by now apply filter_Forall.
  split; [apply filter_sublist|]. split.
  - intros pub. apply List.filter_In.
  - rewrite filterByYear_total by assumption. now rewrite filter_idempotent.
Qed.

(** ** The two loops as counts *)

Lemma countIf_mono P Q l :
  (forall x, P x = true -> Q x = true) -> countIf P l <= countIf Q l.
Proof.
  intros H. induction l as [|x l IH]; [rewrite !countIf_nil; lia|].
  rewrite !countIf_cons. unfold ind.
  destruct (P x) eqn:E; [rewrite (H _ E); lia|]. destruct (Q x); lia.
Qed.

Lemma countIf_le_length P l : countIf P l <= Z.of_nat (length l).
Proof.
  induction l as [|x l IH]; [rewrite countIf_nil; cbn; lia|].
  rewrite countIf_cons. unfold ind. cbn [length]. destruct (P x); lia.
Qed.

Lemma countIf_perm P l l' : l ≡ₚ l' -> countIf P l = countIf P l'.
Proof.
  induction 1 as [|x l l' _ IH|x y l|l l' l'' _ IH1 _ IH2];
    rewrite ?countIf_cons; lia.
Qed.

Lemma Tally_eq (t t' : Tally) :
  q1 (quarterly_counts t) = q1 (quarterly_counts t') ->
  q2 (quarterly_counts t) = q2 (quarterly_counts t') ->
  q3 (quarterly_counts t) = q3 (quarterly_counts t') ->
  q4 (quarterly_counts t) = q4 (quarterly_counts t') ->
  publicationsWithoutMonth t = publicationsWithoutMonth t' ->
  publicationsCountedInTotal t = publicationsCountedInTotal t' ->
  t = t'.
Proof.
  destruct t as [[] ? ?], t' as [[] ? ?]. cbn. intros. congruence.
Qed.

Lemma quarterStep_nullish isCurrentYear currentQuarter t pub :
  Js.nullish pub = true ->
  quarterStep isCurrentYear currentQuarter t pub = Throw Js.cannotRead.
Proof. destruct pub; try discriminate; reflexivity. Qed.

(** The first loop on any list: it throws exactly when an element is
    [null] or [undefined], and is otherwise the fold of [stepEffect]. *)
Lemma quarterlyLoop_any isCurrentYear currentQuarter l : forall t,
  forEach (quarterStep isCurrentYear currentQuarter) t l
  = if forallb (fun pub => negb (Js.nullish pub)) l
    then Ok (fold_left (stepEffect isCurrentYear currentQuarter) l t)
    else Throw Js.cannotRead.
Proof.
  induction l as [|pub l IH]; intros t; [reflexivity|].
  rewrite forEach_cons. cbn [forallb fold_left].
  destruct (Js.nullish pub) eqn:E.
  - now rewrite quarterStep_nullish.
  - rewrite quarterStep_spec by exact E. cbn [negb andb]. apply IH.
Qed.

Lemma forallb_perm {A} (f : A -> bool) l l' :
  l ≡ₚ l' -> forallb f l = forallb f l'.
Proof.
  induction 1 as [|x l l' _ IH|x y l|l l' l'' _ IH1 _ IH2]; cbn;
    [reflexivity | now rewrite IH | | congruence].
  destruct (f x), (f y); reflexivity.
Qed.

Lemma fold_stepEffect_perm isCurrentYear currentQuarter l l' t :
  l ≡ₚ l' ->
  fold_left (stepEffect isCurrentYear currentQuarter) l t
  = fold_left (stepEffect isCurrentYear currentQuarter) l' t.
Proof.
  intros Hp.
  destruct (fold_counts isCurrentYear currentQuarter l t)
    as [A1 A2 A3 A4 A5 A6].
  destruct (fold_counts isCurrentYear currentQuarter l' t)
    as [B1 B2 B3 B4 B5 B6].
  apply Tally_eq;
    rewrite ?A1, ?A2, ?A3, ?A4, ?A5, ?A6, ?B1, ?B2, ?B3, ?B4, ?B5, ?B6;
    f_equal; now apply countIf_perm.
Qed.

Lemma occurrences_entries_perm k l l' :
  l ≡ₚ l' ->
  occurrences k (collegeEntries l) = occurrences k (collegeEntries l').
Proof.
  unfold collegeEntries.
  induction 1 as [|x l l' _ IH|x y l|l l' l'' _ IH1 _ IH2];
    cbn [map concat]; rewrite ?occurrences_app; lia.
Qed.

Lemma collegePass_entries records :
  Forall (fun pub => is_Some (collegeNames pub)) records ->
  collegePass records
  = Ok (fold_left bump (collegeEntries records) initialColleges).
Proof.
  intros H. unfold collegePass, collegeEntries.
  apply collegeLoop_names.
  induction H as [|pub records [names E] _ IH]; cbn [map]; constructor;
    [|exact IH].
  now rewrite E.
Qed.

(** X9: the order of the records does not matter.  The first loop gives
    the same result, or throws the same exception, on any two lists that
    are permutations of each other; so does the second loop when every
    record has a [colleges] that is a sequence of strings or missing. *)
Theorem aggregation_ignores_order :
  forall (records records' : list JsVal),
    records ≡ₚ records' ->
    (forall isCurrentYear currentQuarter,
       quarterlyPass isCurrentYear currentQuarter records
       = quarterlyPass isCurrentYear currentQuarter records')
    /\ (Forall (fun pub => is_Some (collegeNames pub)) records ->
        collegePass records = collegePass records').
Proof.
  intros records records' Hp. split.
  - intros icy cq. unfold quarterlyPass. rewrite !quarterlyLoop_any.
    rewrite (forallb_perm _ _ _ Hp).
    now rewrite (fold_stepEffect_perm icy cq _ _ initialTally Hp).
  - intros H.
    assert (H' : Forall (fun pub => is_Some (collegeNames pub)) records')
      by now rewrite <- Hp.
    rewrite !collegePass_entries by assumption. f_equal.
    apply map_eq. intros k. rewrite !fold_bump_lookup.
    now rewrite (occurrences_entries_perm k _ _ Hp).
Qed.

Lemma currentQuarterOf_mono month month' :
  1 <= month -> month <= month' -> month' <= 12 ->
  currentQuarterOf month <= currentQuarterOf month'.
Proof. intros. unfold currentQuarterOf. split_leb; cbn; lia. Qed.

(** X10: the figures of the current year only grow as the year advances.
    For two months of the year, the earlier first, and the same selected
    records, no quarterly count and no total computed in the later month
    is below the one computed in the earlier month; all are non-negative,
    and the total never exceeds the number of selected records, which is
    the total of a year that is not the current one. *)
Theorem current_year_figures_grow :
  forall (month month' : Z) (filtered : list JsVal),
    Forall nonNullish filtered ->
    1 <= month -> month <= month' -> month' <= 12 ->
    exists t t',
      quarterlyPass true (currentQuarterOf month) filtered = Ok t
      /\ quarterlyPass true (currentQuarterOf month') filtered = Ok t'
      /\ 0 <= q1 (quarterly_counts t) <= q1 (quarterly_counts t')
      /\ 0 <= q2 (quarterly_counts t) <= q2 (quarterly_counts t')
      /\ 0 <= q3 (quarterly_counts t) <= q3 (quarterly_counts t')
      /\ 0 <= q4 (quarterly_counts t) <= q4 (quarterly_counts t')
      /\ 0 <= totalPublications true t filtered
         <= totalPublications true t' filtered
      /\ totalPublications true t' filtered
         <= totalPublications false t' filtered.
Proof.
  intros month month' l Hl H1 H2 H3.
  pose proof (currentQuarterOf_mono month month' H1 H2 H3) as Hq.
  set (cq := currentQuarterOf month) in *.
  set (cq' := currentQuarterOf month') in *.
  exists (fold_left (stepEffect true cq) l initialTally),
         (fold_left (stepEffect true cq') l initialTally).
  unfold quarterlyPass. rewrite !quarterlyLoop_fold by assumption.
  split; [reflexivity|]. split; [reflexivity|].
  destruct (fold_counts true cq l initialTally) as [A1 A2 A3 A4 A5 A6].
  destruct (fold_counts true cq' l initialTally) as [B1 B2 B3 B4 B5 B6].
  assert (Ht : forall q x, tallied true cq q x = true ->
                           tallied true cq' q x = true).
  { intros q x. unfold tallied. cbn [negb orb]. rewrite !andb_true_iff.
    intros [? L]. split; [assumption|]. apply Z.leb_le in L.
    apply Z.leb_le. lia. }
  assert (Hc : forall x, counted true cq x = true -> counted true cq' x = true).
  { intros x. unfold counted. destruct (monthOf x); [|easy]. cbn [negb orb].
    intros L. apply Z.leb_le in L. apply Z.leb_le. lia. }
  pose proof (fun q => countIf_mono _ _ l (Ht q)) as Mq.
  pose proof (countIf_mono _ _ l Hc) as Mc.
  pose proof (fun q => countIf_nonneg (tallied true cq q) l) as Nq.
  pose proof (countIf_nonneg (counted true cq) l) as Nc.
  pose proof (countIf_le_length (counted true cq') l) as Lc.
  pose proof (Mq 1) as M1. pose proof (Mq 2) as M2.
  pose proof (Mq 3) as M3. pose proof (Mq 4) as M4.
  pose proof (Nq 1) as N1. pose proof (Nq 2) as N2.
  pose proof (Nq 3) as N3. pose proof (Nq 4) as N4.
  unfold totalPublications.
  change (q1 (quarterly_counts initialTally)) with 0 in A1, B1.
  change (q2 (quarterly_counts initialTally)) with 0 in A2, B2.
  change (q3 (quarterly_counts initialTally)) with 0 in A3, B3.
  change (q4 (quarterly_counts initialTally)) with 0 in A4, B4.
  change (publicationsCountedInTotal initialTally) with 0 in A6, B6.
  repeat split; lia.
Qed.

(** X11: in the last quarter of the current year nothing is truncated.
    For a current month from October to December, the quarterly counts of
    the current year are those the same records would get in a year that
    is not the current one, and the two totals differ exactly by the
    records without a usable month. *)
Theorem last_quarter_truncates_nothing :
  forall (month otherQuarter : Z) (filtered : list JsVal),
    Forall nonNullish filtered ->
    10 <= month <= 12 ->
    exists current other,
      quarterlyPass true (currentQuarterOf month) filtered = Ok current
      /\ quarterlyPass false otherQuarter filtered = Ok other
      /\ quarterly_counts current = quarterly_counts other
      /\ publicationsWithoutMonth current = publicationsWithoutMonth other
      /\ totalPublications false other filtered
         = totalPublications true current filtered
           + publicationsWithoutMonth current.
Proof.
  intros month oq l Hl Hm.
  assert (Ecq : currentQuarterOf month = 4)
    by (unfold currentQuarterOf; split_leb; reflexivity).
  rewrite Ecq.
  destruct (quarterlyPass_balance true 4 l Hl) as (tc & Ec & Fc & Bc).
  destruct (quarterlyPass_balance false oq l Hl) as (t & Eo & Fo & Bo).
  exists tc, t. split; [exact Ec|]. split; [exact Eo|].
  destruct (fold_counts true 4 l initialTally) as [A1 A2 A3 A4 A5 A6].
  destruct (fold_counts false oq l initialTally) as [B1 B2 B3 B4 B5 B6].
  rewrite <- Fc in A1, A2, A3, A4, A5, A6.
  rewrite <- Fo in B1, B2, B3, B4, B5, B6.
  rewrite (tallied_up_to true 4 1) in A1. rewrite (tallied_up_to true 4 2) in A2.
  rewrite (tallied_up_to true 4 3) in A3. rewrite (tallied_up_to true 4 4) in A4.
  rewrite (tallied_up_to false oq 1) in B1.
  rewrite (tallied_up_to false oq 2) in B2.
  rewrite (tallied_up_to false oq 3) in B3.
  rewrite (tallied_up_to false oq 4) in B4.
  cbn [negb orb] in A1, A2, A3, A4, B1, B2, B3, B4.
  change (1 <=? 4) with true in A1. change (2 <=? 4) with true in A2.
  change (3 <=? 4) with true in A3. change (4 <=? 4) with true in A4.
  cbv iota in A1, A2, A3, A4.
  assert (Eq : quarterly_counts tc = quarterly_counts t).
  { destruct (quarterly_counts tc), (quarterly_counts t). cbn in *.
    f_equal; congruence. }
  assert (Ew : publicationsWithoutMonth tc = publicationsWithoutMonth t)
    by congruence.
  repeat split; try assumption.
  rewrite <- Bo, <- Bc, Eq, Ew. lia.
Qed.

(** X12: the quarter of a publication and the quarter of the current
    date are computed by the same mapping of months: on the months 1 to 12
    [pubQuarterOf] and [currentQuarterOf] agree and give the quarter
    [(m + 2) / 3]; off those months a publication has quarter 0, which is
    never counted, and the current quarter falls back to 1. *)
Theorem quarter_mappings_agree :
  forall m : Z,
    (1 <= m <= 12 ->
     pubQuarterOf m = currentQuarterOf m
     /\ pubQuarterOf m = (m + 2) / 3)
    /\ (m < 1 \/ 12 < m -> pubQuarterOf m = 0 /\ currentQuarterOf m = 1).
Proof.
  intros m. split.
  - intros Hm.
    assert (C : m = 1 \/ m = 2 \/ m = 3 \/ m = 4 \/ m = 5 \/ m = 6 \/ m = 7
                \/ m = 8 \/ m = 9 \/ m = 10 \/ m = 11 \/ m = 12) by lia.
    repeat destruct C as [->|C]; try subst m; split; reflexivity.
  - intros Hm. unfold pubQuarterOf, currentQuarterOf.
    split; split_leb; reflexivity.
Qed.

(** ** The text of a box *)

Lemma length_chars s : length (list_ascii_of_string s) = String.length s.
Proof. induction s as [|c s IH]; cbn; [reflexivity | now f_equal]. Qed.

Lemma padStart_long n pad s :
  (n <= String.length s)%nat -> padStart n pad s = s.
Proof.
  intros H. unfold padStart.
  replace (n - String.length s)%nat with 0%nat by lia.
  apply string_of_list_ascii_of_string.
Qed.

Lemma pretty_two_digits n :
  10 <= n -> (2 <= String.length (pretty n))%nat.
Proof.
  intros H. destruct n as [|p|p]; try lia.
  rewrite <- length_chars. change (list_ascii_of_string (pretty (Z.pos p)))
    with (numeral (N.pos p)).
  destruct (numeral_length (N.pos p)) as [_ Hhi]; [lia|].
  change (Z.of_N (N.pos p)) with (Z.pos p) in Hhi.
  destruct (length (numeral (N.pos p))) as [|[|k]]; cbn in Hhi; lia.
Qed.

(** X13: the text of a box shows the count.  For a count from 0 up to
    [2^53], where every integer is a number of JavaScript,
    [updateDashboard] writes its decimal numeral, with a leading zero when
    the count is below 10: the text has at least two characters and
    [parseInt] reads the count back from it.  A missing count is written
    as two zeros. *)
Theorem boxText_shows_the_count :
  forall n : Z,
    0 <= n < 2 ^ 53 ->
    exists text,
      boxText (JInt n) = Ok text
      /\ (2 <= String.length text)%nat
      /\ Str.parseInt text 10 = Some n
      /\ (n < 10 -> text = String "0" (pretty n))
      /\ (10 <= n -> text = pretty n)
      /\ boxText JUndef = Ok "00"%string
      /\ boxText JNull = Ok "00"%string.
Proof.
  intros n Hn.
  assert (Hbound : 2 ^ 53 < 10 ^ 21) by reflexivity.
  assert (Es : Js.ToString (Js.or (JInt n) (JInt 0)) = Ok (pretty n)).
  { unfold Js.or, JInt. cbn [Js.truthy Number.truthy Number.ofZ].
    destruct (Z.eqb_spec n 0) as [->|_]; [reflexivity|].
    cbn [negb Js.ToString]. f_equal.
    apply (toString_integer n). lia. }
  unfold boxText at 1. rewrite Es. cbn [mbind result_bind].
  eexists. split; [reflexivity|].
  destruct (Z.lt_ge_cases n 10) as [Hs|Hl].
  - assert (Hk : (Z.to_nat n < 10)%nat) by lia.
    rewrite <- (Z2Nat.id n) by lia. clear Es Hs Hn Hbound.
    revert Hk. generalize (Z.to_nat n) as k. clear n. intros k Hk.
    do 10 (destruct k as [| k];
           [repeat split; try reflexivity; cbn; lia |]).
    lia.
  - rewrite (padStart_long 2 _ _ (pretty_two_digits n Hl)).
    repeat split; try reflexivity.
    + now apply pretty_two_digits.
    + apply parseInt_pretty. now right.
    + lia.
Qed.

(** ** The pages of the report preview *)

Lemma slice_page {A : Type} (l : list A) (k : nat) :
  Reports.slice l (Z.of_nat k * 20)
    (Z.min (Z.of_nat k * 20 + 20) (Z.of_nat (length l)))
  = take 20 (drop (20 * k) l).
Proof.
  unfold Reports.slice, Reports.relativeIndex.
  set (len := Z.of_nat (length l)).
  assert (Hlen : 0 <= len) by (unfold len; lia).
  destruct (Z.ltb_spec (Z.of_nat k * 20) 0) as [Hneg | _]; [lia |].
  destruct (Z.ltb_spec (Z.min (Z.of_nat k * 20 + 20) len) 0) as [Hneg | _];
    [lia |].
  destruct (Z.le_gt_cases len (Z.of_nat k * 20)) as [Hout | Hin].
  - rewrite (drop_ge l (Z.to_nat _)) by (unfold len in *; lia).
    rewrite (drop_ge l (20 * k)) by (unfold len in *; lia).
    now rewrite !take_nil.
  - replace (Z.to_nat (Z.min (Z.of_nat k * 20) len)) with (20 * k)%nat
      by lia.
    destruct (Z.le_gt_cases (Z.of_nat k * 20 + 20) len) as [Hfull | Hpart].
    + f_equal. lia.
    + rewrite (take_ge _ 20) by (rewrite length_drop; unfold len in *; lia).
      apply take_ge. rewrite length_drop. unfold len in *. lia.
Qed.

Lemma pages_concat {A : Type} (m : nat) : forall l : list A,
  (length l <= 20 * m)%nat ->
  concat (map (fun k => take 20 (drop (20 * k) l)) (seq 0 m)) = l.
Proof.
  induction m as [| m IH]; intros l Hl.
  - destruct l; [reflexivity | cbn in Hl; lia].
  - cbn [seq map concat]. rewrite <- seq_shift, map_map.
    replace (20 * 0)%nat with 0%nat by lia. rewrite drop_0.
    rewrite (map_ext _ (fun k => take 20 (drop (20 * k) (drop 20 l)))).
    + rewrite IH by (rewrite length_drop; lia). apply take_drop.
    + intros k. rewrite drop_drop. do 2 f_equal. lia.
Qed.

Lemma pagePublications_page (pubs : list JsVal) (k : nat) :
  Reports.pagePublications pubs (Z.of_nat k + 1)
  = take 20 (drop (20 * k) pubs).
Proof.
  unfold Reports.pagePublications, Reports.PREVIEW_PAGE_SIZE.
  replace ((Z.of_nat k + 1 - 1) * 20) with (Z.of_nat k * 20) by lia.
  apply slice_page.
Qed.

Lemma pageRows_page (pubs : list JsVal) (k : nat) :
  Reports.pageRows pubs (Z.of_nat k + 1)
  = Reports.previewRows (20 * Z.of_nat k) (take 20 (drop (20 * k) pubs)).
Proof.
  unfold Reports.pageRows, Reports.PREVIEW_PAGE_SIZE.
  rewrite pagePublications_page. f_equal. lia.
Qed.

Lemma totalPagesOf_bounds (total : Z) :
  0 <= total ->
  20 * (Reports.totalPagesOf total - 1) < total
  /\ total <= 20 * Reports.totalPagesOf total.
Proof.
  intros Htotal. unfold Reports.totalPagesOf, Reports.PREVIEW_PAGE_SIZE.
  pose proof (Z.div_mod (total + 20 - 1) 20 ltac:(lia)) as Hdiv.
  pose proof (Z.mod_pos_bound (total + 20 - 1) 20 ltac:(lia)) as Hmod.
  lia.
Qed.

Lemma page_length (pubs : list JsVal) (page : Z) :
  1 <= page <= Reports.totalPagesOf (Z.of_nat (length pubs)) ->
  (1 <= length (Reports.pagePublications pubs page) <= 20)%nat.
Proof.
  intros Hpage.
  replace page with (Z.of_nat (Z.to_nat (page - 1)) + 1) by lia.
  rewrite pagePublications_page, length_take, length_drop.
  pose proof (totalPagesOf_bounds (Z.of_nat (length pubs)) ltac:(lia)).
  lia.
Qed.

(** *** The rows *)

Ltac bind_cases H :=
  repeat match type of H with
         | context [mbind _ ?r] =>
             destruct r; cbn [mbind result_bind] in H; try discriminate H
         end.

Lemma previewRow_no (n : Z) (p : JsVal) (row : Reports.Row) :
  Reports.previewRow n p = Ok row -> Reports.no row = n.
Proof.
  unfold Reports.previewRow. intros H. bind_cases H.
  now injection H as <-.
Qed.

Lemma cellText_scalar (v : JsVal) :
  scalar v = true -> is_Ok (Reports.cellText v).
Proof.
  intros Hv. unfold Reports.cellText, Js.or.
  destruct (Js.truthy v); [now apply ToString_scalar | now eexists].
Qed.

Lemma previewRow_record (n : Z) (p : JsVal) :
  Reports.PreviewRecord p -> is_Ok (Reports.previewRow n p).
Proof.
  intros (Hp & Ht & Ha & Hc & Hv & Hy). unfold Reports.previewRow.
  assert (Hauthors : is_Ok (Reports.authorsText (Js.prop p "authors"))).
  { unfold Reports.authorsText, Js.or.
    destruct (Js.truthy (Js.prop p "authors")) eqn:E; [| now eexists].
    destruct (Ha eq_refl) as [s ->]. now eexists. }
  rewrite !(getProp_nonNullish p _ Hp). cbn [mbind result_bind].
  destruct (cellText_scalar _ Ht) as [t ->]. cbn [mbind result_bind].
  destruct Hauthors as [a ->]. cbn [mbind result_bind].
  destruct (cellText_scalar _ Hc) as [c ->]. cbn [mbind result_bind].
  destruct (cellText_scalar _ Hv) as [v ->]. cbn [mbind result_bind].
  destruct (cellText_scalar _ Hy) as [y ->]. cbn [mbind result_bind].
  now eexists.
Qed.

Lemma previewRows_records (l : list JsVal) :
  Forall Reports.PreviewRecord l ->
  forall start, is_Ok (Reports.previewRows start l).
Proof.
  induction 1 as [| p l Hp _ IH]; intros start; cbn [Reports.previewRows].
  - now eexists.
  - destruct (previewRow_record (start + 1) p Hp) as [row ->].
    destruct (IH (start + 1)) as [rows ->]. now eexists.
Qed.

Lemma previewRows_numbers (l : list JsVal) :
  forall start rows,
    Reports.previewRows start l = Ok rows ->
    map Reports.no rows = seqZ (start + 1) (Z.of_nat (length l)).
Proof.
  induction l as [| p l IH]; intros start rows H;
    cbn [Reports.previewRows] in H.
  - now injection H as <-.
  - destruct (Reports.previewRow (start + 1) p) as [row |] eqn:Hrow;
      [| discriminate H].
    cbn [mbind result_bind] in H.
    destruct (Reports.previewRows (start + 1) l) as [rest |] eqn:Hrest;
      [| discriminate H].
    injection H as <-. cbn [map length].
    rewrite (previewRow_no _ _ _ Hrow), (IH _ _ Hrest).
    rewrite Nat2Z.inj_succ. rewrite (seqZ_cons (start + 1)) by lia.
    f_equal. f_equal; lia.
Qed.

Lemma previewRows_length (l : list JsVal) (start : Z)
    (rows : list Reports.Row) :
  Reports.previewRows start l = Ok rows -> length rows = length l.
Proof.
  intros H. apply previewRows_numbers in H.
  apply (f_equal (@length Z)) in H.
  rewrite length_map, length_seqZ in H. lia.
Qed.

Lemma previewRows_app (l1 l2 : list JsVal) :
  forall start,
    Reports.previewRows start (l1 ++ l2)
    = (rows1 ← Reports.previewRows start l1;
       rows2 ← Reports.previewRows (start + Z.of_nat (length l1)) l2;
       Ok (rows1 ++ rows2)).
Proof.
  induction l1 as [| p l1 IH]; intros start;
    cbn [app Reports.previewRows length mbind result_bind].
  - rewrite Z.add_0_r. now destruct (Reports.previewRows start l2).
  - destruct (Reports.previewRow (start + 1) p); [| reflexivity].
    cbn [mbind result_bind]. rewrite IH.
    replace (start + 1 + Z.of_nat (length l1))
      with (start + Z.of_nat (S (length l1))) by lia.
    destruct (Reports.previewRows (start + 1) l1); [| reflexivity].
    cbn [mbind result_bind].
    now destruct (Reports.previewRows _ l2).
Qed.

Lemma previewRows_null (l : list JsVal) :
  List.In JNull l ->
  forall start, exists e, Reports.previewRows start l = Throw e.
Proof.
  induction l as [| p l IH]; intros Hin start; [destruct Hin |].
  cbn [Reports.previewRows].
  destruct Hin as [-> | Hin]; [now eexists |].
  destruct (Reports.previewRow (start + 1) p); [| now eexists].
  destruct (IH Hin (start + 1)) as [e ->]. now eexists.
Qed.

(** The rows of a list are the rows of its chunks of twenty. *)
Lemma chunk_rows (m : nat) :
  forall (l : list JsVal) (start : Z) (all : list Reports.Row),
    (length l <= 20 * m)%nat ->
    Reports.previewRows start l = Ok all ->
    exists chunks,
      Forall2 (fun k rows =>
                 Reports.previewRows (start + 20 * Z.of_nat k)
                                     (take 20 (drop (20 * k) l)) = Ok rows)
              (seq 0 m) chunks
      /\ concat chunks = all.
Proof.
  induction m as [| m IH]; intros l start all Hl Hall.
  - destruct l; [| cbn in Hl; lia]. injection Hall as <-.
    exists []. split; [constructor | reflexivity].
  - rewrite <- (take_drop 20 l), previewRows_app in Hall.
    destruct (Reports.previewRows start (take 20 l)) as [rows1 |] eqn:H1;
      [| discriminate Hall].
    cbn [mbind result_bind] in Hall.
    destruct (Reports.previewRows _ (drop 20 l)) as [rows2 |] eqn:H2;
      [| discriminate Hall].
    injection Hall as <-.
    assert (H2' : Reports.previewRows (start + 20) (drop 20 l) = Ok rows2).
    { destruct (Nat.le_gt_cases 20 (length l)) as [Hlong | Hshort].
      - rewrite length_take, Nat.min_l in H2 by exact Hlong. exact H2.
      - rewrite drop_ge in H2 |- * by lia. exact H2. }
    destruct (IH (drop 20 l) (start + 20) rows2) as (chunks & Hchunks & <-);
      [rewrite length_drop; lia | exact H2' |].
    exists (rows1 :: chunks). split; [| reflexivity].
    cbn [seq]. constructor.
    + now rewrite Z.mul_0_r, Z.add_0_r, Nat.mul_0_r, drop_0.
    + rewrite <- seq_shift. apply Forall2_fmap_l.
      eapply Forall2_impl; [exact Hchunks |].
      intros k rows Hrows. unfold compose. cbn beta in Hrows |- *.
      rewrite drop_drop in Hrows.
      replace (20 * S k)%nat with (20 + 20 * k)%nat by lia.
      rewrite <- Hrows. f_equal. lia.
Qed.

(** X14: the pages of the preview, from the first to the last.  Whatever
    the publications are, the slices of the pages are, in order, a
    partition of the publications, each of one to twenty publications.
    When the row of every publication can be built, every page builds its
    rows, and the rows of the pages, in order, are the rows of the whole
    list, numbered from one to the number of publications. *)
Theorem preview_pages_partition (pubs : list JsVal) :
  let pages := seqZ 1 (Reports.totalPagesOf (Z.of_nat (length pubs))) in
  concat (map (Reports.pagePublications pubs) pages) = pubs
  /\ Forall (fun page =>
       (1 <= length (Reports.pagePublications pubs page) <= 20)%nat) pages
  /\ (Forall Reports.PreviewRecord pubs ->
      exists all chunks,
        Reports.previewRows 0 pubs = Ok all
        /\ Forall2 (fun page rows => Reports.pageRows pubs page = Ok rows)
                   pages chunks
        /\ concat chunks = all
        /\ map Reports.no all = seqZ 1 (Z.of_nat (length pubs))).
Proof.
  set (n := Reports.totalPagesOf (Z.of_nat (length pubs))).
  pose proof (totalPagesOf_bounds (Z.of_nat (length pubs)) ltac:(lia))
    as [Hlow Hhigh].
  fold n in Hlow, Hhigh.
  assert (Hn : 0 <= n) by lia.
  cbn zeta. split; [| split].
  - unfold seqZ. change (fmap ?f ?l) with (map f l). rewrite map_map.
    rewrite (map_ext _ _ (pagePublications_page pubs)).
    apply pages_concat. lia.
  - apply Forall_seqZ. intros page Hpage. apply page_length. fold n. lia.
  - intros Hrecords.
    destruct (previewRows_records pubs Hrecords 0) as [all Hall].
    destruct (chunk_rows (Z.to_nat n) pubs 0 all ltac:(lia) Hall)
      as (chunks & Hchunks & Hconcat).
    exists all, chunks. split; [exact Hall |]. split; [| split].
    + unfold seqZ. apply Forall2_fmap_l.
      eapply Forall2_impl; [exact Hchunks |].
      intros k rows Hrows. unfold compose. cbn beta in Hrows |- *.
      rewrite pageRows_page.
      rewrite <- Hrows. f_equal.
    + exact Hconcat.
    + apply (previewRows_numbers pubs 0 all Hall).
Qed.

(** *** The page on show *)

Lemma renderPreviewPage_state (tbody : bool) (page : Z)
    (s : Reports.PreviewState) :
  let s' := fst (Reports.renderPreviewPage tbody page s) in
  Reports.lastPreviewPublications s' = Reports.lastPreviewPublications s
  /\ (Reports.currentPreviewPage s' = page
      \/ Reports.currentPreviewPage s' = Reports.currentPreviewPage s).
Proof.
  unfold Reports.renderPreviewPage.
  destruct (Reports.lastPreviewPublications s) as [pubs |] eqn:E;
    [destruct tbody |]; cbn; rewrite ?E; auto.
Qed.

Lemma draw_state (tbody : bool) (page : Z) (s : Reports.PreviewState) :
  fst (Reports.draw tbody page s)
  = fst (Reports.renderPreviewPage tbody page s).
Proof.
  unfold Reports.draw.
  now destruct (Reports.renderPreviewPage tbody page s) as [s' [rows |]].
Qed.

Lemma act_on_a_page (tbody : bool) (s : Reports.PreviewState)
    (a : Reports.Action) :
  1 <= Reports.currentPreviewPage s <= Reports.totalPages s ->
  Reports.lastPreviewPublications (fst (Reports.act tbody s a))
  = Reports.lastPreviewPublications s
  /\ 1 <= Reports.currentPreviewPage (fst (Reports.act tbody s a))
       <= Reports.totalPages s.
Proof.
  intros Hs.
  assert (Hdraw : forall page, 1 <= page <= Reports.totalPages s ->
    let s' := fst (Reports.draw tbody page s) in
    Reports.lastPreviewPublications s' = Reports.lastPreviewPublications s
    /\ 1 <= Reports.currentPreviewPage s' <= Reports.totalPages s).
  { intros page Hpage. cbn zeta. rewrite draw_state.
    destruct (renderPreviewPage_state tbody page s) as [Hlast [E | E]];
      cbn zeta in *; rewrite E; split; auto; lia. }
  destruct a as [| | page]; cbn [Reports.act].
  - unfold Reports.goPreviewPrev.
    destruct (Reports.lastPreviewPublications s) eqn:E;
      [| cbn [fst]; now rewrite E].
    destruct (Z.ltb_spec 1 (Reports.currentPreviewPage s));
      [| cbn [fst]; now rewrite E].
    apply Hdraw. lia.
  - unfold Reports.goPreviewNext.
    destruct (Reports.lastPreviewPublications s) eqn:E;
      [| cbn [fst]; now rewrite E].
    destruct (Z.ltb_spec (Reports.currentPreviewPage s) (Reports.totalPages s));
      [| cbn [fst]; now rewrite E].
    apply Hdraw. lia.
  - unfold Reports.clickPageNumber.
    destruct (Z.leb_spec 1 page); cbn [andb]; [| auto].
    destruct (Z.leb_spec page (Reports.totalPages s)); [| auto].
    apply Hdraw. lia.
Qed.

Lemma slice_records (pubs : list JsVal) (page : Z) :
  Forall Reports.PreviewRecord pubs ->
  Forall Reports.PreviewRecord (Reports.pagePublications pubs page).
Proof.
  intros H. unfold Reports.pagePublications, Reports.slice.
  now apply Forall_take, Forall_drop.
Qed.

Lemma draw_records (tbody : bool) (page : Z) (s : Reports.PreviewState)
    (pubs : list JsVal) :
  Reports.lastPreviewPublications s = Some pubs ->
  Forall Reports.PreviewRecord pubs ->
  forall e, snd (Reports.draw tbody page s) <> Reports.Threw e.
Proof.
  intros Hlast Hrecords e.
  unfold Reports.draw, Reports.renderPreviewPage. rewrite Hlast.
  destruct tbody; [| discriminate].
  unfold Reports.pageRows.
  destruct (previewRows_records _ (slice_records pubs page Hrecords)
              ((page - 1) * Reports.PREVIEW_PAGE_SIZE)) as [rows ->].
  discriminate.
Qed.

Lemma act_records (tbody : bool) (s : Reports.PreviewState)
    (a : Reports.Action) (pubs : list JsVal) :
  Reports.lastPreviewPublications s = Some pubs ->
  Forall Reports.PreviewRecord pubs ->
  forall e, snd (Reports.act tbody s a) <> Reports.Threw e.
Proof.
  intros Hlast Hrecords e.
  pose proof (draw_records tbody) as Hdraw.
  destruct a as [| | page]; cbn [Reports.act].
  - unfold Reports.goPreviewPrev. rewrite Hlast.
    destruct (1 <? _); [now apply (Hdraw _ s pubs) | discriminate].
  - unfold Reports.goPreviewNext. rewrite Hlast.
    destruct (_ <? _); [now apply (Hdraw _ s pubs) | discriminate].
  - unfold Reports.clickPageNumber.
    destruct (_ && _); [now apply (Hdraw _ s pubs) | discriminate].
Qed.

Lemma run_on_a_page (tbody : bool) (actions : list Reports.Action)
    (pubs : list JsVal) :
  forall s : Reports.PreviewState,
  Reports.lastPreviewPublications s = Some pubs ->
  1 <= Reports.currentPreviewPage s
    <= Reports.totalPagesOf (Z.of_nat (length pubs)) ->
  let after := Reports.run tbody actions s in
  Reports.lastPreviewPublications (fst after) = Some pubs
  /\ 1 <= Reports.currentPreviewPage (fst after)
       <= Reports.totalPagesOf (Z.of_nat (length pubs))
  /\ (Forall Reports.PreviewRecord pubs ->
      Forall (fun outcome => forall e, outcome <> Reports.Threw e)
             (snd after)).
Proof.
  induction actions as [| a actions IH]; intros s Hlast Hpage;
    cbn [Reports.run].
  - cbn. auto.
  - assert (Hpages : Reports.totalPages s
                     = Reports.totalPagesOf (Z.of_nat (length pubs)))
      by (unfold Reports.totalPages; now rewrite Hlast).
    destruct (act_on_a_page tbody s a) as [Hlast' Hpage'];
      [now rewrite Hpages |].
    pose proof (act_records tbody s a pubs Hlast) as Hquiet.
    destruct (Reports.act tbody s a) as [s' outcome]. cbn [fst snd] in *.
    rewrite Hlast in Hlast'. rewrite Hpages in Hpage'.
    destruct (IH s' Hlast' Hpage') as (L & P & Q).
    destruct (Reports.run tbody actions s') as [s'' outcomes].
    cbn [fst snd] in *. split; [exact L | split; [exact P |]].
    intros Hrecords. constructor; [now apply Hquiet | now apply Q].
Qed.

(** X15: once a preview with publications is loaded and its summary
    written, the previous and next buttons and the page numbers, in any
    order and number, keep the publications of the preview and leave the
    page on show between the first and the last page, whatever the
    publications are.  When the row of every publication can be built, no
    click throws, and the page on show has between one and twenty rows. *)
Theorem preview_stays_on_a_page (tbody : bool) (pubs : list JsVal)
    (s0 : Reports.PreviewState) (actions : list Reports.Action) :
  pubs <> [] ->
  let after := Reports.run tbody actions
                 (fst (Reports.previewLoaded false pubs s0)) in
  Reports.lastPreviewPublications (fst after) = Some pubs
  /\ 1 <= Reports.currentPreviewPage (fst after)
       <= Reports.totalPagesOf (Z.of_nat (length pubs))
  /\ (Forall Reports.PreviewRecord pubs ->
      Forall (fun outcome => forall e, outcome <> Reports.Threw e)
             (snd after)
      /\ exists rows,
           snd (Reports.renderPreviewPage true
                  (Reports.currentPreviewPage (fst after)) (fst after))
           = Ok (Some rows)
           /\ (1 <= length rows <= 20)%nat).
Proof.
  intros Hpubs.
  assert (Hloaded : fst (Reports.previewLoaded false pubs s0)
    = {| Reports.lastPreviewPublications := Some pubs;
         Reports.currentPreviewPage := 1 |}).
  { unfold Reports.previewLoaded.
    destruct pubs as [| pub pubs]; [congruence |].
    cbn [length Nat.eqb]. rewrite draw_state. reflexivity. }
  rewrite Hloaded. clear Hloaded.
  pose proof (totalPagesOf_bounds (Z.of_nat (length pubs)) ltac:(lia))
    as [_ Hhigh].
  assert (Hlen : 0 < Z.of_nat (length pubs))
    by (destruct pubs; [congruence | cbn [length]; lia]).
  destruct (run_on_a_page tbody actions pubs
              {| Reports.lastPreviewPublications := Some pubs;
                 Reports.currentPreviewPage := 1 |} eq_refl)
    as (Hlast & Hpage & Hquiet); [cbn; lia |].
  cbn zeta. split; [exact Hlast | split; [exact Hpage |]].
  intros Hrecords. split; [now apply Hquiet |].
  unfold Reports.renderPreviewPage. rewrite Hlast. cbn [snd].
  set (page := Reports.currentPreviewPage _) in *.
  unfold Reports.pageRows.
  destruct (previewRows_records _ (slice_records pubs page Hrecords)
              ((page - 1) * Reports.PREVIEW_PAGE_SIZE)) as [rows Hrows].
  rewrite Hrows. exists rows. split; [reflexivity |].
  rewrite (previewRows_length _ _ _ Hrows). now apply page_length.
Qed.

(** X16: the pagination is shown exactly for a preview of more than twenty
    publications; on a page between the first and the last, whenever
    [renderPreviewPage] writes the rows of the page on show, their numbers
    are the range of the line "Showing a-b of n", whose n is the number of
    publications; the previous button is disabled on the first page only
    and the next button on the last page only, and the page numbers are
    the page on show and at most the two after it, none beyond the last
    page. *)
Theorem pagination_matches_rows (s : Reports.PreviewState)
    (pubs : list JsVal) :
  Reports.lastPreviewPublications s = Some pubs ->
  1 <= Reports.currentPreviewPage s <= Reports.totalPages s ->
  (Reports.renderPagination s = None <-> (length pubs <= 20)%nat)
  /\ forall view, Reports.renderPagination s = Some view ->
       (forall rows,
          snd (Reports.renderPreviewPage true
                 (Reports.currentPreviewPage s) s) = Ok (Some rows) ->
          map Reports.no rows
          = seqZ (Reports.showingFrom view)
                 (Reports.showingTo view - Reports.showingFrom view + 1))
       /\ Reports.showingOf view = Z.of_nat (length pubs)
       /\ (Reports.prevDisabled view = true
           <-> Reports.currentPreviewPage s = 1)
       /\ (Reports.nextDisabled view = true
           <-> Reports.currentPreviewPage s = Reports.totalPages s)
       /\ head (Reports.pageNumbers view)
          = Some (Reports.currentPreviewPage s)
       /\ (length (Reports.pageNumbers view) <= 3)%nat
       /\ Forall (fun page =>
            Reports.currentPreviewPage s <= page <= Reports.totalPages s)
            (Reports.pageNumbers view).
Proof.
  intros Hlast Hpage.
  unfold Reports.renderPagination, Reports.renderPreviewPage.
  rewrite Hlast.
  unfold Reports.totalPages in *. rewrite Hlast in *.
  pose proof (page_length pubs (Reports.currentPreviewPage s) Hpage)
    as Hslice.
  set (total := Z.of_nat (length pubs)) in *.
  set (pages := Reports.totalPagesOf total) in *.
  set (page := Reports.currentPreviewPage s) in *.
  pose proof (totalPagesOf_bounds total ltac:(unfold total; lia))
    as [Hlow Hhigh].
  fold pages in Hlow, Hhigh. unfold Reports.PREVIEW_PAGE_SIZE.
  split.
  - destruct (Z.leb_spec total 20); split; intros H';
      try discriminate; try reflexivity; unfold total in *; lia.
  - intros view. destruct (Z.leb_spec total 20) as [| Hmany];
      [discriminate |].
    intros [= <-]. cbn.
    repeat match goal with |- _ /\ _ => split end.
    + intros rows Hrows. unfold Reports.pageRows in Hrows.
      destruct (Reports.previewRows _ _) as [rows' |] eqn:Hbuilt;
        [| discriminate Hrows].
      injection Hrows as <-.
      rewrite (previewRows_numbers _ _ _ Hbuilt).
      unfold Reports.PREVIEW_PAGE_SIZE. f_equal.
      replace page with (Z.of_nat (Z.to_nat (page - 1)) + 1) in Hslice |- *
        by lia.
      rewrite pagePublications_page, length_take, length_drop in Hslice |- *.
      unfold total in *. lia.
    + reflexivity.
    + destruct (Z.leb_spec page 1); split; intros; try discriminate;
        try reflexivity; lia.
    + destruct (Z.leb_spec pages page); split; intros; try discriminate;
        try reflexivity; lia.
    + unfold seqZ.
      destruct (Z.to_nat (Z.min (page + 2) pages - page + 1)) eqn:E;
        [lia |].
      cbn. f_equal.
    + rewrite length_seqZ. lia.
    + apply Forall_seqZ. intros p Hp. lia.
Qed.

(** X18: a [null] among the publications of a page stops the page.
    [renderPreviewPage] has then assigned the page number and throws
    before it writes a row, and the listener that called it ends there,
    without a call of [renderPagination]. *)
Theorem null_publication_stops_the_page (s : Reports.PreviewState)
    (pubs : list JsVal) (page : Z) :
  Reports.lastPreviewPublications s = Some pubs ->
  List.In JNull (Reports.pagePublications pubs page) ->
  exists e,
    Reports.renderPreviewPage true page s
    = ({| Reports.lastPreviewPublications := Some pubs;
          Reports.currentPreviewPage := page |}, Throw e)
    /\ Reports.draw true page s
       = ({| Reports.lastPreviewPublications := Some pubs;
             Reports.currentPreviewPage := page |}, Reports.Threw e).
Proof.
  intros Hlast Hnull.
  unfold Reports.draw, Reports.renderPreviewPage. rewrite Hlast.
  unfold Reports.pageRows.
  destruct (previewRows_null _ Hnull
              ((page - 1) * Reports.PREVIEW_PAGE_SIZE)) as [e ->].
  exists e. split; reflexivity.
Qed.

(** ** The names of departments *)

Lemma trimStart_head (l : list ascii) :
  Str.trimStart l = []
  \/ exists c r, Str.trimStart l = c :: r /\ Str.isWhiteSpace c = false.
Proof.
  induction l as [| c l IH]; cbn [Str.trimStart]; [now left |].
  destruct (Str.isWhiteSpace c) eqn:E; [exact IH |].
  right. now exists c, l.
Qed.

Lemma trimStart_last (y : list ascii) (c : ascii) :
  Str.isWhiteSpace c = false ->
  exists y', Str.trimStart (y ++ [c]) = y' ++ [c].
Proof.
  intros Hc. induction y as [| a y IH]; cbn [app Str.trimStart].
  - rewrite Hc. now exists [].
  - destruct (Str.isWhiteSpace a); [exact IH |]. now exists (a :: y).
Qed.

Lemma trimEnd_last (y : list ascii) (c : ascii) :
  Str.isWhiteSpace c = false -> Str.trimEnd (y ++ [c]) = y ++ [c].
Proof.
  intros Hc. unfold Str.trimEnd. rewrite rev_app_distr.
  cbn [rev app Str.trimStart]. rewrite Hc.
  cbn [rev]. now rewrite rev_involutive.
Qed.

Lemma trim_idem (l : list ascii) : Str.trim (Str.trim l) = Str.trim l.
Proof.
  unfold Str.trim at 2 3. unfold Str.trimEnd.
  destruct (trimStart_head (rev l)) as [-> | (c & r & -> & Hc)].
  - reflexivity.
  - cbn [rev]. destruct (trimStart_last (rev r) c Hc) as [y' Hy'].
    unfold Str.trim. rewrite Hy', (trimEnd_last y' c Hc), <- Hy'.
    apply StrFacts.trimStart_idem.
Qed.

Lemma faculty_trim_idem (s : string) :
  Faculty.trim (Faculty.trim s) = Faculty.trim s.
Proof.
  unfold Faculty.trim.
  now rewrite list_ascii_of_string_of_list_ascii, trim_idem.
Qed.

(** X17: the normal form of a department name is the empty string or a
    trimmed name that is neither the placeholder of the selects nor the
    name of the college of architecture written with a comma, and
    normalising a normal form changes nothing. *)
Theorem normalizeDepartmentName_normal_form (name : JsVal) :
  let norm := Faculty.normalizeDepartmentName name in
  Faculty.normalizeDepartmentName (JStr norm) = norm
  /\ Faculty.trim norm = norm
  /\ norm <> Faculty.PLACEHOLDER
  /\ norm <> "College of Architecture, Fine Arts and Design"%string.
Proof.
  cbn zeta. set (norm := Faculty.normalizeDepartmentName name).
  assert (Hcases : norm = EmptyString
    \/ norm = "College of Architecture Fine Arts and Design"%string
    \/ (Faculty.trim norm = norm /\ norm <> EmptyString
        /\ norm <> Faculty.PLACEHOLDER
        /\ norm <> "College of Architecture, Fine Arts and Design"%string)).
  { unfold norm, Faculty.normalizeDepartmentName.
    destruct name as [| | b | n | s | l | m]; auto.
    destruct (negb (Js.truthy (JStr s))); [auto |].
    destruct (String.eqb_spec (Faculty.trim s) EmptyString); [auto |].
    destruct (String.eqb_spec (Faculty.trim s) Faculty.PLACEHOLDER);
      [auto |].
    cbn [orb].
    destruct (String.eqb_spec (Faculty.trim s)
                "College of Architecture, Fine Arts and Design"); [auto |].
    right. right. auto using faculty_trim_idem. }
  clearbody norm.
  destruct Hcases as [-> | [-> | (Htrim & Hne & Hnp & Hnc)]].
  - repeat split; discriminate.
  - repeat split; try discriminate; vm_compute; reflexivity.
  - repeat split; try assumption.
    unfold Faculty.normalizeDepartmentName. cbn [Js.truthy]. rewrite Htrim.
    destruct (String.eqb_spec norm EmptyString); [contradiction |].
    destruct (String.eqb_spec norm Faculty.PLACEHOLDER); [contradiction |].
    destruct (String.eqb_spec norm
                "College of Architecture, Fine Arts and Design");
      [contradiction | reflexivity].
Qed.

(** ** The further properties at the sample data *)

Lemma cache_valid_for_a_day_witness :
  isCacheValid Sample.march2024
    (setCachedData Sample.stringify Sample.march2024 Sample.envelope ∅) = true
  /\ isCacheValid Sample.march2024
       (setCachedData Sample.stringify Sample.february2023 Sample.envelope ∅)
     <> true.
Proof.
  split.
  - apply (proj2 (cache_valid_for_a_day Sample.stringify Sample.march2024
                    Sample.march2024 Sample.envelope ∅
                    ltac:(vm_compute; split; reflexivity))).
    reflexivity.
  - intros H.
    apply (proj1 (cache_valid_for_a_day Sample.stringify Sample.february2023
                    Sample.march2024 Sample.envelope ∅
                    ltac:(vm_compute; split; reflexivity))) in H.
    vm_compute in H. discriminate.
Defined.

Lemma storage_written_only_on_success_witness :
  fst (loadAllData Sample.parse Sample.stringify Sample.neverThrows
         Sample.march2024 (Response true (Ok Sample.envelope)) ∅)
  = setCachedData Sample.stringify Sample.march2024 Sample.envelope ∅
  /\ fst (loadAllData Sample.parse Sample.stringify Sample.neverThrows
            Sample.march2024 Rejected Sample.staleStorage)
     = Sample.staleStorage.
Proof.
  destruct (storage_written_only_on_success Sample.parse Sample.stringify
              Sample.neverThrows Sample.march2024
              (Response true (Ok Sample.envelope)) ∅) as (W & _ & _).
  destruct (storage_written_only_on_success Sample.parse Sample.stringify
              Sample.neverThrows Sample.march2024 Rejected
              Sample.staleStorage) as (_ & F & _).
  split.
  - destruct W as (data & E & _ & S).
    + intros H. apply (f_equal (fun m : Storage => m !! CACHE_KEY)) in H.
      vm_compute in H. discriminate.
    + injection E as <-. exact S.
  - apply F. exact I.
Defined.

Lemma second_load_served_from_cache_witness :
  loadAllData Sample.parse Sample.stringify Sample.neverThrows
    Sample.march2024 Rejected
    (fst (loadAllData Sample.parse Sample.stringify Sample.neverThrows
            Sample.march2024 (Response true (Ok Sample.envelope))
            Sample.staleStorage))
  = (setCachedData Sample.stringify Sample.march2024 Sample.envelope
       Sample.staleStorage,
     [EvConsole Log "Using cached data"; EvRender (JObj Sample.stats)]).
Proof.
  destruct (second_load_served_from_cache Sample.parse Sample.stringify
              Sample.neverThrows Sample.march2024 Sample.march2024 Rejected
              Sample.envelope Sample.staleStorage
              eq_refl ltac:(discriminate) eq_refl eq_refl eq_refl
              ltac:(vm_compute; split; reflexivity) eq_refl) as [S L].
  rewrite L, S. reflexivity.
Defined.

Lemma year_filter_is_local_witness :
  fst (loadDashboardData Sample.parse Sample.stringify Sample.neverThrows
         Sample.march2024 Rejected "2023" Sample.freshStorage)
  = Sample.freshStorage
  /\ ~ List.In EvFetch
         (snd (loadDashboardData Sample.parse Sample.stringify
                 Sample.neverThrows Sample.march2024 Rejected "2023"
                 Sample.freshStorage)).
Proof.
  destruct (year_filter_is_local Sample.parse Sample.stringify
              Sample.neverThrows Sample.march2024 Rejected "2023"
              Sample.freshStorage eq_refl) as (S & F & _).
  split; [exact S | exact F].
Defined.


Lemma year_filter_selects_witness :
  filterByYear 2023 Examples.mixed = Ok Examples.selected
  /\ sublist Examples.selected Examples.mixed
  /\ filterByYear 2023 Examples.selected = Ok Examples.selected.
Proof.
  destruct (year_filter_selects 2023 Examples.mixed Examples.selected eq_refl)
    as (S & _ & I).
  split; [reflexivity | split; [exact S | exact I]].
Defined.

Lemma aggregation_ignores_order_witness :
  quarterlyPass true 1 Sample.publications
  = quarterlyPass true 1 (rev Sample.publications)
  /\ collegePass Sample.collegeRecords
     = collegePass (rev Sample.collegeRecords).
Proof.
  split.
  - exact (proj1 (aggregation_ignores_order Sample.publications
                    (rev Sample.publications)
                    (Permutation_rev Sample.publications)) true 1).
  - apply (proj2 (aggregation_ignores_order Sample.collegeRecords
                    (rev Sample.collegeRecords)
                    (Permutation_rev Sample.collegeRecords))).
    repeat constructor; eexists; reflexivity.
Defined.

Lemma current_year_figures_grow_witness :
  exists t t',
    quarterlyPass true (currentQuarterOf 2) Sample.publications = Ok t
    /\ quarterlyPass true (currentQuarterOf 11) Sample.publications = Ok t'
    /\ q2 (quarterly_counts t) <= q2 (quarterly_counts t').
Proof.
  destruct (current_year_figures_grow 2 11 Sample.publications)
    as (t & t' & E & E' & _ & Q2 & _); [| lia | lia | lia |].
  - repeat constructor.
  - exists t, t'. split; [exact E | split; [exact E' | lia]].
Defined.

Lemma last_quarter_truncates_nothing_witness :
  exists current other,
    quarterlyPass true (currentQuarterOf 11) Sample.publications = Ok current
    /\ quarterlyPass false 1 Sample.publications = Ok other
    /\ quarterly_counts current = quarterly_counts other.
Proof.
  destruct (last_quarter_truncates_nothing 11 1 Sample.publications)
    as (current & other & E & E' & Q & _); [| lia |].
  - repeat constructor.
  - exists current, other. split; [exact E | split; [exact E' | exact Q]].
Defined.

Lemma quarter_mappings_agree_witness :
  pubQuarterOf 5 = currentQuarterOf 5
  /\ pubQuarterOf 13 = 0 /\ currentQuarterOf 13 = 1.
Proof.
  split.
  - apply (proj1 (quarter_mappings_agree 5)). lia.
  - apply (proj2 (quarter_mappings_agree 13)). right. lia.
Defined.

Lemma boxText_shows_the_count_witness :
  boxText (JInt 7) = Ok "07"%string
  /\ Str.parseInt "07" 10 = Some 7.
Proof.
  destruct (boxText_shows_the_count 7) as (text & E & _ & P & T & _).
  - vm_compute. split; [discriminate | reflexivity].
  - rewrite (T ltac:(lia)) in E, P. split; [exact E | exact P].
Defined.

Lemma sample_preview : Forall Reports.PreviewRecord Examples.preview.
Proof.
  apply List.Forall_forall. intros p Hp.
  apply repeat_spec in Hp. subst p.
  repeat split. intros _. now eexists.
Defined.

Lemma preview_pages_partition_witness :
  exists chunks,
    Forall2 (fun page rows => Reports.pageRows Examples.preview page = Ok rows)
            [1; 2; 3] chunks
    /\ map Reports.no (concat chunks) = seqZ 1 45.
Proof.
  destruct (proj2 (proj2 (preview_pages_partition Examples.preview))
              sample_preview) as (all & chunks & _ & F & C & N).
  exists chunks. split; [exact F |]. rewrite C. exact N.
Defined.

Lemma preview_stays_on_a_page_witness :
  Examples.preview <> []
  /\ Reports.currentPreviewPage
       (fst (Reports.run true Examples.clicks
               (fst (Reports.previewLoaded false Examples.preview
                       {| Reports.lastPreviewPublications := None;
                          Reports.currentPreviewPage := 1 |}))))
     <= 3
  /\ Forall (fun outcome => forall e, outcome <> Reports.Threw e)
       (snd (Reports.run true Examples.clicks
               (fst (Reports.previewLoaded false Examples.preview
                       {| Reports.lastPreviewPublications := None;
                          Reports.currentPreviewPage := 1 |})))).
Proof.
  assert (H : Examples.preview <> []) by discriminate.
  split; [exact H |].
  destruct (preview_stays_on_a_page true Examples.preview
              {| Reports.lastPreviewPublications := None;
                 Reports.currentPreviewPage := 1 |} Examples.clicks H)
    as (_ & P & R).
  split; [exact (proj2 P) | exact (proj1 (R sample_preview))].
Defined.

Lemma pagination_matches_rows_witness :
  exists view rows,
    Reports.renderPagination Examples.secondPage = Some view
    /\ snd (Reports.renderPreviewPage true 2 Examples.secondPage)
       = Ok (Some rows)
    /\ map Reports.no rows = seqZ 21 20
    /\ Reports.pageNumbers view = [2; 3].
Proof.
  destruct (pagination_matches_rows Examples.secondPage Examples.preview
              eq_refl ltac:(vm_compute; split; discriminate)) as [_ V].
  do 2 eexists. split; [reflexivity |]. split; [reflexivity |].
  split; [| reflexivity].
  exact (proj1 (V _ eq_refl) _ eq_refl).
Defined.

Lemma null_publication_stops_the_page_witness :
  exists e,
    Reports.draw true 1
      {| Reports.lastPreviewPublications := Some [Examples.paper; JNull];
         Reports.currentPreviewPage := 3 |}
    = ({| Reports.lastPreviewPublications := Some [Examples.paper; JNull];
          Reports.currentPreviewPage := 1 |}, Reports.Threw e).
Proof.
  destruct (null_publication_stops_the_page
              {| Reports.lastPreviewPublications :=
                   Some [Examples.paper; JNull];
                 Reports.currentPreviewPage := 3 |}
              [Examples.paper; JNull] 1 eq_refl) as (e & _ & D).
  - right. left. reflexivity.
  - exists e. exact D.
Defined.
